(** * geditpylint: the pylint plugin for gedit 3

    A shallow embedding of [src/geditpylint.py]: the parser of pylint's
    output ([lint_parse]), the choice of a highlight colour, the computation
    of the highlighted range ([run_pylint], [forward_to_char]), the
    life cycle of the records kept in [self.lint_messages], the handler of
    the cursor ([show_lint_message]) and the tabs and signals of the window
    ([tab_added], [attach_signal], [do_activate], [do_deactivate],
    [do_update_state]).

    Python's [str] is a list of characters, exceptions are values of [exn],
    and the objects the plugin mutates (its own [lint_messages], the
    document's tag table and highlights, the error stream) live in one
    [world] threaded through a state-and-exception monad. *)

From Stdlib Require Import List Ascii String ZArith QArith_base Lia Bool Arith.
From Stdlib Require Import DecimalString.
From Stdlib Require DecimalNat DecimalFacts.
Import ListNotations.

Local Open Scope char_scope.
Local Open Scope list_scope.
Local Open Scope nat_scope.

(** ** Python values *)

Definition str := list ascii.

(** A string literal. *)
Definition s2l (s : string) : str := list_ascii_of_string s.

Inductive exn : Type :=
| IndexError
| ValueError
| KeyError
| UnboundLocalError
| AttributeError
| HostUndefined.

(** The outcome of a statement: a value, an exception that was raised, or
    [Hang] when a loop of the program does not come to an end. *)
Inductive result (A : Type) : Type :=
| Ok (a : A)
| Raise (e : exn)
| Hang.
Arguments Ok {A} a.
Arguments Raise {A} e.
Arguments Hang {A}.

Module Py.

(** [s[i]]. *)
Definition index (s : str) (i : nat) : result ascii :=
  match nth_error s i with
  | Some c => Ok c
  | None => Raise IndexError
  end.

(** [s.split(sep)] for a separator of one character. *)
Fixpoint split (sep : ascii) (s : str) : list str :=
  match s with
  | [] => [[]]
  | c :: s' =>
      if Ascii.eqb c sep then [] :: split sep s'
      else match split sep s' with
           | [] => [[c]]
           | f :: fs => (c :: f) :: fs
           end
  end.

Fixpoint startswith (p s : str) : bool :=
  match p, s with
  | [], _ => true
  | _ :: _, [] => false
  | a :: p', b :: s' => Ascii.eqb a b && startswith p' s'
  end.

(** [needle in hay] on strings: substring containment. *)
Fixpoint contains (needle hay : str) : bool :=
  startswith needle hay ||
  match hay with
  | [] => false
  | _ :: hay' => contains needle hay'
  end.

(** [x in l] on a list of strings. *)
Definition str_eqb (a b : str) : bool :=
  if list_eq_dec ascii_dec a b then true else false.

Definition in_list (x : str) (l : list str) : bool := existsb (str_eqb x) l.

(** [string.whitespace]. *)
Definition whitespace : str :=
  [" "; "009"; "010"; "013"; "011"; "012"].

(** [enumerate(l)]. *)
Fixpoint enumerate_from {A} (n : nat) (l : list A) : list (nat * A) :=
  match l with
  | [] => []
  | x :: l' => (n, x) :: enumerate_from (S n) l'
  end.

Definition enumerate {A} (l : list A) : list (nat * A) := enumerate_from 0 l.

(** ['{}'.format(n)] for a non-negative integer. *)
Definition format_nat (n : nat) : str :=
  s2l (NilZero.string_of_uint (Nat.to_uint n)).

(** [int(s)] in base ten: blanks around the number are dropped, one sign
    is allowed, and single underscores may separate digits.  The blanks
    [int] drops are the ASCII whitespace (tab to carriage return, and the
    space) and, a character being a code point below 256, U+0085 and
    U+00A0; the separators U+001C to U+001F are not among them. *)
Definition is_space (c : ascii) : bool :=
  let n := nat_of_ascii c in
  ((9 <=? n) && (n <=? 13)) || (n =? 32) || (n =? 133) || (n =? 160).

Fixpoint lstrip (s : str) : str :=
  match s with
  | [] => []
  | c :: r => if is_space c then lstrip r else s
  end.

Definition strip (s : str) : str := rev (lstrip (rev (lstrip s))).

Definition digit_val (c : ascii) : option Z :=
  let n := nat_of_ascii c in
  if (48 <=? n) && (n <=? 57) then Some (Z.of_nat (n - 48)) else None.

Fixpoint digits (acc : Z) (prev_digit : bool) (s : str) : option Z :=
  match s with
  | [] => if prev_digit then Some acc else None
  | c :: r =>
      if Ascii.eqb c "_" then
        if prev_digit then digits acc false r else None
      else
        match digit_val c with
        | Some d => digits (10 * acc + d) true r
        | None => None
        end
  end.

Definition int (s : str) : result Z :=
  let body :=
    match strip s with
    | "-" :: r => option_map Z.opp (digits 0 false r)
    | "+" :: r => digits 0 false r
    | r => digits 0 false r
    end in
  match body with
  | Some z => Ok z
  | None => Raise ValueError
  end.

End Py.

(** ** Colours, tags, documents and the plugin's state *)

(** [Gdk.RGBA(red, green, blue, alpha)]; the channel values the plugin uses
    are all dyadic, so they are exact as rationals. *)
Record RGBA : Type := { red : Q; green : Q; blue : Q; alpha : Q }.

(** A text tag.  Python compares and hashes tags by identity: [tag_id] is
    the identity of the object, distinct for every tag that is created. *)
Record tag : Type := {
  tag_id : nat;
  tag_name : str;
  background_rgba : RGBA
}.

Definition tag_eqb (a b : tag) : bool := Nat.eqb (tag_id a) (tag_id b).

(** The dictionary [lint_parse] stores for one message. *)
Record status : Type := { line : str; column : str; message : str }.

(** The document as the plugin sees it: its location ([None] while the
    document has none, [Some None] for a location without a local path),
    its text, the tag table of its buffer and the ranges tags are applied
    to. *)
Record document : Type := {
  doc_location : option (option str);
  doc_text : str;
  tag_table : list tag;
  applied : list (tag * (nat * nat))
}.

(** [document.get_location().get_path()], when the document has a location
    and the location has a path. *)
Definition doc_path (d : document) : option str :=
  match doc_location d with
  | Some (Some filename) => Some filename
  | _ => None
  end.

(** Everything a run can change: [self.lint_messages] (a dictionary keyed
    by tag, in insertion order), the document, what was printed to
    [sys.stderr], and the identity of the next object to be created. *)
Record world : Type := {
  lint_messages : list (tag * status);
  doc : document;
  stderr : list str;
  next_id : nat
}.

Definition M (A : Type) : Type := world -> result A * world.

Definition ret {A} (a : A) : M A := fun w => (Ok a, w).

Definition raise {A} (e : exn) : M A := fun w => (Raise e, w).

Definition bind {A B} (m : M A) (f : A -> M B) : M B :=
  fun w =>
    match m w with
    | (Ok a, w') => f a w'
    | (Raise e, w') => (Raise e, w')
    | (Hang, w') => (Hang, w')
    end.

Definition lift {A} (r : result A) : M A := fun w => (r, w).

Notation "x <- m ;; k" := (bind m (fun x => k))
  (at level 61, m at next level, right associativity).
Notation "m ;;; k" := (bind m (fun _ => k))
  (at level 61, right associativity).

Definition set_messages (l : list (tag * status)) (w : world) : world :=
  {| lint_messages := l; doc := doc w; stderr := stderr w; next_id := next_id w |}.

Definition set_doc (d : document) (w : world) : world :=
  {| lint_messages := lint_messages w; doc := d; stderr := stderr w;
     next_id := next_id w |}.

(** ** The colour table of [__init__] *)

Local Open Scope Q_scope.

Definition color_F : RGBA := {| red := 1; green := 0; blue := 0; alpha := 1 # 4 |}.
Definition color_E : RGBA := {| red := 1; green := 1 # 2; blue := 1 # 2; alpha := 1 # 4 |}.
Definition color_W : RGBA := {| red := 1; green := 1; blue := 1 # 2; alpha := 1 # 4 |}.
Definition color_R : RGBA := {| red := 1 # 2; green := 1; blue := 1 # 2; alpha := 1 # 4 |}.
Definition color_C : RGBA := {| red := 1 # 2; green := 1 # 2; blue := 1; alpha := 1 # 4 |}.
Definition color_O : RGBA := {| red := 0; green := 0; blue := 0; alpha := 1 # 2 |}.

Local Close Scope Q_scope.
Local Open Scope nat_scope.

(** [self.lint_color], keyed by the one-character strings 'F', 'E', 'W',
    'R', 'C' and 'O'. *)
Definition lint_color : list (ascii * RGBA) :=
  [("F", color_F); ("E", color_E); ("W", color_W);
   ("R", color_R); ("C", color_C); ("O", color_O)].

Fixpoint dict_get {V} (k : ascii) (d : list (ascii * V)) : option V :=
  match d with
  | [] => None
  | (k', v) :: d' => if Ascii.eqb k k' then Some v else dict_get k d'
  end.

(** [self.word_end_exceptions]. *)
Definition word_end_exceptions : list str := [["-"]; ["_"]].

(** The three branches of the test on the message type in [lint_parse]:
    the character is a key of [lint_color], it is 'I', or anything else. *)
Inductive color_choice : Type :=
| Recognized (c : RGBA)
| Ignored
| Fallback (c : RGBA).

Definition choose_color (c : ascii) : result color_choice :=
  match dict_get c lint_color with
  | Some color => Ok (Recognized color)
  | None =>
      if Ascii.eqb c "I" then Ok Ignored
      else match dict_get "O" lint_color with
           | Some color => Ok (Fallback color)
           | None => Raise KeyError
           end
  end.

(** What the rest of [lint_parse] sees of the choice: the colour of the tag
    to create, or nothing for a message that is dropped. *)
Definition chosen (ch : color_choice) : option RGBA :=
  match ch with
  | Recognized c => Some c
  | Ignored => None
  | Fallback c => Some c
  end.

(** ** The tag table and the highlights of the document's buffer

    The calls the plugin makes on the buffer, as the toolkit documents
    them: removing a tag from the table also removes it from the text; a
    tag is added to the table only when no tag of the table has its name;
    a tag that is not in the table of the buffer cannot be applied. *)
Module Gtk.

Definition in_table (t : tag) (d : document) : bool :=
  existsb (tag_eqb t) (tag_table d).

Definition name_in_table (name : str) (d : document) : bool :=
  existsb (fun u => Py.str_eqb name (tag_name u)) (tag_table d).

(** [document.get_tag_table().remove(tag)].  A tag that is not in the
    table is on no range of the text, and nothing changes for it. *)
Definition remove (t : tag) (d : document) : document :=
  {| doc_location := doc_location d;
     doc_text := doc_text d;
     tag_table := filter (fun u => negb (tag_eqb t u)) (tag_table d);
     applied := filter (fun a => negb (tag_eqb t (fst a))) (applied d) |}.

(** [document.get_tag_table().add(tag)]. *)
Definition add (t : tag) (d : document) : document :=
  if name_in_table (tag_name t) d then d
  else
    {| doc_location := doc_location d;
       doc_text := doc_text d;
       tag_table := tag_table d ++ [t];
       applied := applied d |}.

(** [document.apply_tag(tag, start_iter, end_iter)], the iterators given
    by their offsets. *)
Definition apply_tag (t : tag) (start_offset end_offset : nat)
                     (d : document) : document :=
  if in_table t d then
    {| doc_location := doc_location d;
       doc_text := doc_text d;
       tag_table := tag_table d;
       applied := applied d ++ [(t, (start_offset, end_offset))] |}
  else d.

End Gtk.

(** [document.create_tag(name, background_rgba=color)]: a new tag object,
    added to the table of the document, and returned in any case. *)
Definition create_tag (name : str) (color : RGBA) : M tag :=
  fun w =>
    let t := {| tag_id := next_id w; tag_name := name;
                background_rgba := color |} in
    (Ok t,
     {| lint_messages := lint_messages w;
        doc := Gtk.add t (doc w);
        stderr := stderr w;
        next_id := S (next_id w) |}).

(** [d[tag] = v] on a dictionary keyed by tag. *)
Fixpoint dict_set (t : tag) (v : status) (d : list (tag * status))
  : list (tag * status) :=
  match d with
  | [] => [(t, v)]
  | (t', v') :: d' =>
      if tag_eqb t t' then (t', v) :: d' else (t', v') :: dict_set t v d'
  end.

Definition messages_setitem (t : tag) (v : status) : M unit :=
  fun w => (Ok tt, set_messages (dict_set t v (lint_messages w)) w).

Definition messages_clear : M unit :=
  fun w => (Ok tt, set_messages [] w).

(** ** [lint_parse] *)

(** One turn of the loop of [lint_parse] on line number [n] of pylint's
    output; the result is the value of [after_header] for the next turn.
    A line is never [None], and [message is ''] holds of every empty
    line, the empty string being one object. *)
Definition lint_parse_line (after_header : bool) (n : nat) (message : str)
  : M bool :=
  if negb after_header then
    c <- lift (Py.index message 0) ;;
    if Ascii.eqb "*" c && Py.contains (s2l "***") message
    then ret true
    else ret false
  else
    match message with
    | [] => ret true
    | _ :: _ =>
        c <- lift (Py.index message 0) ;;
        if Py.contains [c] Py.whitespace then ret true
        else
          match Py.split ":" message with
          | [line; column; status_txt] =>
              c1 <- lift (Py.index status_txt 1) ;;
              ch <- lift (choose_color c1) ;;
              match chosen ch with
              | None => ret true
              | Some color =>
                  t <- create_tag (s2l "pylint-" ++ Py.format_nat n) color ;;
                  messages_setitem t {| line := line; column := column;
                                        message := status_txt |} ;;;
                  ret true
              end
          | _ => raise ValueError
          end
    end.

Fixpoint lint_parse_loop (after_header : bool) (items : list (nat * str))
  : M bool :=
  match items with
  | [] => ret after_header
  | (n, message) :: rest =>
      ah <- lint_parse_line after_header n message ;;
      lint_parse_loop ah rest
  end.

Definition lint_parse (messages : str) : M unit :=
  messages_clear ;;;
  lint_parse_loop false (Py.enumerate (Py.split "010" messages)) ;;;
  ret tt.

(** ** Positions in the text of the document

    A [Gtk.TextIter] is given by its character offset in the text of the
    buffer; an iterator is a value, so [copy()] is the identity.  Lines end
    with a newline character.  Each operation follows the toolkit's
    documentation of the method of the same name. *)
Module TextIter.

(** The number of characters before the first newline of [s]. *)
Fixpoint to_newline (s : str) : nat :=
  match s with
  | [] => 0
  | c :: r => if Ascii.eqb c "010" then 0 else S (to_newline r)
  end.

(** The offset at which the line that contains offset [p] ends: its
    newline character, or the end of the text. *)
Definition line_end (text : str) (p : nat) : nat :=
  p + to_newline (skipn p text).

(** The offset at which line [n] (counted from zero) starts, when the
    text has such a line. *)
Fixpoint line_start (text : str) (n : nat) : option nat :=
  match n with
  | 0 => Some 0
  | S n' =>
      let k := to_newline text in
      match skipn k text with
      | [] => None
      | _ :: rest => option_map (fun o => S k + o) (line_start rest n')
      end
  end.

(** [document.get_iter_at_line_offset(line, column)].  The toolkit
    defines it for a line of the buffer and an offset within that line;
    elsewhere its behaviour changed between versions, and is left
    undefined here. *)
Definition get_iter_at_line_offset (text : str) (line column : Z)
  : result nat :=
  if (line <? 0)%Z || (column <? 0)%Z then Raise HostUndefined
  else
    match line_start text (Z.to_nat line) with
    | None => Raise HostUndefined
    | Some s =>
        if Z.to_nat column <=? to_newline (skipn s text)
        then Ok (s + Z.to_nat column)
        else Raise HostUndefined
    end.

(** [it.ends_line()]: the iterator is at a newline or at the end of the
    text. *)
Definition ends_line (text : str) (p : nat) : bool :=
  Nat.eqb (line_end text p) p.

(** [it.forward_to_line_end()]: to the end of the line.  The toolkit
    documents the case of an iterator that is at the end of its line
    already: it "moves to the paragraph delimiter characters for the next
    line", and stays where it is on the last line. *)
Definition forward_to_line_end (text : str) (p : nat) : nat :=
  if p <? line_end text p then line_end text p
  else if p <? List.length text then line_end text (S p)
  else p.

(** [it.get_char()]: the character at the iterator, as a string; the
    empty string at the end of the text. *)
Definition get_char (text : str) (p : nat) : str :=
  match nth_error text p with
  | Some c => [c]
  | None => []
  end.

(** [it.forward_char()]. *)
Definition forward_char (text : str) (p : nat) : nat :=
  if p <? List.length text then S p else p.

End TextIter.

(** The process [subprocess.Popen] starts, as far as [run_pylint] looks at
    it: pylint was not found, or it ran and left an exit code and its
    output (already decoded). *)
Inductive popen_result : Type :=
| FileNotFound
| Exited (returncode : Z) (output : str).

Section Plugin.

(** [it.forward_word_end()], a function of the text and the offset.
    Where words end is decided by the text engine of the host. *)
Variable forward_word_end : str -> nat -> nat.

(** The loop of [forward_to_char] on offsets. *)
Fixpoint forward_to_char_loop (fuel : nat) (text : str)
                              (start_iter limit_iter : nat) : result nat :=
  if Py.contains (TextIter.get_char text start_iter) Py.whitespace
     && (start_iter <? limit_iter)
  then
    match fuel with
    | 0 => Hang
    | S fuel' =>
        forward_to_char_loop fuel' text
          (TextIter.forward_char text start_iter) limit_iter
    end
  else Ok start_iter.

(** [forward_to_char(start_iter, limit_iter)]; the result is the offset
    [start_iter] has moved to.  Every turn of the loop but a last one
    moves the iterator forward, so more turns than the text has
    characters never come to an end. *)
Definition forward_to_char (text : str) (start_iter limit_iter : nat)
  : result nat :=
  forward_to_char_loop (List.length text) text start_iter limit_iter.

(** The loop of [run_pylint] that looks for the end of a word.  The offset
    is all the loop keeps from one turn to the next, so a loop that takes
    more turns than the text has positions is in a cycle and never comes
    to an end: [span] gives it that many turns. *)
Fixpoint word_end_loop (fuel : nat) (text : str) (end_iter : nat)
  : result nat :=
  if TextIter.ends_line text end_iter then Ok end_iter
  else
    match fuel with
    | 0 => Hang
    | S fuel' =>
        let end_iter := forward_word_end text end_iter in
        if negb (Py.in_list (TextIter.get_char text end_iter)
                            word_end_exceptions)
        then Ok end_iter
        else word_end_loop fuel' text end_iter
    end.

(** The range [run_pylint] computes for a message at 0-based [line] and
    [column]: the offsets of [start_iter] and [end_iter] when the tag is
    applied. *)
Definition span (text : str) (line column : Z) : result (nat * nat) :=
  match TextIter.get_iter_at_line_offset text line column with
  | Ok start_iter =>
      let end_iter :=
        if (column =? 0)%Z
        then Ok (TextIter.forward_to_line_end text start_iter)
        else word_end_loop (S (List.length text)) text start_iter in
      match end_iter with
      | Ok end_iter =>
          match forward_to_char text start_iter end_iter with
          | Ok start_iter => Ok (start_iter, end_iter)
          | Raise e => Raise e
          | Hang => Hang
          end
      | Raise e => Raise e
      | Hang => Hang
      end
  | Raise e => Raise e
  | Hang => Hang
  end.

(** The body of the loop of [run_pylint] over [lint_messages.items()]. *)
Definition highlight (item : tag * status) : M unit :=
  let '(t, st) := item in
  l <- lift (Py.int (line st)) ;;
  column <- lift (Py.int (column st)) ;;
  fun w =>
    match span (doc_text (doc w)) (l - 1) column with
    | Ok (start_offset, end_offset) =>
        (Ok tt, set_doc (Gtk.apply_tag t start_offset end_offset (doc w)) w)
    | Raise e => (Raise e, w)
    | Hang => (Hang, w)
    end.

Fixpoint for_each {A} (body : A -> M unit) (l : list A) : M unit :=
  match l with
  | [] => ret tt
  | x :: l' => body x ;;; for_each body l'
  end.

Definition remove_tag (t : tag) : M unit :=
  fun w => (Ok tt, set_doc (Gtk.remove t (doc w)) w).

Definition print_stderr (line : str) : M unit :=
  fun w =>
    (Ok tt,
     {| lint_messages := lint_messages w; doc := doc w;
        stderr := stderr w ++ [line]; next_id := next_id w |}).

Definition get_messages : M (list (tag * status)) :=
  fun w => (Ok (lint_messages w), w).

(** [run_pylint] from the comment "Empty the document of pylint tags"
    on; [output] is the local variable of that name, [None] while it is
    unbound. *)
Definition run_pylint_tail (output : option str) : M bool :=
  keys <- get_messages ;;
  for_each remove_tag (map fst keys) ;;;
  messages <- match output with
              | Some o => ret o
              | None => raise UnboundLocalError
              end ;;
  lint_parse messages ;;;
  items <- get_messages ;;
  for_each highlight items ;;;
  ret false.

(** [run_pylint(document, error)], given what starting pylint leads
    to. *)
Definition run_pylint (proc : popen_result) : M bool :=
  fun w =>
    match doc_location (doc w) with
    | None => raise AttributeError w
    | Some None => ret false w
    | Some (Some filename) =>
        match proc with
        | Exited returncode output =>
            if (returncode >=? 32)%Z then ret false w
            else run_pylint_tail (Some output) w
        | FileNotFound =>
            (print_stderr
               (s2l "Pylint is not installed or not found on the path") ;;;
             run_pylint_tail None) w
        end
    end.

End Plugin.

(** ** A text engine: words are runs of ASCII letters and digits

    The word ends of a host that treats every punctuation character,
    hyphen and underscore included, as the end of a word. *)
Module Words.

Definition is_word_char (c : ascii) : bool :=
  let n := nat_of_ascii c in
  ((48 <=? n) && (n <=? 57)) || ((65 <=? n) && (n <=? 90))
  || ((97 <=? n) && (n <=? 122)).

(** The length of the longest prefix of [s] whose characters satisfy
    [f]. *)
Fixpoint run (f : ascii -> bool) (s : str) : nat :=
  match s with
  | [] => 0
  | c :: r => if f c then S (run f r) else 0
  end.

(** The end of the first word that ends after offset [p]; [p] itself
    when no word ends after it. *)
Definition forward_word_end (text : str) (p : nat) : nat :=
  let rest := skipn p text in
  let k := run (fun c => negb (is_word_char c)) rest in
  match skipn k rest with
  | [] => p
  | rest' => p + k + run is_word_char rest'
  end.

End Words.

Definition nl : string := String "010" EmptyString.

Definition sample_text : str :=
  s2l ("import os" ++ nl ++ nl ++ "    x = 1" ++ nl ++
       "foo = my_long_name + kebab-case" ++ nl).

Definition sample_doc : document :=
  {| doc_location := Some (Some (s2l "/tmp/sample.py"));
     doc_text := sample_text;
     tag_table := []; applied := [] |}.

Definition w0 : world :=
  {| lint_messages := []; doc := sample_doc; stderr := []; next_id := 0 |}.

(** ** Lines of pylint's output, as [lint_parse] reads them *)

(** The line that ends the header: it begins with an asterisk and contains
    three asterisks in a row. *)
Definition is_marker (m : str) : bool :=
  match m with
  | [] => false
  | c :: _ => Ascii.eqb "*" c && Py.contains (s2l "***") m
  end.

(** A line [lint_parse] reads as a message: it is not empty, does not begin
    with a blank, has three fields between colons, and its third field has
    a second character, the message type.  The result is the dictionary
    stored for the line and the message type. *)
Definition diagnostic (m : str) : option (status * ascii) :=
  match m with
  | [] => None
  | c :: _ =>
      if Py.contains [c] Py.whitespace then None
      else
        match Py.split ":" m with
        | [l; col; status_txt] =>
            match nth_error status_txt 1 with
            | Some c1 =>
                Some ({| line := l; column := col; message := status_txt |},
                      c1)
            | None => None
            end
        | _ => None
        end
  end.

(** The colour of the tag of a message of type [c], if it gets one. *)
Definition color_of (c : ascii) : option RGBA :=
  match choose_color c with
  | Ok ch => chosen ch
  | _ => None
  end.

(** The tag created for line number [n] of the output when [id] is the
    identity of the next object. *)
Definition tag_for (n id : nat) (color : RGBA) : tag :=
  {| tag_id := id;
     tag_name := s2l "pylint-" ++ Py.format_nat n;
     background_rgba := color |}.

(** The entries added for the message lines [lines], the first of which is
    line number [n] of the output. *)
Fixpoint entries (n id : nat) (lines : list str) : list (tag * status) :=
  match lines with
  | [] => []
  | m :: rest =>
      match diagnostic m with
      | Some (st, c) =>
          match color_of c with
          | Some color => (tag_for n id color, st) :: entries (S n) (S id) rest
          | None => entries (S n) id rest
          end
      | None => entries (S n) id rest
      end
  end.

(** The tags entered in the table of the document while those entries are
    made. *)
Fixpoint add_all (ts : list tag) (d : document) : document :=
  match ts with
  | [] => d
  | t :: ts' => add_all ts' (Gtk.add t d)
  end.

(** A line that [lint_parse] passes over after the marker: it is empty or
    begins with a blank. *)
Definition blank (m : str) : bool :=
  match m with
  | [] => true
  | c :: _ => Py.contains [c] Py.whitespace
  end.

(** A message line of type 'I'. *)
Definition suppressed (m : str) : bool :=
  match diagnostic m with
  | Some (_, c) => Ascii.eqb c "I"
  | None => false
  end.

Definition record_of (m : str) : option status :=
  option_map fst (diagnostic m).

(** ** Sample outputs of pylint *)

Definition marker_line : string := "************* Module sample".

(** A header line, the marker and two messages. *)
Definition out_two_messages : str :=
  s2l ("No config file found, using default configuration" ++ nl ++
       marker_line ++ nl ++
       "3:0:[C0114 missing-module-docstring] Missing module docstring" ++ nl ++
       "4:6:[W0612 unused-variable] Unused variable 'my_long_name'").

(** The marker, a message, a line with one field only, a message. *)
Definition out_one_field : str :=
  s2l (marker_line ++ nl ++
       "3:0:[C0114 missing-module-docstring] Missing module docstring" ++ nl ++
       "not a message" ++ nl ++
       "4:6:[W0612 unused-variable] Unused variable 'my_long_name'").

(** The marker and one message of type 'I'. *)
Definition out_suppressed : str :=
  s2l (marker_line ++ nl ++
       "1:0:[I0011 locally-disabled] Locally disabling unused-import").

(** The marker and one message each of type 'O' and of type 'Z'. *)
Definition line_type_O : str := s2l "3:0:[O0001 other] Something".
Definition line_type_Z : str := s2l "3:0:[Z0001 other] Something".

(** ** Sample documents *)

(** The sample document after a run of pylint that gave
    [out_two_messages]: it has two highlights. *)
Definition w_linted : world :=
  snd (run_pylint Words.forward_word_end (Exited 4 out_two_messages) w0).

(** A text whose second line is empty. *)
Definition text_empty_line : str := s2l ("a" ++ nl ++ nl ++ "bcd").

(** ** Identifiers *)



(** The host finds a word end further on, within the text, from every
    position that is not the end of a line. *)
Definition finds_word_end (fwe : str -> nat -> nat) (text : str) : Prop :=
  forall q, TextIter.ends_line text q = false ->
            q < fwe text q <= List.length text.

(** ** What a run leaves behind *)

(** The ranges highlighted in the document, and the records kept. *)
Definition spans (w : world) : list (nat * nat) :=
  map snd (applied (doc w)).

Definition records (w : world) : list status :=
  map snd (lint_messages w).

(** The identities of the tags that are keys of [lint_messages], that are
    in the tag table, and that are on the text. *)
Definition key_ids (w : world) : list nat :=
  map (fun kv => tag_id (fst kv)) (lint_messages w).

Definition table_ids (d : document) : list nat :=
  map tag_id (tag_table d).

Definition applied_ids (d : document) : list nat :=
  map (fun a => tag_id (fst a)) (applied d).

(** The tags of the document were created before the next tag will be. *)
Definition well_formed (w : world) : Prop :=
  Forall (fun i => i < next_id w) (table_ids (doc w)) /\
  Forall (fun i => i < next_id w) (applied_ids (doc w)).

(** The line and column [run_pylint] reads in a record, and the range it
    computes from them. *)
Definition target (fwe : str -> nat -> nat) (text : str) (st : status)
  : result (nat * nat) :=
  match Py.int (line st) with
  | Ok l =>
      match Py.int (column st) with
      | Ok c => span fwe text (l - 1) c
      | Raise e => Raise e
      | Hang => Hang
      end
  | Raise e => Raise e
  | Hang => Hang
  end.

(** The same state with other identities for the tags created from
    identity [n] on: each of them is moved up by [k]. *)
Definition shift_id (k n i : nat) : nat := if i <? n then i else i + k.

Definition shift_tag (k n : nat) (t : tag) : tag :=
  {| tag_id := shift_id k n (tag_id t);
     tag_name := tag_name t;
     background_rgba := background_rgba t |}.

Definition shift_doc (k n : nat) (d : document) : document :=
  {| doc_location := doc_location d;
     doc_text := doc_text d;
     tag_table := map (shift_tag k n) (tag_table d);
     applied := map (fun a => (shift_tag k n (fst a), snd a)) (applied d) |}.

Definition shift_world (k n : nat) (w : world) : world :=
  {| lint_messages :=
       map (fun kv => (shift_tag k n (fst kv), snd kv)) (lint_messages w);
     doc := shift_doc k n (doc w);
     stderr := stderr w;
     next_id := next_id w + k |}.

(** The document without the tags [ts]. *)
Definition without (ts : list tag) (d : document) : document :=
  fold_left (fun d t => Gtk.remove t d) ts d.

(** [run_pylint] from the call of [lint_parse] on. *)
Definition pipeline (fwe : str -> nat -> nat) (output : str) : M bool :=
  lint_parse output ;;;
  items <- get_messages ;;
  for_each (highlight fwe) items ;;;
  ret false.

(** What holds of the state during a run that started with document [D]
    and next identity [n]: the tags of [D] are still there, and every
    other tag of the document is a key of [lint_messages] and was created
    in this run. *)
Definition kept (D : document) (n : nat) (w : world) : Prop :=
  doc_location (doc w) = doc_location D /\
  doc_text (doc w) = doc_text D /\
  filter (fun t => tag_id t <? n) (tag_table (doc w)) = tag_table D /\
  filter (fun a => tag_id (fst a) <? n) (applied (doc w)) = applied D /\
  (forall i, In i (table_ids (doc w)) -> n <= i -> In i (key_ids w)) /\
  (forall i, In i (applied_ids (doc w)) -> n <= i -> In i (key_ids w)) /\
  Forall (fun i => n <= i < next_id w) (key_ids w) /\
  n <= next_id w.

(** ** The message template

    The line pylint prints for one message under the template
    [{line}:{column}:[{msg_id} {symbol}] {msg}] that [run_pylint] passes
    with [--msg-template]. *)
Definition msg_template (l c msg_id symbol msg : str) : str :=
  l ++ ":" :: c ++ ":" :: "[" :: msg_id ++ " " :: symbol ++ "]" :: " " :: msg.

(** The third field of such a line. *)
Definition status_text (msg_id symbol msg : str) : str :=
  "[" :: msg_id ++ " " :: symbol ++ "]" :: " " :: msg.

(** A header line, the marker, a message, the line of source pylint
    prints under it, a message of type 'I', another message, and the empty
    line after the last newline. *)
Definition out_with_excerpt : str :=
  s2l ("No config file found, using default configuration" ++ nl ++
       marker_line ++ nl ++
       "3:0:[C0114 missing-module-docstring] Missing module docstring" ++ nl ++
       "    x = 1" ++ nl ++
       "4:0:[I0011 locally-disabled] Locally disabling unused-variable" ++ nl ++
       "4:6:[W0612 unused-variable] Unused variable 'my_long_name'" ++ nl).

(** The host never moves backwards and never leaves the text when it looks
    for a word end. *)
Definition moves_forward (fwe : str -> nat -> nat) (text : str) : Prop :=
  forall p, p <= List.length text -> p <= fwe text p <= List.length text.

(** A highlighted range that lies in the text, its start not after its
    end. *)
Definition in_order (text : str) (a : tag * (nat * nat)) : Prop :=
  fst (snd a) <= snd (snd a) <= List.length text.

(** A text that ends in a hyphen after its last word. *)
Definition text_trailing_hyphen : str := s2l "x = y -".

(** ** [show_lint_message] *)

(** [lint_messages[tag]]: the record stored under the tag, if the tag is
    a key. *)
Fixpoint messages_getitem (t : tag) (d : list (tag * status))
  : option status :=
  match d with
  | [] => None
  | (t', v) :: d' => if tag_eqb t t' then Some v else messages_getitem t d'
  end.

(** [document.get_iter_at_offset(p).get_tags()]: the tags of the table
    that are on the character at offset [p], in the order of their
    priority, which is the order of the table. *)
Definition get_tags (d : document) (p : nat) : list tag :=
  filter (fun t =>
            existsb (fun a => tag_eqb t (fst a)
                              && (fst (snd a) <=? p) && (p <? snd (snd a)))
                    (applied d))
         (tag_table d).

(** The loop of [show_lint_message] over the tags at the cursor: the
    messages it pushes on the status bar, the first one first, and how it
    ends.  Every tag of the model has a name; a tag without a name would
    be passed over like one whose name does not contain 'pylint'. *)
Fixpoint show_loop (messages : list (tag * status)) (tags : list tag)
  : list str * result unit :=
  match tags with
  | [] => ([], Ok tt)
  | t :: rest =>
      if Py.contains (s2l "pylint") (tag_name t) then
        match messages_getitem t messages with
        | Some st =>
            let r := show_loop messages rest in (message st :: fst r, snd r)
        | None => ([], Raise KeyError)
        end
      else show_loop messages rest
  end.

(** [show_lint_message(doc)] when the cursor of the document is at offset
    [cursor_pos]. *)
Definition show_lint_message (cursor_pos : nat) (w : world)
  : list str * result unit :=
  show_loop (lint_messages w) (get_tags (doc w) cursor_pos).

(** Every tag of the document whose name contains 'pylint' is a key of
    [lint_messages]. *)
Definition owned (w : world) : Prop :=
  forall t, In t (tag_table (doc w)) ->
            Py.contains (s2l "pylint") (tag_name t) = true ->
            In (tag_id t) (key_ids w).

(** The tags of the table that [show_lint_message] looks up at offset
    [p]. *)
Definition pylint_tags_at (d : document) (p : nat) : list tag :=
  filter (fun t => Py.contains (s2l "pylint") (tag_name t)) (get_tags d p).

(** Another saved document. *)
Definition other_doc : document :=
  {| doc_location := Some (Some (s2l "/tmp/other.py"));
     doc_text := text_empty_line;
     tag_table := []; applied := [] |}.

(** ** Tabs, signals and the life of the plugin *)

(** The methods the plugin connects to signals; [Other] is a handler that
    is not the plugin's. *)
Inductive handler : Type :=
| Tab_added
| Run_pylint
| Show_lint_message
| Other.

(** The objects signals are connected to: the window of the plugin, and
    the documents, each with its identity. *)
Inductive gobject : Type :=
| Window
| Document (d : nat).

(** One connection of a signal: the handler id [connect] returned, the
    name of the signal and the handler. *)
Record connection : Type := {
  hid : nat;
  signal : str;
  callback : handler
}.

(** The plugin in its window: [self.handlers], [self.known_documents]
    (documents by identity), the attributes [run_pylint] works on, what
    was pushed on the status bar, the connections of the window and of
    each document, the mime type and the buffer of each document, and the
    next handler id. *)
Record gedit : Type := {
  handlers : list nat;
  known_documents : list nat;
  plugin : world;
  status_bar : list str;
  window_connections : list connection;
  document_connections : nat -> list connection;
  mime_type : nat -> str;
  buffers : nat -> document;
  next_hid : nat
}.

(** [object.connect(signal, handler)]: the new handler id and the state
    with the connection made. *)
Definition connect (object : gobject) (sig : str) (h : handler) (g : gedit)
  : nat * gedit :=
  let c := {| hid := next_hid g; signal := sig; callback := h |} in
  (next_hid g,
   {| handlers := handlers g;
      known_documents := known_documents g;
      plugin := plugin g;
      status_bar := status_bar g;
      window_connections :=
        match object with
        | Window => window_connections g ++ [c]
        | Document _ => window_connections g
        end;
      document_connections :=
        match object with
        | Window => document_connections g
        | Document d =>
            fun i => if Nat.eqb i d then document_connections g i ++ [c]
                     else document_connections g i
        end;
      mime_type := mime_type g;
      buffers := buffers g;
      next_hid := S (next_hid g) |}).

Definition handlers_append (h : nat) (g : gedit) : gedit :=
  {| handlers := handlers g ++ [h];
     known_documents := known_documents g;
     plugin := plugin g;
     status_bar := status_bar g;
     window_connections := window_connections g;
     document_connections := document_connections g;
     mime_type := mime_type g;
     buffers := buffers g;
     next_hid := next_hid g |}.

Definition known_documents_append (d : nat) (g : gedit) : gedit :=
  {| handlers := handlers g;
     known_documents := known_documents g ++ [d];
     plugin := plugin g;
     status_bar := status_bar g;
     window_connections := window_connections g;
     document_connections := document_connections g;
     mime_type := mime_type g;
     buffers := buffers g;
     next_hid := next_hid g |}.

(** [attach_signal(object, signal, handler)]; [self.window == object]
    compares the objects by identity. *)
Definition attach_signal (object : gobject) (sig : str) (h : handler)
                         (g : gedit) : gedit :=
  let (id, g1) := connect object sig h g in
  match object with
  | Window => handlers_append id g1
  | Document _ => g1
  end.

(** [do_activate()]. *)
Definition do_activate (g : gedit) : gedit :=
  attach_signal Window (s2l "tab-added") Tab_added g.

(** [self.window.disconnect(hid)]; an id that is not connected changes
    nothing. *)
Definition disconnect (h : nat) (g : gedit) : gedit :=
  {| handlers := handlers g;
     known_documents := known_documents g;
     plugin := plugin g;
     status_bar := status_bar g;
     window_connections :=
       filter (fun c => negb (Nat.eqb (hid c) h)) (window_connections g);
     document_connections := document_connections g;
     mime_type := mime_type g;
     buffers := buffers g;
     next_hid := next_hid g |}.

(** [do_deactivate()]. *)
Definition do_deactivate (g : gedit) : gedit :=
  fold_left (fun g h => disconnect h g) (handlers g) g.

Section Tabs.

Variable forward_word_end : str -> nat -> nat.

(** [self.run_pylint(doc, None)] for the document with identity [d]: the
    run works on the buffer of that document and on the attributes of the
    plugin. *)
Definition run_pylint_on (d : nat) (proc : popen_result) (g : gedit)
  : result bool * gedit :=
  let r := run_pylint forward_word_end proc (set_doc (buffers g d) (plugin g)) in
  (fst r,
   {| handlers := handlers g;
      known_documents := known_documents g;
      plugin := snd r;
      status_bar := status_bar g;
      window_connections := window_connections g;
      document_connections := document_connections g;
      mime_type := mime_type g;
      buffers := fun i => if Nat.eqb i d then doc (snd r) else buffers g i;
      next_hid := next_hid g |}).

(** [self.show_lint_message(doc)] for the document with identity [d] and
    the cursor at [cursor_pos]. *)
Definition show_lint_message_on (d cursor_pos : nat) (g : gedit)
  : result unit * gedit :=
  let r := show_lint_message cursor_pos (set_doc (buffers g d) (plugin g)) in
  (snd r,
   {| handlers := handlers g;
      known_documents := known_documents g;
      plugin := plugin g;
      status_bar := status_bar g ++ fst r;
      window_connections := window_connections g;
      document_connections := document_connections g;
      mime_type := mime_type g;
      buffers := buffers g;
      next_hid := next_hid g |}).

(** [tab_added(window, tab)]: [tab] is the identity of the document of
    the tab, [None] for a tab that does not exist.  The result is what the
    method returns, [None] when it runs off its end. *)
Definition tab_added (tab : option nat) (proc : popen_result) (g : gedit)
  : result (option bool) * gedit :=
  match tab with
  | None => (Ok (Some false), g)
  | Some d =>
      if existsb (Nat.eqb d) (known_documents g) then (Ok (Some false), g)
      else if negb (Py.contains (s2l "python") (mime_type g d))
      then (Ok (Some false), g)
      else
        let g := attach_signal (Document d) (s2l "saved") Run_pylint g in
        let g := attach_signal (Document d) (s2l "cursor-moved")
                               Show_lint_message g in
        let g := known_documents_append d g in
        match run_pylint_on d proc g with
        | (Ok _, g') => (Ok None, g')
        | (Raise e, g') => (Raise e, g')
        | (Hang, g') => (Hang, g')
        end
  end.

(** [do_update_state()]: [active] is the active tab of the window, with
    whether its state is [STATE_NORMAL]. *)
Definition do_update_state (active : option (nat * bool))
                           (proc : popen_result) (g : gedit)
  : result unit * gedit :=
  match active with
  | Some (d, true) =>
      match tab_added (Some d) proc g with
      | (Ok _, g') => (Ok tt, g')
      | (Raise e, g') => (Raise e, g')
      | (Hang, g') => (Hang, g')
      end
  | _ => (Ok tt, g)
  end.

(** What happens in the window.  A signal calls the handlers connected to
    it, one after the other; an exception in a handler ends that handler
    and no more. *)
Inductive event : Type :=
| Activate
| Deactivate
| Update_state (active : option (nat * bool)) (proc : popen_result)
| Emit_tab_added (tab : option nat) (proc : popen_result)
| Emit_saved (d : nat) (proc : popen_result)
| Emit_cursor_moved (d cursor_pos : nat)
| Set_mime_type (d : nat) (mime : str).

Definition connected (sig : str) (h : handler) (cs : list connection)
  : list connection :=
  filter (fun c => Py.str_eqb (signal c) sig
                   && match callback c, h with
                      | Tab_added, Tab_added => true
                      | Run_pylint, Run_pylint => true
                      | Show_lint_message, Show_lint_message => true
                      | _, _ => false
                      end) cs.

Definition set_mime_type (d : nat) (mime : str) (g : gedit) : gedit :=
  {| handlers := handlers g;
     known_documents := known_documents g;
     plugin := plugin g;
     status_bar := status_bar g;
     window_connections := window_connections g;
     document_connections := document_connections g;
     mime_type := fun i => if Nat.eqb i d then mime else mime_type g i;
     buffers := buffers g;
     next_hid := next_hid g |}.

Definition step (g : gedit) (ev : event) : gedit :=
  match ev with
  | Activate => do_activate g
  | Deactivate => do_deactivate g
  | Update_state active proc => snd (do_update_state active proc g)
  | Emit_tab_added tab proc =>
      fold_left (fun g _ => snd (tab_added tab proc g))
                (connected (s2l "tab-added") Tab_added (window_connections g))
                g
  | Emit_saved d proc =>
      fold_left (fun g _ => snd (run_pylint_on d proc g))
                (connected (s2l "saved") Run_pylint (document_connections g d))
                g
  | Emit_cursor_moved d cursor_pos =>
      fold_left (fun g _ => snd (show_lint_message_on d cursor_pos g))
                (connected (s2l "cursor-moved") Show_lint_message
                           (document_connections g d))
                g
  | Set_mime_type d mime => set_mime_type d mime g
  end.

Definition run_events (evs : list event) (g : gedit) : gedit :=
  fold_left step evs g.

End Tabs.

(** The plugin after [__init__] in a window where [others] are connected
    to signals of the window, no handler is connected to a document
    yet, and [first_hid] is the next handler id.  The document of [plugin]
    is the one the last handler worked on; every handler sets it before
    it reads it. *)
Definition init (others : list (nat * str)) (first_hid : nat)
                (mime : nat -> str) (bufs : nat -> document)
                (first_id : nat) : gedit :=
  {| handlers := [];
     known_documents := [];
     plugin := {| lint_messages := []; doc := bufs 0; stderr := [];
                  next_id := first_id |};
     status_bar := [];
     window_connections :=
       map (fun o => {| hid := fst o; signal := snd o; callback := Other |})
           others;
     document_connections := fun _ => [];
     mime_type := mime;
     buffers := bufs;
     next_hid := first_hid |}.

(** The connections [tab_added] makes for one document, [h] being the
    first handler id. *)
Definition document_handlers (h : nat) : list connection :=
  [{| hid := h; signal := s2l "saved"; callback := Run_pylint |};
   {| hid := S h; signal := s2l "cursor-moved";
      callback := Show_lint_message |}].

(** What holds of the documents whatever happens in the window: no
    document is known twice, a known document has the two handlers of the
    plugin and no other document has any. *)
Definition documents_wired (g : gedit) : Prop :=
  NoDup (known_documents g) /\
  (forall d, In d (known_documents g) ->
             exists h, document_connections g d = document_handlers h) /\
  (forall d, ~ In d (known_documents g) -> document_connections g d = []).

(** What holds of the window, [others] being its connections that are not
    the plugin's and [first_hid] the first handler id the plugin can get:
    the connections the plugin made are all in [self.handlers]. *)
Definition window_wired (others : list connection) (first_hid : nat)
                        (g : gedit) : Prop :=
  first_hid <= next_hid g /\
  Forall (fun h => first_hid <= h) (handlers g) /\
  exists mine,
    window_connections g = others ++ mine /\
    Forall (fun c => In (hid c) (handlers g)) mine.

(** A window with one handler of somebody else on its tab-added signal,
    where every document is the sample and has a Python mime type. *)
Definition sample_gedit : gedit :=
  init [(0, s2l "tab-added")] 1 (fun _ => s2l "text/x-python")
       (fun _ => sample_doc) 0.

(** What holds during a run that started with next identity [n0] in a
    document whose table holds the tag [u], which is not a key of
    [lint_messages]: [u] stays in the table, no tag created in the run
    gets into the table under the name of [u], and a tag of the run that
    is in the table or on the text is the key created with it. *)
Definition shadowed (u : tag) (n0 : nat) (w : world) : Prop :=
  In u (tag_table (doc w)) /\
  Forall (fun i => n0 <= i < next_id w) (key_ids w) /\
  Forall (fun i => i < next_id w) (table_ids (doc w)) /\
  (forall v, In v (tag_table (doc w)) -> n0 <= tag_id v ->
             tag_name v <> tag_name u) /\
  (forall v kv, In v (tag_table (doc w)) -> n0 <= tag_id v ->
                In kv (lint_messages w) -> tag_id (fst kv) = tag_id v ->
                tag_name (fst kv) = tag_name v) /\
  (forall a, In a (applied (doc w)) -> n0 <= tag_id (fst a) ->
             Gtk.in_table (fst a) (doc w) = true).

(** The event does not give document [d] a mime type that contains
    'python'. *)
Definition keeps_mime_type (d : nat) (ev : event) : Prop :=
  match ev with
  | Set_mime_type d' mime =>
      d' = d -> Py.contains (s2l "python") mime = false
  | _ => True
  end.

(** The plugin has left document [d] alone: it is not known, has no
    handler, its mime type does not contain 'python', and its buffer is
    [buffer]. *)
Definition untouched (d : nat) (buffer : document) (g : gedit) : Prop :=
  ~ In d (known_documents g) /\
  document_connections g d = [] /\
  Py.contains (s2l "python") (mime_type g d) = false /\
  buffers g d = buffer.

(** ** How the loop for the end of a word can go *)




(** ** Two documents in one window *)

(** A header line, the marker and one message for the first line. *)
Definition out_first_line : str :=
  s2l ("No config file found, using default configuration" ++ nl ++
       marker_line ++ nl ++
       "1:0:[C0114 missing-module-docstring] Missing module docstring").


(** The window after the plugin was activated and two Python documents
    were opened, document 0 and then document 1, pylint giving
    [out_two_messages] for each. *)
Definition two_documents : gedit :=
  run_events Words.forward_word_end
    [Activate;
     Emit_tab_added (Some 0) (Exited 4 out_two_messages);
     Emit_tab_added (Some 1) (Exited 4 out_two_messages)]
    sample_gedit.

(** The ranges highlighted in a document, and the identities of the tags
    on them. *)
Definition document_spans (d : document) : list (nat * nat) :=
  map snd (applied d).

(** * Properties *)

(** ** The choice of a colour *)

Lemma choose_color_cases (c : ascii) :
  choose_color c =
  Ok (match c with
      | "F" => Recognized color_F
      | "E" => Recognized color_E
      | "W" => Recognized color_W
      | "R" => Recognized color_R
      | "C" => Recognized color_C
      | "O" => Recognized color_O
      | "I" => Ignored
      | _ => Fallback color_O
      end).
Proof.
  destruct c as [[] [] [] [] [] [] [] []]; reflexivity.
Qed.

Lemma colors_distinct :
  NoDup [color_F; color_E; color_W; color_R; color_C; color_O].
Proof.
  repeat constructor; simpl; intuition discriminate.
Qed.

(** ** The loop of [lint_parse] *)

Lemma bind_ok {A B} (m : M A) (f : A -> M B) (w w' : world) (a : A) :
  m w = (Ok a, w') -> bind m f w = f a w'.
Proof. unfold bind; intros ->; reflexivity. Qed.

Lemma bind_raise {A B} (m : M A) (f : A -> M B) (w w' : world) (e : exn) :
  m w = (Raise e, w') -> bind m f w = (Raise e, w').
Proof. unfold bind; intros ->; reflexivity. Qed.

Lemma lint_parse_loop_app (l1 l2 : list (nat * str)) :
  forall (ah : bool) (w : world),
    lint_parse_loop ah (l1 ++ l2) w =
    (ah' <- lint_parse_loop ah l1 ;; lint_parse_loop ah' l2) w.
Proof.
  induction l1 as [|[n m] l1 IH]; intros ah w; simpl.
  - reflexivity.
  - unfold bind.
    destruct (lint_parse_line ah n m w) as [[ah'| e |] w']; try reflexivity.
    rewrite IH. reflexivity.
Qed.

Lemma enumerate_from_app {A} (l1 l2 : list A) :
  forall n, Py.enumerate_from n (l1 ++ l2) =
            Py.enumerate_from n l1 ++ Py.enumerate_from (n + List.length l1) l2.
Proof.
  induction l1 as [|x l1 IH]; intros n; simpl.
  - rewrite Nat.add_0_r. reflexivity.
  - rewrite IH. do 3 f_equal. lia.
Qed.

Ltac step_line :=
  unfold lint_parse_line, bind, lift, Py.index; cbn [negb];
  repeat match goal with
         | |- context [nth_error (?c :: ?m) 0] =>
             change (nth_error (c :: m) 0) with (Some c)
         end;
  cbv beta iota.

(** Before the marker, a line that is not empty and is not the marker is
    passed over. *)
Lemma header_line_skipped (n : nat) (m : str) (w : world) :
  m <> [] -> is_marker m = false ->
  lint_parse_line false n m w = (Ok false, w).
Proof.
  intros Hne Hm. destruct m as [|c m]; [congruence|].
  unfold is_marker in Hm. step_line. rewrite Hm. reflexivity.
Qed.

Lemma marker_line_found (n : nat) (m : str) (w : world) :
  is_marker m = true ->
  lint_parse_line false n m w = (Ok true, w).
Proof.
  intros Hm. destruct m as [|c m]; [discriminate|].
  unfold is_marker in Hm. step_line. rewrite Hm. reflexivity.
Qed.

Lemma header_skipped (pre : list str) :
  forall (n : nat) (w : world),
    Forall (fun m => m <> [] /\ is_marker m = false) pre ->
    lint_parse_loop false (Py.enumerate_from n pre) w = (Ok false, w).
Proof.
  induction pre as [|m pre IH]; intros n w H; simpl.
  - reflexivity.
  - inversion H as [|? ? [Hne Hm] H']; subst.
    erewrite bind_ok by (apply header_line_skipped; assumption).
    apply IH; assumption.
Qed.

(** After the marker, a message line adds its entry, or nothing when its
    type is 'I'. *)
Lemma diagnostic_line_parsed (n : nat) (m : str) (st : status) (c : ascii)
                             (w : world) :
  diagnostic m = Some (st, c) ->
  lint_parse_line true n m w =
  match color_of c with
  | Some color =>
      (Ok true,
       {| lint_messages :=
            dict_set (tag_for n (next_id w) color) st (lint_messages w);
          doc := Gtk.add (tag_for n (next_id w) color) (doc w);
          stderr := stderr w;
          next_id := S (next_id w) |})
  | None => (Ok true, w)
  end.
Proof.
  unfold diagnostic. destruct m as [|c0 m]; [discriminate|].
  step_line.
  destruct (Py.contains [c0] Py.whitespace); [discriminate|].
  destruct (Py.split ":" (c0 :: m)) as [|l [|col [|status_txt [|? ?]]]];
    try discriminate.
  destruct (nth_error status_txt 1) as [c1|]; [|discriminate].
  intros H; injection H as <- <-.
  unfold color_of. rewrite choose_color_cases.
  destruct (chosen _) as [color|]; reflexivity.
Qed.

(** After the marker, an empty line and a line that begins with a blank
    are passed over. *)
Lemma blank_line_skipped (n : nat) (m : str) (w : world) :
  match m with [] => True | c :: _ => Py.contains [c] Py.whitespace = true end ->
  lint_parse_line true n m w = (Ok true, w).
Proof.
  destruct m as [|c m]; intros H; [reflexivity|].
  step_line. rewrite H. reflexivity.
Qed.

(** After the marker, a line that is not passed over and does not have
    exactly three fields raises [ValueError] and leaves everything as it
    was. *)
Lemma wrong_field_count_raises (n : nat) (c : ascii) (m : str) (w : world) :
  Py.contains [c] Py.whitespace = false ->
  List.length (Py.split ":" (c :: m)) <> 3 ->
  lint_parse_line true n (c :: m) w = (Raise ValueError, w).
Proof.
  intros Hws Hlen. step_line. rewrite Hws.
  destruct (Py.split ":" (c :: m)) as [|l [|col [|status_txt [|? ?]]]];
    try reflexivity.
  simpl in Hlen. congruence.
Qed.

Lemma color_of_None (c : ascii) : color_of c = None <-> c = "I".
Proof.
  unfold color_of. rewrite choose_color_cases.
  destruct c as [[] [] [] [] [] [] [] []]; simpl;
    split; intros H; try reflexivity; discriminate.
Qed.

Lemma dict_set_fresh (t : tag) (v : status) (d : list (tag * status)) :
  Forall (fun kv => tag_id (fst kv) < tag_id t) d ->
  dict_set t v d = d ++ [(t, v)].
Proof.
  induction d as [|[t' v'] d IH]; intros H; simpl.
  - reflexivity.
  - inversion H as [|? ? Hlt H']; subst. simpl in Hlt.
    unfold tag_eqb.
    destruct (Nat.eqb_spec (tag_id t) (tag_id t')) as [E|_]; [lia|].
    rewrite IH by assumption. reflexivity.
Qed.

Lemma entries_ids (lines : list str) :
  forall n id,
    Forall (fun kv => id <= tag_id (fst kv) < id + List.length (entries n id lines))
           (entries n id lines).
Proof.
  induction lines as [|m lines IH]; intros n id; simpl.
  - constructor.
  - destruct (diagnostic m) as [[st c]|]; [|apply IH].
    destruct (color_of c) as [color|]; [|apply IH].
    constructor.
    + simpl. lia.
    + eapply Forall_impl; [|apply (IH (S n) (S id))].
      simpl. intros kv H. lia.
Qed.

(** The message lines after the marker, one after the other: each line is
    a message or is passed over, and the entries of the messages are added
    in the order of the lines, with new tags. *)
Lemma diagnostics_parsed (lines : list str) :
  forall (n : nat) (w : world),
    Forall (fun m => diagnostic m <> None \/ blank m = true) lines ->
    Forall (fun kv => tag_id (fst kv) < next_id w) (lint_messages w) ->
    lint_parse_loop true (Py.enumerate_from n lines) w =
    (Ok true,
     {| lint_messages := lint_messages w ++ entries n (next_id w) lines;
        doc := add_all (map fst (entries n (next_id w) lines)) (doc w);
        stderr := stderr w;
        next_id := next_id w + List.length (entries n (next_id w) lines) |}).
Proof.
  induction lines as [|m lines IH]; intros n w Hl Hw.
  - simpl. unfold ret. rewrite app_nil_r, Nat.add_0_r.
    destruct w; reflexivity.
  - inversion Hl as [|? ? Hm Hl']; subst.
    cbn [Py.enumerate_from lint_parse_loop entries].
    destruct (diagnostic m) as [[st c]|] eqn:Ed.
    + pose proof (diagnostic_line_parsed n m st c w Ed) as Hstep.
      destruct (color_of c) as [color|];
        rewrite (bind_ok _ _ _ _ _ Hstep).
      * rewrite IH; [|assumption|].
        -- cbn [lint_messages doc stderr next_id].
           rewrite dict_set_fresh
             by (eapply Forall_impl; [|exact Hw]; simpl; intros; assumption).
           rewrite <- app_assoc. cbn [app map add_all List.length].
           do 2 f_equal. lia.
        -- cbn [lint_messages next_id].
           rewrite dict_set_fresh
             by (eapply Forall_impl; [|exact Hw]; simpl; intros; assumption).
           apply Forall_app. split.
           ++ eapply Forall_impl; [|exact Hw]. simpl. intros; lia.
           ++ repeat constructor.
      * apply IH; assumption.
    + destruct Hm as [Hm|Hm]; [congruence|].
      erewrite bind_ok
        by (apply blank_line_skipped; destruct m; [exact I|exact Hm]).
      apply IH; assumption.
Qed.

Lemma entries_records (lines : list str) :
  forall n id,
    Forall (fun m => diagnostic m <> None) lines ->
    map (fun kv => Some (snd kv)) (entries n id lines) =
    map record_of (filter (fun m => negb (suppressed m)) lines).
Proof.
  induction lines as [|m lines IH]; intros n id H.
  - reflexivity.
  - inversion H as [|? ? Hm H']; subst.
    cbn [entries filter].
    destruct (diagnostic m) as [[st c]|] eqn:Ed; [|congruence].
    assert (Hs : suppressed m = Ascii.eqb c "I")
      by (unfold suppressed; rewrite Ed; reflexivity).
    rewrite Hs.
    destruct (color_of c) as [color|] eqn:Ec.
    + destruct (Ascii.eqb_spec c "I") as [->|_].
      * assert (color_of "I" = None) by (apply color_of_None; reflexivity).
        congruence.
      * cbn [negb map snd]. f_equal.
        -- unfold record_of. rewrite Ed. reflexivity.
        -- apply IH; assumption.
    + apply color_of_None in Ec. subst c.
      rewrite Ascii.eqb_refl. cbn [negb]. apply IH; assumption.
Qed.

Lemma lint_parse_unfold (messages : str) (w : world) :
  lint_parse messages w =
  match lint_parse_loop false (Py.enumerate (Py.split "010" messages))
                        (set_messages [] w) with
  | (Ok _, w') => (Ok tt, w')
  | (Raise e, w') => (Raise e, w')
  | (Hang, w') => (Hang, w')
  end.
Proof.
  unfold lint_parse, bind, messages_clear, ret.
  destruct (lint_parse_loop _ _ _) as [[?|?|] ?]; reflexivity.
Qed.

(** Before the marker, an empty line raises [IndexError]. *)
Lemma empty_header_line_raises (messages : str) (pre rest : list str)
                               (w : world) :
  Py.split "010" messages = pre ++ [] :: rest ->
  Forall (fun m => m <> [] /\ is_marker m = false) pre ->
  lint_parse messages w = (Raise IndexError, set_messages [] w).
Proof.
  intros Hs Hpre. rewrite lint_parse_unfold, Hs.
  unfold Py.enumerate. rewrite enumerate_from_app, lint_parse_loop_app.
  erewrite bind_ok by (apply header_skipped; exact Hpre).
  reflexivity.
Qed.

(** Output without a marker and without an empty line gives no record. *)
Lemma no_header_no_records (messages : str) (w : world) :
  Forall (fun m => m <> [] /\ is_marker m = false) (Py.split "010" messages) ->
  lint_parse messages w = (Ok tt, set_messages [] w).
Proof.
  intros H. rewrite lint_parse_unfold.
  unfold Py.enumerate. rewrite header_skipped by exact H. reflexivity.
Qed.

(** C4, on the code: the empty output, which has no marker line, makes
    [lint_parse] raise [IndexError] on its only line, the empty string,
    instead of returning without records. *)
Theorem lint_parse_empty_output_raises (w : world) :
  Forall (fun m => is_marker m = false) (Py.split "010" (s2l "")) /\
  lint_parse (s2l "") w = (Raise IndexError, set_messages [] w).
Proof.
  split.
  - repeat constructor.
  - reflexivity.
Qed.

(** C2, amended: after the marker, a line that is not empty, does not
    begin with a blank and does not split into exactly three fields at its
    colons ends the parse with [ValueError]: the records of the lines
    before it are kept as they are, and no line after it is read. *)
Theorem wrong_field_count_aborts_parse
    (messages : str) (before rest : list str) (c : ascii) (m : str)
    (w w1 : world) :
  Py.split "010" messages = before ++ (c :: m) :: rest ->
  lint_parse_loop false (Py.enumerate before) (set_messages [] w)
    = (Ok true, w1) ->
  Py.contains [c] Py.whitespace = false ->
  List.length (Py.split ":" (c :: m)) <> 3 ->
  lint_parse messages w = (Raise ValueError, w1).
Proof.
  intros Hs Hb Hws Hlen. rewrite lint_parse_unfold, Hs.
  unfold Py.enumerate in *. rewrite enumerate_from_app, lint_parse_loop_app.
  rewrite (bind_ok _ _ _ _ _ Hb).
  cbn [Py.enumerate_from lint_parse_loop].
  erewrite bind_raise by (apply wrong_field_count_raises; assumption).
  reflexivity.
Qed.

Lemma wrong_field_count_aborts_parse_witness :
  exists w1,
    List.length (lint_messages w1) = 1 /\
    lint_parse out_one_field w0 = (Raise ValueError, w1).
Proof.
  eexists. split; [|
    apply (wrong_field_count_aborts_parse out_one_field
             [s2l marker_line;
              s2l "3:0:[C0114 missing-module-docstring] Missing module docstring"]
             [s2l "4:6:[W0612 unused-variable] Unused variable 'my_long_name'"]
             "n" (s2l "ot a message") w0);
    [reflexivity | reflexivity | reflexivity | vm_compute; lia]].
  reflexivity.
Defined.

(** C2 as stated fails: in [out_one_field] the line "not a message" has
    one field; the claim has the two messages around it parsed, the code
    raises [ValueError] with the first message only. *)
Lemma wrong_field_count_counterexample :
  List.length (filter (fun m => match diagnostic m with
                                | Some _ => true
                                | None => false
                                end)
                      (Py.split "010" out_one_field)) = 2 /\
  fst (lint_parse out_one_field w0) = Raise ValueError /\
  List.length (lint_messages (snd (lint_parse out_one_field w0))) = 1.
Proof.
  repeat split; reflexivity.
Qed.

(** C5, amended: when the output consists of N lines that are not empty
    and are not the marker, then the marker line, then K message lines,
    [lint_parse] returns normally, whatever N is, and stores one record
    for each message line whose type is not 'I', in the order of the
    lines and with the fields of the line; these are K records when no
    message is of type 'I'. *)
Theorem header_skip_records
    (messages : str) (pre diag : list str) (marker : str) (w : world) :
  Py.split "010" messages = pre ++ marker :: diag ->
  Forall (fun m => m <> [] /\ is_marker m = false) pre ->
  is_marker marker = true ->
  Forall (fun m => diagnostic m <> None) diag ->
  exists w',
    lint_parse messages w = (Ok tt, w') /\
    lint_messages w' = entries (S (List.length pre)) (next_id w) diag /\
    map (fun kv => Some (snd kv)) (lint_messages w') =
      map record_of (filter (fun m => negb (suppressed m)) diag) /\
    (forallb (fun m => negb (suppressed m)) diag = true ->
     List.length (lint_messages w') = List.length diag).
Proof.
  intros Hs Hpre Hm Hdiag.
  eexists. split; [|split; [|split]].
  - rewrite lint_parse_unfold, Hs. unfold Py.enumerate.
    rewrite enumerate_from_app, lint_parse_loop_app.
    erewrite bind_ok by (apply header_skipped; exact Hpre).
    cbn [Py.enumerate_from lint_parse_loop].
    erewrite bind_ok by (apply marker_line_found; exact Hm).
    rewrite diagnostics_parsed.
    + reflexivity.
    + eapply Forall_impl; [|exact Hdiag]. intros; left; assumption.
    + constructor.
  - cbn [lint_messages set_messages app next_id]. reflexivity.
  - cbn [lint_messages set_messages app next_id].
    apply entries_records; assumption.
  - cbn [lint_messages set_messages app next_id]. intros Hall.
    rewrite <- (length_map (fun kv => Some (snd kv))).
    rewrite entries_records by assumption.
    rewrite length_map. f_equal.
    clear - Hall. induction diag as [|m diag IH]; [reflexivity|].
    simpl in *. apply andb_prop in Hall as [H1 H2].
    rewrite H1. f_equal. apply IH; assumption.
Qed.

Lemma header_skip_records_witness :
  exists w',
    lint_parse out_two_messages w0 = (Ok tt, w') /\
    List.length (lint_messages w') = 2.
Proof.
  destruct (header_skip_records out_two_messages
              [s2l "No config file found, using default configuration"]
              [s2l "3:0:[C0114 missing-module-docstring] Missing module docstring";
               s2l "4:6:[W0612 unused-variable] Unused variable 'my_long_name'"]
              (s2l marker_line) w0)
    as [w' [Hrun [_ [_ Hlen]]]].
  - reflexivity.
  - repeat constructor; discriminate.
  - reflexivity.
  - repeat constructor; discriminate.
  - exists w'. split; [exact Hrun|]. apply Hlen. reflexivity.
Defined.

(** C5 as stated fails: [out_suppressed] has no line before the marker
    and one message line after it, of type 'I'; the claim has one record,
    the code none. *)
Lemma header_skip_counterexample :
  Py.split "010" out_suppressed =
    [] ++ s2l marker_line ::
    [s2l "1:0:[I0011 locally-disabled] Locally disabling unused-import"] /\
  is_marker (s2l marker_line) = true /\
  diagnostic (s2l "1:0:[I0011 locally-disabled] Locally disabling unused-import")
    <> None /\
  fst (lint_parse out_suppressed w0) = Ok tt /\
  lint_messages (snd (lint_parse out_suppressed w0)) = [].
Proof.
  repeat split; try reflexivity. discriminate.
Qed.

(** X24: the choice of a colour is total on characters.  'F', 'E', 'W',
    'R' and 'C' get their own colour, 'I' gets none, every other
    character gets the colour of 'O', and the six colours are distinct;
    a message line of type 'I' leaves no record and no tag, a message
    line of any other type leaves a tag of the chosen colour. *)
Theorem severity_classification_total :
  color_of "F" = Some color_F /\
  color_of "E" = Some color_E /\
  color_of "W" = Some color_W /\
  color_of "R" = Some color_R /\
  color_of "C" = Some color_C /\
  choose_color "I" = Ok Ignored /\
  color_of "Z" = Some color_O /\
  (forall c, exists ch, choose_color c = Ok ch) /\
  (forall c, ~ In c ["F"; "E"; "W"; "R"; "C"; "I"] ->
             color_of c = Some color_O) /\
  NoDup [color_F; color_E; color_W; color_R; color_C; color_O] /\
  (forall n m st w,
      diagnostic m = Some (st, "I") ->
      lint_parse_line true n m w = (Ok true, w)) /\
  (forall n m st c w,
      diagnostic m = Some (st, c) -> c <> "I" ->
      exists color,
        color_of c = Some color /\
        lint_parse_line true n m w =
        (Ok true,
         {| lint_messages :=
              dict_set (tag_for n (next_id w) color) st (lint_messages w);
            doc := Gtk.add (tag_for n (next_id w) color) (doc w);
            stderr := stderr w;
            next_id := S (next_id w) |})).
Proof.
  repeat match goal with |- _ /\ _ => split end; try reflexivity.
  - intros c. rewrite choose_color_cases. eexists; reflexivity.
  - intros c Hc. unfold color_of. rewrite choose_color_cases.
    destruct c as [[] [] [] [] [] [] [] []]; try reflexivity;
      exfalso; apply Hc; simpl; tauto.
  - exact colors_distinct.
  - intros n m st w Hd.
    rewrite (diagnostic_line_parsed n m st "I" w Hd). reflexivity.
  - intros n m st c w Hd Hc.
    rewrite (diagnostic_line_parsed n m st c w Hd).
    destruct (color_of c) as [color|] eqn:Ec.
    + exists color. split; reflexivity.
    + apply color_of_None in Ec. contradiction.
Qed.

Lemma severity_classification_total_witness :
  lint_parse_line true 1
    (s2l "1:0:[I0011 locally-disabled] Locally disabling unused-import") w0
    = (Ok true, w0) /\
  exists color,
    color_of "Z" = Some color /\
    lint_messages (snd (lint_parse_line true 1 line_type_Z w0)) =
      [(tag_for 1 0 color,
        {| line := s2l "3"; column := s2l "0";
           message := s2l "[Z0001 other] Something" |})].
Proof.
  destruct severity_classification_total
    as (_ & _ & _ & _ & _ & _ & _ & _ & _ & _ & HI & HZ).
  split.
  - apply (HI 1 _ {| line := s2l "1"; column := s2l "0";
                     message := s2l "[I0011 locally-disabled] Locally disabling unused-import" |}).
    reflexivity.
  - destruct (HZ 1 line_type_Z
                 {| line := s2l "3"; column := s2l "0";
                    message := s2l "[Z0001 other] Something" |} "Z" w0)
      as [color [Hc Hrun]].
    + reflexivity.
    + discriminate.
    + exists color. split; [exact Hc|]. rewrite Hrun. reflexivity.
Defined.



(** C10: the character 'O' is a key of the colour table, so a message of
    type 'O' takes the branch of the recognised types, and the colour it
    gets there is the colour every unrecognised type gets from the last
    branch: the tags created for the two are of the same colour. *)
Theorem type_O_gets_fallback_color :
  dict_get "O" lint_color = Some color_O /\
  choose_color "O" = Ok (Recognized color_O) /\
  (forall c, dict_get c lint_color = None -> c <> "I" ->
             choose_color c = Ok (Fallback color_O)) /\
  (forall c, dict_get c lint_color = None -> c <> "I" ->
             color_of c = color_of "O") /\
  (forall n m st c w,
      diagnostic m = Some (st, c) ->
      c = "O" \/ (dict_get c lint_color = None /\ c <> "I") ->
      lint_parse_line true n m w =
      (Ok true,
       {| lint_messages :=
            dict_set (tag_for n (next_id w) color_O) st (lint_messages w);
          doc := Gtk.add (tag_for n (next_id w) color_O) (doc w);
          stderr := stderr w;
          next_id := S (next_id w) |})).
Proof.
  assert (Hfb : forall c, dict_get c lint_color = None -> c <> "I" ->
                          choose_color c = Ok (Fallback color_O)).
  { intros c Hc HI. unfold choose_color. rewrite Hc.
    destruct (Ascii.eqb_spec c "I"); [contradiction|]. reflexivity. }
  repeat match goal with |- _ /\ _ => split end; try reflexivity.
  - exact Hfb.
  - intros c Hc HI. unfold color_of. rewrite (Hfb c Hc HI). reflexivity.
  - intros n m st c w Hd Hc.
    rewrite (diagnostic_line_parsed n m st c w Hd).
    assert (E : color_of c = Some color_O).
    { destruct Hc as [->|[Hc HI]]; [reflexivity|].
      unfold color_of. rewrite (Hfb c Hc HI). reflexivity. }
    rewrite E. reflexivity.
Qed.

Lemma type_O_gets_fallback_color_witness :
  map (fun kv => background_rgba (fst kv))
      (lint_messages (snd (lint_parse_line true 1 line_type_O w0))) =
  map (fun kv => background_rgba (fst kv))
      (lint_messages (snd (lint_parse_line true 1 line_type_Z w0))).
Proof.
  destruct type_O_gets_fallback_color as (_ & _ & _ & _ & H).
  assert (HO := H 1 line_type_O
                  {| line := s2l "3"; column := s2l "0";
                     message := s2l "[O0001 other] Something" |} "O" w0).
  assert (HZ := H 1 line_type_Z
                  {| line := s2l "3"; column := s2l "0";
                     message := s2l "[Z0001 other] Something" |} "Z" w0).
  assert (EO : diagnostic line_type_O =
               Some ({| line := s2l "3"; column := s2l "0";
                        message := s2l "[O0001 other] Something" |}, "O"))
    by (vm_compute; reflexivity).
  assert (EZ : diagnostic line_type_Z =
               Some ({| line := s2l "3"; column := s2l "0";
                        message := s2l "[Z0001 other] Something" |}, "Z"))
    by (vm_compute; reflexivity).
  specialize (HO EO (or_introl eq_refl)).
  assert (NZ : dict_get "Z" lint_color = None /\ "Z" <> "I")
    by (split; [reflexivity | discriminate]).
  specialize (HZ EZ (or_intror NZ)).
  rewrite HO, HZ. reflexivity.
Defined.

(** ** [run_pylint] when pylint is not found *)

Lemma for_each_remove_tag (ts : list tag) :
  forall w,
    for_each remove_tag ts w =
    (Ok tt, set_doc (fold_left (fun d t => Gtk.remove t d) ts (doc w)) w).
Proof.
  induction ts as [|t ts IH]; intros w; simpl.
  - destruct w; reflexivity.
  - unfold bind, remove_tag at 1. rewrite IH. reflexivity.
Qed.

(** When the document has a path and pylint is not found, the message is
    printed, the tags of [lint_messages] are removed from the document,
    and [UnboundLocalError] is raised. *)
Lemma run_pylint_not_found (fwe : str -> nat -> nat) (w : world) :
  doc_path (doc w) <> None ->
  run_pylint fwe FileNotFound w =
  (Raise UnboundLocalError,
   {| lint_messages := lint_messages w;
      doc := fold_left (fun d t => Gtk.remove t d)
                       (map fst (lint_messages w)) (doc w);
      stderr := stderr w ++
                [s2l "Pylint is not installed or not found on the path"];
      next_id := next_id w |}).
Proof.
  intros Hp. unfold run_pylint. unfold doc_path in Hp.
  destruct (doc_location (doc w)) as [[path|]|]; try congruence.
  unfold bind, print_stderr, run_pylint_tail, bind, get_messages.
  rewrite for_each_remove_tag. reflexivity.
Qed.

(** C1, on the code: when pylint is not found, [run_pylint] prints the
    message and then goes on: it takes the highlights of the last run off
    the document and raises [UnboundLocalError], instead of returning with
    the document as it was. *)
Theorem run_pylint_not_found_raises :
  List.length (applied (doc w_linted)) = 2 /\
  fst (run_pylint Words.forward_word_end FileNotFound w_linted)
    = Raise UnboundLocalError /\
  stderr (snd (run_pylint Words.forward_word_end FileNotFound w_linted))
    = [s2l "Pylint is not installed or not found on the path"] /\
  applied (doc (snd (run_pylint Words.forward_word_end FileNotFound w_linted)))
    = [] /\
  tag_table (doc (snd (run_pylint Words.forward_word_end FileNotFound w_linted)))
    = [].
Proof.
  assert (E : run_pylint Words.forward_word_end FileNotFound w_linted =
              (Raise UnboundLocalError,
               {| lint_messages := lint_messages w_linted;
                  doc := sample_doc;
                  stderr := [s2l "Pylint is not installed or not found on the path"];
                  next_id := 2 |}))
    by (vm_compute; reflexivity).
  rewrite E. repeat split; vm_compute; reflexivity.
Qed.

(** ** [forward_to_char] *)

Lemma forward_to_char_loop_spec (text : str) (limit : nat) :
  forall fuel start,
    start <= limit -> limit <= List.length text -> limit - start <= fuel ->
    exists s,
      forward_to_char_loop fuel text start limit = Ok s /\
      start <= s <= limit /\
      (forall p, start <= p < s ->
                 Py.contains (TextIter.get_char text p) Py.whitespace = true) /\
      (s = limit \/
       Py.contains (TextIter.get_char text s) Py.whitespace = false).
Proof.
  induction fuel as [|fuel IH]; intros start Hsl Hll Hf.
  - assert (start = limit) by lia. subst start.
    exists limit. cbn [forward_to_char_loop].
    rewrite Nat.ltb_irrefl, andb_false_r.
    split; [reflexivity|]. split; [lia|]. split; [intros p Hp; lia|].
    left; reflexivity.
  - cbn [forward_to_char_loop].
    destruct (Py.contains (TextIter.get_char text start) Py.whitespace) eqn:Ews;
      cbn [andb].
    + destruct (Nat.ltb_spec start limit) as [Hlt|Hge].
      * assert (Efc : TextIter.forward_char text start = S start).
        { unfold TextIter.forward_char.
          destruct (Nat.ltb_spec start (List.length text)); [reflexivity|lia]. }
        rewrite Efc.
        destruct (IH (S start)) as [s [Hs [Hb [Hws Hstop]]]]; try lia.
        exists s. split; [exact Hs|]. split; [lia|]. split; [|exact Hstop].
        intros p Hp. destruct (Nat.eq_dec p start) as [->|Hne]; [exact Ews|].
        apply Hws. lia.
      * exists start. split; [reflexivity|]. split; [lia|].
        split; [intros p Hp; lia|]. left; lia.
    + exists start. split; [reflexivity|]. split; [lia|].
      split; [intros p Hp; lia|]. right; exact Ews.
Qed.

(** C8: for positions [start <= limit] of the text, [forward_to_char]
    returns a position [s] with [start <= s <= limit]: it has moved over
    whitespace only, one character at a time, and has stopped at [limit]
    or at the first character that is not whitespace. *)
Theorem forward_to_char_stays_before_limit (text : str) (start limit : nat) :
  start <= limit -> limit <= List.length text ->
  exists s,
    forward_to_char text start limit = Ok s /\
    start <= s <= limit /\
    (forall p, start <= p < s ->
               Py.contains (TextIter.get_char text p) Py.whitespace = true) /\
    (s = limit \/
     Py.contains (TextIter.get_char text s) Py.whitespace = false).
Proof.
  intros Hsl Hll. unfold forward_to_char.
  apply forward_to_char_loop_spec; lia.
Qed.

Lemma forward_to_char_stays_before_limit_witness :
  exists s, forward_to_char sample_text 11 13 = Ok s /\ 11 <= s <= 13.
Proof.
  destruct (forward_to_char_stays_before_limit sample_text 11 13)
    as [s [Hs [Hb _]]].
  - lia.
  - vm_compute. lia.
  - exists s. split; assumption.
Defined.

(** ** Lines of the text *)

Lemma to_newline_le (s : str) : TextIter.to_newline s <= List.length s.
Proof.
  induction s as [|c s IH]; simpl; [lia|].
  destruct (Ascii.eqb c "010"); lia.
Qed.

Lemma line_end_bounds (text : str) (p : nat) :
  p <= List.length text ->
  p <= TextIter.line_end text p <= List.length text.
Proof.
  intros H. unfold TextIter.line_end.
  pose proof (to_newline_le (skipn p text)) as Hn.
  rewrite length_skipn in Hn. lia.
Qed.

Lemma line_end_past_end (text : str) (p : nat) :
  List.length text <= p -> TextIter.line_end text p = p.
Proof.
  intros H. unfold TextIter.line_end.
  rewrite skipn_all2 by exact H. simpl. lia.
Qed.

Lemma line_start_le (n : nat) :
  forall text s, TextIter.line_start text n = Some s -> s <= List.length text.
Proof.
  induction n as [|n IH]; intros text s H; simpl in H.
  - injection H as <-. lia.
  - destruct (skipn (TextIter.to_newline text) text) as [|c rest] eqn:Es;
      [discriminate|].
    destruct (TextIter.line_start rest n) as [o|] eqn:Eo; [|discriminate].
    injection H as <-. apply IH in Eo.
    assert (Hl : List.length (skipn (TextIter.to_newline text) text)
                 = S (List.length rest)) by (rewrite Es; reflexivity).
    rewrite length_skipn in Hl. lia.
Qed.

Lemma get_iter_at_line_offset_le (text : str) (l c : Z) (p : nat) :
  TextIter.get_iter_at_line_offset text l c = Ok p ->
  p <= List.length text.
Proof.
  unfold TextIter.get_iter_at_line_offset.
  destruct ((l <? 0)%Z || (c <? 0)%Z); [discriminate|].
  destruct (TextIter.line_start text (Z.to_nat l)) as [s|] eqn:Es;
    [|discriminate].
  destruct (Nat.leb_spec (Z.to_nat c) (TextIter.to_newline (skipn s text)))
    as [Hc|Hc]; [|discriminate].
  intros Hp; injection Hp as <-.
  apply line_start_le in Es.
  pose proof (to_newline_le (skipn s text)) as Hn.
  rewrite length_skipn in Hn. lia.
Qed.

(** ** The range of a message at column zero *)

(** X20: on a line that is not empty, a message at column zero is
    highlighted from the first character of the line that is not
    whitespace (or from the end of the line, when there is none) to the
    end of the line. *)
Lemma whole_line_span (fwe : str -> nat -> nat) (text : str) (l : Z)
                      (start : nat) :
  TextIter.get_iter_at_line_offset text l 0 = Ok start ->
  start < TextIter.line_end text start ->
  exists s,
    span fwe text l 0 = Ok (s, TextIter.line_end text start) /\
    start <= s <= TextIter.line_end text start /\
    (forall p, start <= p < s ->
               Py.contains (TextIter.get_char text p) Py.whitespace = true) /\
    (s = TextIter.line_end text start \/
     Py.contains (TextIter.get_char text s) Py.whitespace = false).
Proof.
  intros Hit Hne.
  pose proof (get_iter_at_line_offset_le _ _ _ _ Hit) as Hle.
  pose proof (line_end_bounds text start Hle) as Hb.
  unfold span. rewrite Hit. cbn [Z.eqb].
  unfold TextIter.forward_to_line_end.
  destruct (Nat.ltb_spec start (TextIter.line_end text start)); [|lia].
  destruct (forward_to_char_loop_spec text (TextIter.line_end text start)
              (List.length text) start) as [s [Hs Hrest]]; try lia.
  unfold forward_to_char. rewrite Hs. exists s. split; [reflexivity|exact Hrest].
Qed.

(** The line "    x = 1" of the sample text, at column zero: from the 'x'
    to the end of the line. *)
Lemma whole_line_span_sample (fwe : str -> nat -> nat) :
  span fwe sample_text 2 0 = Ok (15, 20) /\
  TextIter.get_char sample_text 15 = ["x"] /\
  TextIter.line_end sample_text 11 = 20.
Proof.
  repeat split; reflexivity.
Qed.

(** C6, on the code: for a message at column zero on an empty line that
    is followed by another line, the range does not cover the reported
    line.  In [text_empty_line] the second line is empty and starts and
    ends at offset 2; the range computed for it runs from 3 to 6, over the
    third line. *)
Theorem whole_line_span_on_empty_line (fwe : str -> nat -> nat) :
  TextIter.get_iter_at_line_offset text_empty_line 1 0 = Ok 2 /\
  TextIter.line_end text_empty_line 2 = 2 /\
  span fwe text_empty_line 1 0 = Ok (3, 6).
Proof.
  repeat split; reflexivity.
Qed.

(** ** The range of a message at a column other than zero *)

Lemma get_char_skipn (text : str) (p : nat) :
  TextIter.get_char text p =
  match skipn p text with
  | [] => []
  | c :: _ => [c]
  end.
Proof.
  unfold TextIter.get_char. revert text.
  induction p as [|p IH]; intros [|c text]; simpl; try reflexivity.
  apply IH.
Qed.

Lemma ends_line_skipn (text : str) (p : nat) :
  TextIter.ends_line text p =
  match skipn p text with
  | [] => true
  | c :: _ => Ascii.eqb c "010"
  end.
Proof.
  unfold TextIter.ends_line, TextIter.line_end.
  destruct (skipn p text) as [|c rest]; simpl.
  - rewrite Nat.add_0_r. apply Nat.eqb_refl.
  - destruct (Ascii.eqb c "010").
    + rewrite Nat.add_0_r. apply Nat.eqb_refl.
    + apply Nat.eqb_neq. lia.
Qed.

Lemma in_exceptions (x : str) :
  Py.in_list x word_end_exceptions = true <-> x = ["-"] \/ x = ["_"].
Proof.
  unfold Py.in_list, word_end_exceptions, Py.str_eqb. cbn [existsb].
  destruct (list_eq_dec ascii_dec x ["-"]) as [E1|N1];
    destruct (list_eq_dec ascii_dec x ["_"]) as [E2|N2]; cbn [orb];
    split; intros H; try reflexivity; try discriminate; auto.
  destruct H; contradiction.
Qed.

Lemma exception_not_line_end (text : str) (q : nat) :
  Py.in_list (TextIter.get_char text q) word_end_exceptions = true ->
  TextIter.ends_line text q = false /\ q < List.length text.
Proof.
  intros H. apply in_exceptions in H.
  rewrite get_char_skipn in H. rewrite ends_line_skipn.
  destruct (Nat.lt_ge_cases q (List.length text)) as [Hlt|Hge].
  - split; [|exact Hlt].
    destruct (skipn q text) as [|c rest].
    + destruct H; discriminate.
    + destruct H as [H|H]; injection H as ->; reflexivity.
  - rewrite skipn_all2 in H by exact Hge. destruct H; discriminate.
Qed.

Lemma ends_line_false_lt (text : str) (p : nat) :
  TextIter.ends_line text p = false -> p < List.length text.
Proof.
  intros H. destruct (Nat.lt_ge_cases p (List.length text)) as [Hlt|Hge];
    [exact Hlt|].
  rewrite ends_line_skipn, skipn_all2 in H by exact Hge. discriminate.
Qed.


(** ** Identifiers in a host whose words are runs of letters and digits *)












Lemma finds_word_end_check (fwe : str -> nat -> nat) (text : str) :
  forallb (fun q => TextIter.ends_line text q
                    || ((q <? fwe text q) && (fwe text q <=? List.length text)))
          (seq 0 (List.length text)) = true ->
  finds_word_end fwe text.
Proof.
  intros H q El. rewrite forallb_forall in H.
  pose proof (ends_line_false_lt _ _ El) as Hlt.
  specialize (H q). rewrite El in H. cbn [orb] in H.
  assert (Hin : In q (seq 0 (List.length text))) by (apply in_seq; lia).
  apply H in Hin. apply andb_prop in Hin as [H1 H2].
  apply Nat.ltb_lt in H1. apply Nat.leb_le in H2. lia.
Qed.

Lemma run_le (f : ascii -> bool) (s : str) : Words.run f s <= List.length s.
Proof.
  induction s as [|c s IH]; simpl; [lia|]. destruct (f c); lia.
Qed.

(** The host whose words are runs of letters and digits moves forward
    and stays in the text. *)
Lemma words_move_forward (text : str) :
  moves_forward Words.forward_word_end text.
Proof.
  intros p Hp. unfold Words.forward_word_end.
  set (rest := skipn p text).
  set (k := Words.run (fun c => negb (Words.is_word_char c)) rest).
  assert (Hk : k <= List.length rest) by apply run_le.
  assert (Hrest : List.length rest = List.length text - p)
    by apply length_skipn.
  destruct (skipn k rest) as [|c rest'] eqn:Es; [lia|].
  pose proof (run_le Words.is_word_char (c :: rest')) as Hr.
  assert (Hl : List.length (c :: rest') = List.length rest - k)
    by (rewrite <- Es; apply length_skipn).
  lia.
Qed.








(** ** One run after another *)

(** A turn of the loop of [lint_parse] either leaves the state as it is,
    with a result that depends on the line only, or adds one tag and one
    record. *)
Lemma lint_parse_line_cases (ah : bool) (n : nat) (m : str) :
  (exists r, forall w, lint_parse_line ah n m w = (r, w)) \/
  (exists st color,
      forall w,
        lint_parse_line ah n m w =
        (Ok true,
         {| lint_messages :=
              dict_set (tag_for n (next_id w) color) st (lint_messages w);
            doc := Gtk.add (tag_for n (next_id w) color) (doc w);
            stderr := stderr w;
            next_id := S (next_id w) |})).
Proof.
  destruct ah.
  - destruct (diagnostic m) as [[st c]|] eqn:Ed.
    + destruct (color_of c) as [color|] eqn:Ec.
      * right. exists st, color. intros w.
        rewrite (diagnostic_line_parsed n m st c w Ed), Ec. reflexivity.
      * left. exists (Ok true). intros w.
        rewrite (diagnostic_line_parsed n m st c w Ed), Ec. reflexivity.
    + left. unfold diagnostic in Ed.
      destruct m as [|c0 m]; [exists (Ok true); reflexivity|].
      destruct (Py.contains [c0] Py.whitespace) eqn:Ews.
      * exists (Ok true). intros w. step_line. rewrite Ews. reflexivity.
      * destruct (Py.split ":" (c0 :: m)) as [|l [|col [|status_txt [|? ?]]]]
          eqn:Es;
          try (exists (Raise ValueError); intros w; step_line;
               rewrite Ews, Es; reflexivity).
        destruct (nth_error status_txt 1) as [c1|] eqn:E1; [discriminate|].
        exists (Raise IndexError). intros w. step_line.
        rewrite Ews, Es, E1. reflexivity.
  - left. destruct m as [|c m].
    + exists (Raise IndexError). reflexivity.
    + exists (Ok (Ascii.eqb "*" c && Py.contains (s2l "***") (c :: m))).
      intros w. step_line.
      destruct (Ascii.eqb "*" c && Py.contains (s2l "***") (c :: m));
        reflexivity.
Qed.

(** A turn of the loop over the records either applies the tag to the
    range computed from the record, or stops the run. *)
Lemma highlight_target (fwe : str -> nat -> nat) (t : tag) (st : status)
                       (w : world) :
  highlight fwe (t, st) w =
  match target fwe (doc_text (doc w)) st with
  | Ok (s, e) => (Ok tt, set_doc (Gtk.apply_tag t s e (doc w)) w)
  | Raise x => (Raise x, w)
  | Hang => (Hang, w)
  end.
Proof.
  unfold highlight, target, bind, lift.
  destruct (Py.int (line st)); try reflexivity.
  destruct (Py.int (column st)); reflexivity.
Qed.

Lemma filter_twice {A} (f g : A -> bool) (l : list A) :
  filter f (filter g l) = filter (fun x => g x && f x) l.
Proof.
  induction l as [|x l IH]; simpl; [reflexivity|].
  destruct (g x); simpl; [destruct (f x)|]; rewrite IH; reflexivity.
Qed.

Lemma without_spec (ts : list tag) :
  forall d,
    without ts d =
    {| doc_location := doc_location d;
       doc_text := doc_text d;
       tag_table :=
         filter (fun u => negb (existsb (fun t => tag_eqb t u) ts))
                (tag_table d);
       applied :=
         filter (fun a => negb (existsb (fun t => tag_eqb t (fst a)) ts))
                (applied d) |}.
Proof.
  unfold without.
  induction ts as [|t ts IH]; intros d; cbn [fold_left existsb].
  - cbn [negb]. rewrite !filter_true. destruct d; reflexivity.
  - rewrite IH. unfold Gtk.remove. cbn [doc_location doc_text tag_table applied].
    rewrite !filter_twice. f_equal.
    + apply filter_ext. intros u. destruct (tag_eqb t u); reflexivity.
    + apply filter_ext. intros a. destruct (tag_eqb t (fst a)); reflexivity.
Qed.

Lemma run_pylint_tail_pipeline (fwe : str -> nat -> nat) (output : str)
                               (w : world) :
  run_pylint_tail fwe (Some output) w =
  pipeline fwe output
    (set_doc (without (map fst (lint_messages w)) (doc w)) w).
Proof.
  unfold run_pylint_tail, bind at 1, get_messages at 1.
  unfold bind at 1. rewrite for_each_remove_tag. reflexivity.
Qed.

Lemma pipeline_unfold (fwe : str -> nat -> nat) (output : str) (w : world) :
  pipeline fwe output w =
  match lint_parse_loop false (Py.enumerate (Py.split "010" output))
                        (set_messages [] w) with
  | (Ok _, w1) =>
      match for_each (highlight fwe) (lint_messages w1) w1 with
      | (Ok _, w2) => (Ok false, w2)
      | (Raise e, w2) => (Raise e, w2)
      | (Hang, w2) => (Hang, w2)
      end
  | (Raise e, w1) => (Raise e, w1)
  | (Hang, w1) => (Hang, w1)
  end.
Proof.
  unfold pipeline, bind. rewrite lint_parse_unfold.
  destruct (lint_parse_loop _ _ _) as [[?|?|] w1]; reflexivity.
Qed.

Section Shift.

Variables k n : nat.

Lemma shift_id_eqb (i j : nat) :
  Nat.eqb (shift_id k n i) (shift_id k n j) = Nat.eqb i j.
Proof.
  unfold shift_id.
  destruct (Nat.ltb_spec i n), (Nat.ltb_spec j n);
    destruct (Nat.eqb_spec i j) as [E|E];
    try reflexivity; try (exfalso; lia);
    try (subst; apply Nat.eqb_refl); apply Nat.eqb_neq; lia.
Qed.

Lemma tag_eqb_shift (a b : tag) :
  tag_eqb (shift_tag k n a) (shift_tag k n b) = tag_eqb a b.
Proof. apply shift_id_eqb. Qed.

Lemma dict_set_shift (t : tag) (v : status) (d : list (tag * status)) :
  dict_set (shift_tag k n t) v
           (map (fun kv => (shift_tag k n (fst kv), snd kv)) d) =
  map (fun kv => (shift_tag k n (fst kv), snd kv)) (dict_set t v d).
Proof.
  induction d as [|[t' v'] d IH]; cbn [map dict_set fst snd].
  - reflexivity.
  - rewrite tag_eqb_shift. destruct (tag_eqb t t'); cbn [map fst snd].
    + reflexivity.
    + rewrite IH. reflexivity.
Qed.

Lemma existsb_map {A B} (f : B -> bool) (g : A -> B) (l : list A) :
  existsb f (map g l) = existsb (fun x => f (g x)) l.
Proof.
  induction l as [|x l IH]; simpl; [reflexivity|]. rewrite IH. reflexivity.
Qed.

Lemma in_table_shift (t : tag) (d : document) :
  Gtk.in_table (shift_tag k n t) (shift_doc k n d) = Gtk.in_table t d.
Proof.
  unfold Gtk.in_table, shift_doc. cbn [tag_table].
  induction (tag_table d) as [|u l IH]; cbn [map existsb].
  - reflexivity.
  - rewrite tag_eqb_shift, IH. reflexivity.
Qed.

Lemma add_shift (t : tag) (d : document) :
  Gtk.add (shift_tag k n t) (shift_doc k n d) = shift_doc k n (Gtk.add t d).
Proof.
  unfold Gtk.add, Gtk.name_in_table.
  replace (existsb _ (tag_table (shift_doc k n d)))
    with (existsb (fun u => Py.str_eqb (tag_name t) (tag_name u))
                  (tag_table d))
    by (unfold shift_doc; cbn [tag_table]; rewrite existsb_map;
        reflexivity).
  cbn [shift_tag tag_name].
  destruct (existsb _ (tag_table d)); [reflexivity|].
  unfold shift_doc. cbn [doc_location doc_text tag_table applied].
  rewrite map_app. reflexivity.
Qed.

Lemma apply_tag_shift (t : tag) (s e : nat) (d : document) :
  Gtk.apply_tag (shift_tag k n t) s e (shift_doc k n d) =
  shift_doc k n (Gtk.apply_tag t s e d).
Proof.
  unfold Gtk.apply_tag. rewrite in_table_shift.
  destruct (Gtk.in_table t d); [|reflexivity].
  unfold shift_doc. cbn [doc_location doc_text tag_table applied].
  rewrite map_app. reflexivity.
Qed.

Lemma tag_for_shift (n0 id : nat) (color : RGBA) :
  n <= id ->
  shift_tag k n (tag_for n0 id color) = tag_for n0 (id + k) color.
Proof.
  intros H. unfold shift_tag, tag_for, shift_id. cbn [tag_id].
  destruct (Nat.ltb_spec id n); [lia|]. reflexivity.
Qed.

(** With other identities for the tags, a turn of the loop of
    [lint_parse] does the same. *)
Lemma lint_parse_line_shift (ah : bool) (n0 : nat) (m : str) (w : world) :
  n <= next_id w ->
  lint_parse_line ah n0 m (shift_world k n w) =
    (fst (lint_parse_line ah n0 m w),
     shift_world k n (snd (lint_parse_line ah n0 m w))) /\
  n <= next_id (snd (lint_parse_line ah n0 m w)).
Proof.
  intros Hw.
  destruct (lint_parse_line_cases ah n0 m) as [[r H]|[st [color H]]].
  - rewrite !H. split; [reflexivity|exact Hw].
  - rewrite !H. cbn [fst snd next_id]. split; [|lia].
    f_equal. unfold shift_world.
    cbn [lint_messages doc stderr next_id].
    rewrite <- dict_set_shift, <- add_shift, tag_for_shift by exact Hw.
    reflexivity.
Qed.

Lemma lint_parse_loop_shift (items : list (nat * str)) :
  forall (ah : bool) (w : world),
    n <= next_id w ->
    lint_parse_loop ah items (shift_world k n w) =
      (fst (lint_parse_loop ah items w),
       shift_world k n (snd (lint_parse_loop ah items w))) /\
    n <= next_id (snd (lint_parse_loop ah items w)).
Proof.
  induction items as [|[n0 m] items IH]; intros ah w Hw.
  - split; [reflexivity|exact Hw].
  - cbn [lint_parse_loop]. unfold bind.
    destruct (lint_parse_line_shift ah n0 m w Hw) as [E Hn]. rewrite E.
    destruct (lint_parse_line ah n0 m w) as [[ah'|e|] w1];
      cbn [fst snd] in *; try (split; [reflexivity|exact Hn]).
    apply IH. exact Hn.
Qed.

Lemma highlight_shift (fwe : str -> nat -> nat) (t : tag) (st : status)
                      (w : world) :
  highlight fwe (shift_tag k n t, st) (shift_world k n w) =
    (fst (highlight fwe (t, st) w),
     shift_world k n (snd (highlight fwe (t, st) w))) /\
  next_id (snd (highlight fwe (t, st) w)) = next_id w.
Proof.
  rewrite !highlight_target.
  change (doc_text (doc (shift_world k n w))) with (doc_text (doc w)).
  destruct (target fwe (doc_text (doc w)) st) as [[s e]|x|];
    cbn [fst snd]; split; try reflexivity.
  f_equal. unfold set_doc, shift_world.
  cbn [lint_messages doc stderr next_id].
  rewrite apply_tag_shift. reflexivity.
Qed.

Lemma for_each_highlight_shift (fwe : str -> nat -> nat)
                               (items : list (tag * status)) :
  forall w,
    for_each (highlight fwe)
             (map (fun kv => (shift_tag k n (fst kv), snd kv)) items)
             (shift_world k n w) =
      (fst (for_each (highlight fwe) items w),
       shift_world k n (snd (for_each (highlight fwe) items w))) /\
    next_id (snd (for_each (highlight fwe) items w)) = next_id w.
Proof.
  induction items as [|[t st] items IH]; intros w.
  - split; reflexivity.
  - cbn [map for_each fst snd]. unfold bind.
    destruct (highlight_shift fwe t st w) as [E Hn]. rewrite E.
    destruct (highlight fwe (t, st) w) as [[[]|e|] w1];
      cbn [fst snd] in *; try (split; [reflexivity|exact Hn]).
    destruct (IH w1) as [E1 Hn1]. split; [exact E1|congruence].
Qed.

(** With other identities for the tags, the run from [lint_parse] on
    gives the same result and the same state. *)
Lemma pipeline_shift (fwe : str -> nat -> nat) (output : str) (w : world) :
  n <= next_id w ->
  pipeline fwe output (shift_world k n w) =
    (fst (pipeline fwe output w),
     shift_world k n (snd (pipeline fwe output w))) /\
  n <= next_id (snd (pipeline fwe output w)).
Proof.
  intros Hw. rewrite !pipeline_unfold.
  change (set_messages [] (shift_world k n w))
    with (shift_world k n (set_messages [] w)).
  destruct (lint_parse_loop_shift
              (Py.enumerate (Py.split "010" output)) false
              (set_messages [] w) Hw) as [E Hn].
  rewrite E.
  destruct (lint_parse_loop false _ (set_messages [] w)) as [[ah|e|] w1];
    cbn [fst snd] in *; try (split; [reflexivity|exact Hn]).
  change (lint_messages (shift_world k n w1))
    with (map (fun kv => (shift_tag k n (fst kv), snd kv))
              (lint_messages w1)).
  destruct (for_each_highlight_shift fwe (lint_messages w1) w1) as [E1 Hn1].
  rewrite E1.
  destruct (for_each (highlight fwe) (lint_messages w1) w1)
    as [[[]|e|] w2]; cbn [fst snd] in *;
    (split; [reflexivity|lia]).
Qed.

End Shift.

Section Kept.

Variable D : document.
Variable n : nat.

Lemma key_ids_dict_set (t : tag) (v : status) (d : list (tag * status)) :
  forall i,
    In i (map (fun kv => tag_id (fst kv)) (dict_set t v d)) <->
    In i (map (fun kv => tag_id (fst kv)) d) \/ i = tag_id t.
Proof.
  induction d as [|[t' v'] d IH]; intros i; cbn [dict_set map In fst].
  - intuition.
  - unfold tag_eqb. destruct (Nat.eqb_spec (tag_id t) (tag_id t')) as [E|E];
      cbn [map In fst].
    + rewrite E. intuition.
    + rewrite IH. intuition.
Qed.

Lemma filter_below_snoc {A} (f : A -> nat) (l : list A) (x : A) :
  n <= f x ->
  filter (fun y => f y <? n) (l ++ [x]) = filter (fun y => f y <? n) l.
Proof.
  intros H. rewrite filter_app. cbn [filter].
  destruct (Nat.ltb_spec (f x) n); [lia|]. apply app_nil_r.
Qed.

Lemma kept_line (ah : bool) (n0 : nat) (m : str) (w : world) :
  kept D n w -> kept D n (snd (lint_parse_line ah n0 m w)).
Proof.
  intros Hk.
  destruct (lint_parse_line_cases ah n0 m) as [[r H]|[st [color H]]];
    rewrite H; [exact Hk|].
  destruct Hk as (Hp & Ht & Htab & Happ & Hti & Hai & Hkeys & Hn).
  cbn [snd]. unfold kept, key_ids, table_ids, applied_ids.
  cbn [lint_messages doc next_id].
  set (t := tag_for n0 (next_id w) color).
  assert (Hid : tag_id t = next_id w) by reflexivity.
  assert (Hadd : Gtk.add t (doc w) = doc w \/
                 Gtk.add t (doc w) =
                 {| doc_location := doc_location (doc w);
                    doc_text := doc_text (doc w);
                    tag_table := tag_table (doc w) ++ [t];
                    applied := applied (doc w) |}).
  { unfold Gtk.add. destruct (Gtk.name_in_table _ _); auto. }
  assert (Hin : forall i,
             In i (map (fun kv => tag_id (fst kv)) (lint_messages w)) ->
             In i (map (fun kv => tag_id (fst kv))
                       (dict_set t st (lint_messages w)))).
  { intros i Hi. apply key_ids_dict_set. left; exact Hi. }
  assert (Hkeys' : Forall (fun i => n <= i < S (next_id w))
                          (map (fun kv => tag_id (fst kv))
                               (dict_set t st (lint_messages w)))).
  { apply Forall_forall. intros i Hi. apply key_ids_dict_set in Hi.
    destruct Hi as [Hi| ->]; [|lia].
    rewrite Forall_forall in Hkeys. specialize (Hkeys i Hi). lia. }
  destruct Hadd as [->| ->]; cbn [doc_location doc_text tag_table applied].
  - repeat split; auto; try lia.
  - rewrite (filter_below_snoc tag_id) by lia.
    repeat split; auto; try lia.
    intros i Hi Hge. rewrite map_app in Hi. apply in_app_or in Hi.
    destruct Hi as [Hi|[<-|[]]].
    + apply Hin. apply Hti; assumption.
    + apply key_ids_dict_set. right. reflexivity.
Qed.

Lemma kept_loop (items : list (nat * str)) :
  forall (ah : bool) (w : world),
    kept D n w -> kept D n (snd (lint_parse_loop ah items w)).
Proof.
  induction items as [|[n0 m] items IH]; intros ah w Hk.
  - exact Hk.
  - cbn [lint_parse_loop]. unfold bind.
    pose proof (kept_line ah n0 m w Hk) as Hk1.
    destruct (lint_parse_line ah n0 m w) as [[ah'|e|] w1];
      cbn [snd] in *; try exact Hk1.
    apply IH. exact Hk1.
Qed.

Lemma in_table_id (t : tag) (d : document) :
  Gtk.in_table t d = true -> In (tag_id t) (table_ids d).
Proof.
  unfold Gtk.in_table, table_ids. intros H.
  apply existsb_exists in H as [u [Hu E]].
  unfold tag_eqb in E. apply Nat.eqb_eq in E. rewrite E.
  apply in_map. exact Hu.
Qed.

Lemma kept_highlight (fwe : str -> nat -> nat) (t : tag) (st : status)
                     (w : world) :
  n <= tag_id t ->
  kept D n w -> kept D n (snd (highlight fwe (t, st) w)).
Proof.
  intros Hge Hk. rewrite highlight_target.
  destruct (target fwe (doc_text (doc w)) st) as [[s e]|x|];
    cbn [snd]; try exact Hk.
  destruct Hk as (Hp & Ht & Htab & Happ & Hti & Hai & Hkeys & Hn).
  unfold kept, key_ids, table_ids, applied_ids, set_doc, Gtk.apply_tag in *.
  cbn [lint_messages doc next_id].
  destruct (Gtk.in_table t (doc w)) eqn:Ein;
    cbn [doc_location doc_text tag_table applied].
  - rewrite (filter_below_snoc (fun a => tag_id (fst a))) by exact Hge.
    repeat split; auto.
    intros i Hi Hgei. rewrite map_app in Hi. apply in_app_or in Hi.
    destruct Hi as [Hi|[<-|[]]]; [apply Hai; assumption|].
    cbn [fst]. apply Hti; [|exact Hge].
    apply in_table_id. exact Ein.
  - repeat split; auto.
Qed.

Lemma kept_for_each (fwe : str -> nat -> nat) (items : list (tag * status)) :
  forall w,
    Forall (fun kv => n <= tag_id (fst kv)) items ->
    kept D n w -> kept D n (snd (for_each (highlight fwe) items w)).
Proof.
  induction items as [|[t st] items IH]; intros w Hi Hk.
  - exact Hk.
  - inversion Hi as [|? ? Ht Hi']; subst. cbn [fst] in Ht.
    cbn [for_each]. unfold bind.
    pose proof (kept_highlight fwe t st w Ht Hk) as Hk1.
    destruct (highlight fwe (t, st) w) as [[[]|e|] w1];
      cbn [snd] in *; try exact Hk1.
    apply IH; assumption.
Qed.

(** The whole run from [lint_parse] on. *)
Lemma kept_pipeline (fwe : str -> nat -> nat) (output : str) (w : world) :
  kept D n (set_messages [] w) ->
  kept D n (snd (pipeline fwe output w)).
Proof.
  intros Hk. rewrite pipeline_unfold.
  pose proof (kept_loop (Py.enumerate (Py.split "010" output)) false _ Hk)
    as Hk1.
  destruct (lint_parse_loop false _ (set_messages [] w)) as [[ah|e|] w1];
    cbn [snd] in *; try exact Hk1.
  assert (Hitems : Forall (fun kv => n <= tag_id (fst kv)) (lint_messages w1)).
  { destruct Hk1 as (_ & _ & _ & _ & _ & _ & Hkeys & _).
    unfold key_ids in Hkeys. rewrite Forall_map in Hkeys.
    eapply Forall_impl; [|exact Hkeys]. cbn beta. intros; lia. }
  pose proof (kept_for_each fwe (lint_messages w1) w1 Hitems Hk1) as Hk2.
  destruct (for_each (highlight fwe) (lint_messages w1) w1)
    as [[[]|e|] w2]; exact Hk2.
Qed.

Lemma existsb_key (u : tag) (l : list (tag * status)) :
  existsb (fun t => tag_eqb t u) (map fst l) = true <->
  In (tag_id u) (map (fun kv => tag_id (fst kv)) l).
Proof.
  induction l as [|[t v] l IH]; cbn [map existsb In fst].
  - split; [discriminate|tauto].
  - rewrite orb_true_iff, IH. unfold tag_eqb. rewrite Nat.eqb_eq. tauto.
Qed.

(** Taking the keys of [lint_messages] off the document gives [D]
    again. *)
Lemma kept_without (w : world) :
  kept D n w ->
  without (map fst (lint_messages w)) (doc w) = D.
Proof.
  intros (Hp & Ht & Htab & Happ & Hti & Hai & Hkeys & Hn).
  assert (Hside : forall u,
             In (tag_id u) (key_ids w) \/ tag_id u < n ->
             (In (tag_id u) (key_ids w) -> n <= tag_id u) ->
             negb (existsb (fun t => tag_eqb t u) (map fst (lint_messages w)))
             = (tag_id u <? n)).
  { intros u Hcase Hk.
    destruct (existsb _ _) eqn:E; cbn [negb]; symmetry.
    - apply existsb_key in E. apply Nat.ltb_ge. apply Hk. exact E.
    - apply Nat.ltb_lt. destruct Hcase as [Hin|Hlt]; [|exact Hlt].
      apply existsb_key in Hin. congruence. }
  assert (Hkge : forall i, In i (key_ids w) -> n <= i).
  { intros i Hi. rewrite Forall_forall in Hkeys.
    specialize (Hkeys i Hi). lia. }
  assert (E1 : filter (fun u => negb (existsb (fun t => tag_eqb t u)
                                             (map fst (lint_messages w))))
                      (tag_table (doc w)) = tag_table D).
  { rewrite <- Htab. apply filter_ext_in. intros u Hu. apply Hside.
    - destruct (Nat.lt_ge_cases (tag_id u) n) as [Hlt|Hge];
        [right; exact Hlt|left].
      apply Hti; [|exact Hge]. unfold table_ids. apply in_map. exact Hu.
    - apply Hkge. }
  assert (E2 : filter (fun a => negb (existsb (fun t => tag_eqb t (fst a))
                                             (map fst (lint_messages w))))
                      (applied (doc w)) = applied D).
  { rewrite <- Happ. apply filter_ext_in. intros a Ha. apply Hside.
    - destruct (Nat.lt_ge_cases (tag_id (fst a)) n) as [Hlt|Hge];
        [right; exact Hlt|left].
      apply Hai; [|exact Hge]. unfold applied_ids.
      apply (in_map (fun a => tag_id (fst a))). exact Ha.
    - apply Hkge. }
  rewrite without_spec, E1, E2, Hp, Ht. destruct D; reflexivity.
Qed.

End Kept.

Lemma pipeline_cleared (fwe : str -> nat -> nat) (output : str) (w : world) :
  pipeline fwe output w = pipeline fwe output (set_messages [] w).
Proof. rewrite !pipeline_unfold. reflexivity. Qed.

Lemma lint_parse_loop_stderr (items : list (nat * str)) :
  forall ah w, stderr (snd (lint_parse_loop ah items w)) = stderr w.
Proof.
  induction items as [|[n0 m] items IH]; intros ah w; [reflexivity|].
  cbn [lint_parse_loop]. unfold bind.
  destruct (lint_parse_line_cases ah n0 m) as [[r H]|[st [color H]]];
    rewrite H.
  - destruct r; try reflexivity. apply IH.
  - rewrite IH. reflexivity.
Qed.

Lemma for_each_highlight_stderr (fwe : str -> nat -> nat)
                                (items : list (tag * status)) :
  forall w, stderr (snd (for_each (highlight fwe) items w)) = stderr w.
Proof.
  induction items as [|[t st] items IH]; intros w; [reflexivity|].
  cbn [for_each]. unfold bind. rewrite highlight_target.
  destruct (target fwe (doc_text (doc w)) st) as [[s e]|x|]; try reflexivity.
  rewrite IH. reflexivity.
Qed.

Lemma pipeline_stderr (fwe : str -> nat -> nat) (output : str) (w : world) :
  stderr (snd (pipeline fwe output w)) = stderr w.
Proof.
  rewrite pipeline_unfold.
  pose proof (lint_parse_loop_stderr (Py.enumerate (Py.split "010" output))
                false (set_messages [] w)) as H1.
  destruct (lint_parse_loop false _ (set_messages [] w)) as [[ah|e|] w1];
    cbn [snd] in *; try exact H1.
  pose proof (for_each_highlight_stderr fwe (lint_messages w1) w1) as H2.
  change (stderr (set_messages [] w)) with (stderr w) in H1.
  destruct (for_each (highlight fwe) (lint_messages w1) w1) as [[[]|e|] w2];
    cbn [snd] in *; congruence.
Qed.

Lemma Forall_filter {A} (P : A -> Prop) (f : A -> bool) (l : list A) :
  Forall P l -> Forall P (filter f l).
Proof.
  rewrite !Forall_forall. intros H x Hx. apply filter_In in Hx. apply H, Hx.
Qed.

Lemma filter_all {A} (f : A -> bool) (l : list A) :
  Forall (fun x => f x = true) l -> filter f l = l.
Proof.
  induction 1 as [|x l Hx _ IH]; simpl; [reflexivity|].
  rewrite Hx, IH. reflexivity.
Qed.

Lemma shift_tag_below (k n : nat) (t : tag) :
  tag_id t < n -> shift_tag k n t = t.
Proof.
  intros H. unfold shift_tag, shift_id.
  destruct (Nat.ltb_spec (tag_id t) n); [|lia]. destruct t; reflexivity.
Qed.

Lemma shift_doc_below (k n : nat) (d : document) :
  Forall (fun i => i < n) (table_ids d) ->
  Forall (fun i => i < n) (applied_ids d) ->
  shift_doc k n d = d.
Proof.
  unfold table_ids, applied_ids, shift_doc. rewrite !Forall_map.
  intros Ht Ha.
  replace (map (shift_tag k n) (tag_table d)) with (tag_table d).
  replace (map (fun a => (shift_tag k n (fst a), snd a)) (applied d))
    with (applied d).
  - destruct d; reflexivity.
  - induction Ha as [|[t se] l Hx _ IH]; cbn [map fst snd]; [reflexivity|].
    cbn [fst] in Hx. rewrite shift_tag_below by exact Hx. rewrite <- IH.
    reflexivity.
  - induction Ht as [|t l Hx _ IH]; cbn [map]; [reflexivity|].
    rewrite shift_tag_below by exact Hx. rewrite <- IH. reflexivity.
Qed.

Lemma without_below (ts : list tag) (n : nat) (d : document) :
  Forall (fun i => i < n) (table_ids d) ->
  Forall (fun i => i < n) (applied_ids d) ->
  Forall (fun i => i < n) (table_ids (without ts d)) /\
  Forall (fun i => i < n) (applied_ids (without ts d)).
Proof.
  unfold table_ids, applied_ids. rewrite without_spec, !Forall_map.
  cbn [tag_table applied]. intros Ht Ha.
  split; apply Forall_filter; assumption.
Qed.

(** The state a run starts from, once the tags of the last run are taken
    off the document and [lint_messages] is emptied. *)
Lemma kept_start (w : world) :
  well_formed w ->
  kept (without (map fst (lint_messages w)) (doc w)) (next_id w)
       (set_messages []
          (set_doc (without (map fst (lint_messages w)) (doc w)) w)).
Proof.
  intros [Ht Ha].
  destruct (without_below (map fst (lint_messages w)) _ _ Ht Ha) as [Ht' Ha'].
  unfold kept, key_ids, set_messages, set_doc.
  cbn [lint_messages doc next_id map].
  split; [reflexivity|]. split; [reflexivity|].
  unfold table_ids, applied_ids in *. rewrite Forall_map in Ht', Ha'.
  split; [|split; [|split; [|split; [|split]]]].
  - apply filter_all. eapply Forall_impl; [|exact Ht'].
    cbn beta. intros t H. apply Nat.ltb_lt. exact H.
  - apply filter_all. eapply Forall_impl; [|exact Ha'].
    cbn beta. intros t H. apply Nat.ltb_lt. exact H.
  - intros i Hi Hge. apply in_map_iff in Hi as [t [<- Hin]].
    rewrite Forall_forall in Ht'. specialize (Ht' t Hin). lia.
  - intros i Hi Hge. apply in_map_iff in Hi as [a [<- Hin]].
    rewrite Forall_forall in Ha'. specialize (Ha' a Hin). cbn beta in Ha'. lia.
  - constructor.
  - lia.
Qed.

(** A second run on the output of the first: the same result, and the
    state of the first run with new identities for its tags. *)
Lemma rerun_pipeline (fwe : str -> nat -> nat) (output : str) (w : world) :
  well_formed w ->
  let w1 := snd (run_pylint_tail fwe (Some output) w) in
  kept (without (map fst (lint_messages w)) (doc w)) (next_id w) w1 /\
  stderr w1 = stderr w /\
  run_pylint_tail fwe (Some output) w1 =
  (fst (run_pylint_tail fwe (Some output) w),
   shift_world (next_id w1 - next_id w) (next_id w) w1).
Proof.
  intros Hwf. cbv zeta.
  set (D := without (map fst (lint_messages w)) (doc w)).
  rewrite (run_pylint_tail_pipeline fwe output w). fold D.
  set (A := set_doc D w).
  set (w1 := snd (pipeline fwe output A)).
  assert (Hk : kept D (next_id w) w1).
  { apply kept_pipeline. apply kept_start. exact Hwf. }
  assert (Hs : stderr w1 = stderr w)
    by (unfold w1; rewrite pipeline_stderr; reflexivity).
  split; [exact Hk|]. split; [exact Hs|].
  rewrite run_pylint_tail_pipeline, (kept_without D (next_id w) w1 Hk).
  rewrite pipeline_cleared.
  destruct Hk as (_ & _ & _ & _ & _ & _ & _ & Hn).
  destruct Hwf as [Ht Ha].
  destruct (without_below (map fst (lint_messages w)) _ _ Ht Ha) as [Ht' Ha'].
  fold D in Ht', Ha'.
  replace (set_messages [] (set_doc D w1))
    with (shift_world (next_id w1 - next_id w) (next_id w)
                      (set_messages [] A)).
  - destruct (pipeline_shift (next_id w1 - next_id w) (next_id w) fwe output
                (set_messages [] A)) as [E _]; [cbn; lia|].
    rewrite E, <- pipeline_cleared. reflexivity.
  - unfold shift_world, set_messages, set_doc, A.
    cbn [lint_messages doc stderr next_id map].
    rewrite shift_doc_below by assumption.
    unfold set_doc. cbn [lint_messages doc stderr next_id].
    rewrite Hs. f_equal. lia.
Qed.

Lemma run_pylint_no_path (fwe : str -> nat -> nat) (proc : popen_result)
                         (w : world) :
  doc_path (doc w) = None ->
  run_pylint fwe proc w =
  (match doc_location (doc w) with
   | None => Raise AttributeError
   | Some _ => Ok false
   end, w).
Proof.
  unfold run_pylint, doc_path.
  destruct (doc_location (doc w)) as [[path|]|]; intros H;
    try discriminate; reflexivity.
Qed.

Lemma run_pylint_failed (fwe : str -> nat -> nat) (rc : Z) (output : str)
                        (w : world) :
  doc_path (doc w) <> None -> (32 <= rc)%Z ->
  run_pylint fwe (Exited rc output) w = (Ok false, w).
Proof.
  intros Hp H. unfold run_pylint. unfold doc_path in Hp.
  destruct (doc_location (doc w)) as [[path|]|]; try congruence.
  destruct (Z.geb_spec rc 32); [reflexivity|lia].
Qed.

Lemma run_pylint_ran (fwe : str -> nat -> nat) (rc : Z) (output : str)
                     (w : world) :
  doc_path (doc w) <> None -> (rc < 32)%Z ->
  run_pylint fwe (Exited rc output) w = run_pylint_tail fwe (Some output) w.
Proof.
  intros Hp H. unfold run_pylint. unfold doc_path in Hp.
  destruct (doc_location (doc w)) as [[path|]|]; try congruence.
  destruct (Z.geb_spec rc 32); [lia|reflexivity].
Qed.

Lemma spans_shift (k n : nat) (w : world) :
  spans (shift_world k n w) = spans w.
Proof.
  unfold spans, shift_world, shift_doc. cbn [doc applied].
  rewrite map_map. reflexivity.
Qed.

Lemma records_shift (k n : nat) (w : world) :
  records (shift_world k n w) = records w.
Proof.
  unfold records, shift_world. cbn [lint_messages].
  rewrite map_map. reflexivity.
Qed.

Lemma shift_id_range (k n i j : nat) :
  shift_id k n j = i -> i < n \/ n + k <= i.
Proof.
  unfold shift_id. destruct (Nat.ltb_spec j n); lia.
Qed.

Lemma shifted_ids (k n : nat) (w : world) (i : nat) :
  In i (key_ids (shift_world k n w)) \/
  In i (table_ids (doc (shift_world k n w))) \/
  In i (applied_ids (doc (shift_world k n w))) ->
  i < n \/ n + k <= i.
Proof.
  unfold key_ids, table_ids, applied_ids, shift_world, shift_doc.
  cbn [lint_messages doc tag_table applied]. rewrite !map_map.
  cbn [fst tag_id shift_tag].
  intros [H|[H|H]]; apply in_map_iff in H as [x [E _]];
    eapply shift_id_range; exact E.
Qed.

Lemma without_twice (ts : list tag) (d : document) :
  without ts (without ts d) = without ts d.
Proof.
  rewrite !without_spec. cbn [doc_location doc_text tag_table applied].
  rewrite !filter_twice. f_equal; apply filter_ext; intros x;
    destruct (negb _); reflexivity.
Qed.

(** X25: two runs of [run_pylint], one after the other, on the same output
    of pylint and a document whose text is not changed in between, end
    with the same result, the same highlighted ranges and the same
    records; the text is as it was.  When pylint ran and the messages were
    parsed, no tag of the first run is left after the second: not as a
    key of [lint_messages], not in the tag table, not on the text. *)
Theorem rerun_same_spans (fwe : str -> nat -> nat) (proc : popen_result)
                         (w : world) :
  well_formed w ->
  fst (run_pylint fwe proc (snd (run_pylint fwe proc w)))
    = fst (run_pylint fwe proc w) /\
  spans (snd (run_pylint fwe proc (snd (run_pylint fwe proc w))))
    = spans (snd (run_pylint fwe proc w)) /\
  records (snd (run_pylint fwe proc (snd (run_pylint fwe proc w))))
    = records (snd (run_pylint fwe proc w)) /\
  doc_text (doc (snd (run_pylint fwe proc w))) = doc_text (doc w) /\
  (forall rc output,
      proc = Exited rc output -> (rc < 32)%Z -> doc_path (doc w) <> None ->
      forall i,
        In i (key_ids (snd (run_pylint fwe proc w))) ->
        ~ In i (key_ids
                  (snd (run_pylint fwe proc (snd (run_pylint fwe proc w))))) /\
        ~ In i (table_ids
                  (doc (snd (run_pylint fwe proc
                               (snd (run_pylint fwe proc w)))))) /\
        ~ In i (applied_ids
                  (doc (snd (run_pylint fwe proc
                               (snd (run_pylint fwe proc w))))))).
Proof.
  intros Hwf.
  destruct (doc_path (doc w)) as [path|] eqn:Ep.
  2:{ rewrite !(run_pylint_no_path fwe proc w Ep). cbn [fst snd].
      rewrite !(run_pylint_no_path fwe proc w Ep). cbn [fst snd].
      do 4 (split; [reflexivity|]).
      intros rc output _ _ Hp. congruence. }
  assert (Hp : doc_path (doc w) <> None) by congruence.
  destruct proc as [|rc output].
  - (* pylint was not found *)
    rewrite !(run_pylint_not_found fwe w Hp). cbn [fst snd].
    rewrite run_pylint_not_found
      by (cbn [doc]; rewrite without_spec; exact Hp).
    cbn [fst snd lint_messages doc]. unfold spans, records.
    cbn [lint_messages doc].
    fold (without (map fst (lint_messages w)) (doc w)).
    fold (without (map fst (lint_messages w))
                  (without (map fst (lint_messages w)) (doc w))).
    rewrite without_twice.
    do 3 (split; [reflexivity|]).
    split; [rewrite without_spec; reflexivity|].
    intros rc output E. discriminate E.
  - destruct (Z.lt_ge_cases rc 32) as [Hlt|Hge].
    + (* pylint ran *)
      rewrite !(run_pylint_ran fwe rc output w Hp Hlt).
      destruct (rerun_pipeline fwe output w Hwf) as (Hk & Hs & Hrun).
      set (w1 := snd (run_pylint_tail fwe (Some output) w)) in *.
      destruct Hk as (Hp1 & Ht1 & _ & _ & _ & _ & Hkeys & Hn).
      rewrite without_spec in Hp1, Ht1.
      cbn [doc_location doc_text] in Hp1, Ht1.
      rewrite run_pylint_ran
        by (try (unfold doc_path; rewrite Hp1; exact Hp); assumption).
      rewrite Hrun. cbn [fst snd].
      rewrite spans_shift, records_shift.
      do 3 (split; [reflexivity|]). split; [exact Ht1|].
      intros rc' output' _ _ _ i Hi.
      rewrite Forall_forall in Hkeys. specialize (Hkeys i Hi).
      repeat split; intros Hin.
      * assert (Hr := shifted_ids _ _ w1 i (or_introl Hin)). lia.
      * assert (Hr := shifted_ids _ _ w1 i (or_intror (or_introl Hin))). lia.
      * assert (Hr := shifted_ids _ _ w1 i (or_intror (or_intror Hin))). lia.
    + (* pylint failed *)
      rewrite !(run_pylint_failed fwe rc output w Hp Hge). cbn [fst snd].
      rewrite !(run_pylint_failed fwe rc output w Hp Hge). cbn [fst snd].
      do 4 (split; [reflexivity|]).
      intros rc' output' E Hlt. injection E as <- _. lia.
Qed.

Lemma rerun_same_spans_witness :
  well_formed w_linted /\
  spans (snd (run_pylint Words.forward_word_end (Exited 4 out_two_messages)
                (snd (run_pylint Words.forward_word_end
                        (Exited 4 out_two_messages) w_linted))))
  = spans (snd (run_pylint Words.forward_word_end
                  (Exited 4 out_two_messages) w_linted)).
Proof.
  assert (Hwf : well_formed w_linted).
  { split; vm_compute; repeat constructor. }
  split; [exact Hwf|].
  apply (rerun_same_spans Words.forward_word_end
           (Exited 4 out_two_messages) w_linted Hwf).
Defined.

(** C9, on the code: a run does not always discard what an earlier run
    left.  Two Python documents are open and both were linted, document 0
    first; [lint_messages] then holds the tags of document 1.  Document 0,
    its text unchanged, is saved twice, and pylint prints the same
    output both times: one message, for the first line.  Both runs end
    with the same ranges, but these are the ranges of the first run of
    all, under its tags: the tags a run removes are the keys of
    [lint_messages], which are not those of this document, and the tag
    of the new record, whose name is taken, gets no range.  For one
    document alone the same output highlights the first line. *)
Theorem rerun_keeps_stale_highlights :
  let g3 := step Words.forward_word_end two_documents
                 (Emit_saved 0 (Exited 4 out_first_line)) in
  let g4 := step Words.forward_word_end g3
                 (Emit_saved 0 (Exited 4 out_first_line)) in
  doc_text (buffers g4 0) = doc_text (buffers two_documents 0) /\
  document_spans (buffers two_documents 0) = [(15, 20); (27, 39)] /\
  key_ids (plugin two_documents) = [2; 3] /\
  document_spans (buffers g3 0) = [(15, 20); (27, 39)] /\
  document_spans (buffers g4 0) = [(15, 20); (27, 39)] /\
  applied_ids (buffers g3 0) = [0; 1] /\
  applied_ids (buffers g4 0) = [0; 1] /\
  table_ids (buffers g4 0) = [0; 1] /\
  key_ids (plugin g3) = [4] /\
  key_ids (plugin g4) = [5] /\
  map line (records (plugin g4)) = [s2l "1"] /\
  spans (snd (run_pylint Words.forward_word_end (Exited 4 out_first_line) w0))
  = [(0, 9)].
Proof.
  cbv zeta.
  repeat match goal with |- _ /\ _ => split end; vm_compute; reflexivity.
Qed.


(** The sample document after the first run and after a second one: the
    same two ranges, under tags created anew. *)
Lemma rerun_sample :
  spans w_linted = [(15, 20); (27, 39)] /\
  applied_ids (doc w_linted) = [0; 1] /\
  spans (snd (run_pylint Words.forward_word_end (Exited 4 out_two_messages)
                w_linted)) = [(15, 20); (27, 39)] /\
  applied_ids
    (doc (snd (run_pylint Words.forward_word_end (Exited 4 out_two_messages)
                 w_linted))) = [2; 3].
Proof.
  repeat split; vm_compute; reflexivity.
Qed.

(** * Further properties *)

(** ** Fields between colons *)

Lemma split_no_sep (sep : ascii) (a : str) :
  ~ In sep a -> Py.split sep a = [a].
Proof.
  induction a as [|c a IH]; intros H; [reflexivity|].
  cbn [Py.split].
  destruct (Ascii.eqb_spec c sep) as [->|_]; [exfalso; apply H; left; reflexivity|].
  rewrite IH by (intros Hin; apply H; right; exact Hin). reflexivity.
Qed.

Lemma split_app_sep (sep : ascii) (a b : str) :
  ~ In sep a -> Py.split sep (a ++ sep :: b) = a :: Py.split sep b.
Proof.
  induction a as [|c a IH]; intros H; cbn [app Py.split].
  - rewrite Ascii.eqb_refl. reflexivity.
  - destruct (Ascii.eqb_spec c sep) as [->|_];
      [exfalso; apply H; left; reflexivity|].
    rewrite IH by (intros Hin; apply H; right; exact Hin). reflexivity.
Qed.

Lemma split_length (sep : ascii) (s : str) :
  List.length (Py.split sep s) = S (count_occ ascii_dec s sep).
Proof.
  induction s as [|c s IH]; [reflexivity|].
  cbn [Py.split count_occ].
  destruct (Ascii.eqb_spec c sep) as [->|Hne].
  - destruct (ascii_dec sep sep); [|congruence]. cbn [List.length].
    rewrite IH. reflexivity.
  - destruct (ascii_dec c sep); [congruence|].
    destruct (Py.split sep s) as [|f fs]; [discriminate IH|].
    cbn [List.length] in *. exact IH.
Qed.

(** X1: a line printed under the message template, with fields that hold
    no colon and a line number that does not begin with a blank, is read
    back field by field: the record stored for it has the line, the
    column and the text "[msg_id symbol] msg" of the template, and its
    colour is chosen by the first character of the message id; a message
    whose id begins with 'I' is dropped. *)
Theorem template_line_parsed
    (n : nat) (ch : ascii) (l c : str) (t : ascii) (msg_id symbol msg : str)
    (w : world) :
  Py.contains [ch] Py.whitespace = false ->
  ~ In ":" (ch :: l) -> ~ In ":" c ->
  ~ In ":" (t :: msg_id) -> ~ In ":" symbol -> ~ In ":" msg ->
  lint_parse_line true n (msg_template (ch :: l) c (t :: msg_id) symbol msg) w =
  match color_of t with
  | Some color =>
      (Ok true,
       {| lint_messages :=
            dict_set (tag_for n (next_id w) color)
                     {| line := ch :: l; column := c;
                        message := status_text (t :: msg_id) symbol msg |}
                     (lint_messages w);
          doc := Gtk.add (tag_for n (next_id w) color) (doc w);
          stderr := stderr w;
          next_id := S (next_id w) |})
  | None => (Ok true, w)
  end.
Proof.
  intros Hws Hl Hc Hid Hsym Hmsg.
  apply diagnostic_line_parsed.
  set (st := status_text (t :: msg_id) symbol msg).
  assert (Hst : ~ In ":" st).
  { unfold st, status_text. intros Hin.
    destruct Hin as [E|Hin]; [discriminate E|].
    apply in_app_or in Hin. destruct Hin as [Hin|Hin]; [exact (Hid Hin)|].
    destruct Hin as [E|Hin]; [discriminate E|].
    apply in_app_or in Hin. destruct Hin as [Hin|Hin]; [exact (Hsym Hin)|].
    destruct Hin as [E|[E|Hin]];
      [discriminate E|discriminate E|exact (Hmsg Hin)]. }
  assert (Hsplit : Py.split ":" (msg_template (ch :: l) c (t :: msg_id)
                                   symbol msg) = [ch :: l; c; st]).
  { change (msg_template (ch :: l) c (t :: msg_id) symbol msg)
      with ((ch :: l) ++ ":" :: c ++ ":" :: st).
    rewrite (split_app_sep ":" (ch :: l)) by exact Hl.
    rewrite (split_app_sep ":" c) by exact Hc.
    rewrite split_no_sep by exact Hst. reflexivity. }
  unfold diagnostic. rewrite Hsplit.
  change (msg_template (ch :: l) c (t :: msg_id) symbol msg)
    with (ch :: (l ++ ":" :: c ++ ":" :: st)).
  cbv iota. rewrite Hws. reflexivity.
Qed.

Lemma template_line_parsed_witness :
  records (snd (lint_parse_line true 2
                  (msg_template ["3"] (s2l "0") ("C" :: s2l "0114")
                     (s2l "missing-module-docstring")
                     (s2l "Missing module docstring")) w0))
  = [{| line := s2l "3"; column := s2l "0";
        message := s2l "[C0114 missing-module-docstring] Missing module docstring" |}].
Proof.
  rewrite (template_line_parsed 2 "3" [] (s2l "0") "C" (s2l "0114")
             (s2l "missing-module-docstring")
             (s2l "Missing module docstring") w0).
  - reflexivity.
  - reflexivity.
  - intros [E|[]]; discriminate E.
  - intros [E|[]]; discriminate E.
  - cbn. intuition discriminate.
  - cbn. intuition discriminate.
  - cbn. intuition discriminate.
Defined.

(** X2: after the marker, a line that is not passed over raises
    [ValueError] exactly when the number of its colons is not two; in
    particular a message whose text holds a colon ends the parse. *)
Theorem value_error_iff_not_two_colons
    (n : nat) (c : ascii) (m : str) (w : world) :
  Py.contains [c] Py.whitespace = false ->
  (fst (lint_parse_line true n (c :: m) w) = Raise ValueError <->
   count_occ ascii_dec (c :: m) ":" <> 2).
Proof.
  intros Hws. split.
  - intros Hr Hcount.
    assert (Hlen : List.length (Py.split ":" (c :: m)) = 3)
      by (rewrite split_length, Hcount; reflexivity).
    revert Hr. step_line. rewrite Hws.
    destruct (Py.split ":" (c :: m)) as [|l [|col [|status_txt [|? ?]]]];
      try discriminate Hlen.
    destruct (nth_error status_txt 1) as [c1|]; [|discriminate].
    rewrite choose_color_cases.
    destruct (chosen _); discriminate.
  - intros Hcount.
    rewrite wrong_field_count_raises; [reflexivity|exact Hws|].
    rewrite split_length. lia.
Qed.

Lemma value_error_iff_not_two_colons_witness :
  fst (lint_parse_line true 1
         (s2l "7:0:[W0511 fixme] TODO: write this") w0) = Raise ValueError.
Proof.
  apply (value_error_iff_not_two_colons 1 "7"
           (s2l ":0:[W0511 fixme] TODO: write this") w0).
  - reflexivity.
  - vm_compute. lia.
Defined.

(** ** Lines that are passed over *)

Lemma diagnostic_not_blank (m : str) :
  diagnostic m <> None -> blank m = false.
Proof.
  unfold diagnostic, blank. destruct m as [|c m]; [congruence|].
  destruct (Py.contains [c] Py.whitespace); [congruence|reflexivity].
Qed.

Lemma blank_not_diagnostic (m : str) :
  blank m = true -> diagnostic m = None.
Proof.
  intros H. destruct (diagnostic m) eqn:E; [|reflexivity].
  rewrite diagnostic_not_blank in H by congruence. discriminate.
Qed.

Lemma entries_records_blank (lines : list str) :
  forall n id,
    Forall (fun m => diagnostic m <> None \/ blank m = true) lines ->
    map (fun kv => Some (snd kv)) (entries n id lines) =
    map record_of
        (filter (fun m => negb (blank m) && negb (suppressed m)) lines).
Proof.
  induction lines as [|m lines IH]; intros n id H; [reflexivity|].
  inversion H as [|? ? Hm H']; subst. cbn [entries filter].
  destruct (diagnostic m) as [[st c]|] eqn:Ed.
  - rewrite diagnostic_not_blank by congruence. cbn [negb andb].
    assert (Hs : suppressed m = Ascii.eqb c "I")
      by (unfold suppressed; rewrite Ed; reflexivity).
    rewrite Hs.
    destruct (color_of c) as [color|] eqn:Ec.
    + destruct (Ascii.eqb_spec c "I") as [->|_].
      * assert (color_of "I" = None) by (apply color_of_None; reflexivity).
        congruence.
      * cbn [negb map snd]. f_equal.
        -- unfold record_of. rewrite Ed. reflexivity.
        -- apply IH; assumption.
    + apply color_of_None in Ec. subst c.
      rewrite Ascii.eqb_refl. cbn [negb]. apply IH; assumption.
  - destruct Hm as [Hm|Hm]; [congruence|].
    rewrite Hm. cbn [negb andb]. apply IH; assumption.
Qed.

(** X3: after the marker, empty lines and lines that begin with a blank
    (the source lines pylint prints under a message, the empty line after
    the last newline) leave no trace in the records: when every line after
    the marker is such a line or a message, [lint_parse] returns normally
    and the records are those of the messages whose type is not 'I', in
    their order. *)
Theorem excerpt_lines_ignored
    (messages : str) (pre lines : list str) (marker : str) (w : world) :
  Py.split "010" messages = pre ++ marker :: lines ->
  Forall (fun m => m <> [] /\ is_marker m = false) pre ->
  is_marker marker = true ->
  Forall (fun m => diagnostic m <> None \/ blank m = true) lines ->
  exists w',
    lint_parse messages w = (Ok tt, w') /\
    map (fun kv => Some (snd kv)) (lint_messages w') =
      map record_of
          (filter (fun m => negb (blank m) && negb (suppressed m)) lines).
Proof.
  intros Hs Hpre Hm Hlines.
  eexists. split.
  - rewrite lint_parse_unfold, Hs. unfold Py.enumerate.
    rewrite enumerate_from_app, lint_parse_loop_app.
    erewrite bind_ok by (apply header_skipped; exact Hpre).
    cbn [Py.enumerate_from lint_parse_loop].
    erewrite bind_ok by (apply marker_line_found; exact Hm).
    rewrite diagnostics_parsed; [reflexivity|exact Hlines|constructor].
  - cbn [lint_messages set_messages app next_id].
    apply entries_records_blank. exact Hlines.
Qed.

Lemma excerpt_lines_ignored_witness :
  exists w',
    lint_parse out_with_excerpt w0 = (Ok tt, w') /\
    records w' =
      [{| line := s2l "3"; column := s2l "0";
          message := s2l "[C0114 missing-module-docstring] Missing module docstring" |};
       {| line := s2l "4"; column := s2l "6";
          message := s2l "[W0612 unused-variable] Unused variable 'my_long_name'" |}].
Proof.
  destruct (excerpt_lines_ignored out_with_excerpt
              [s2l "No config file found, using default configuration"]
              [s2l "3:0:[C0114 missing-module-docstring] Missing module docstring";
               s2l "    x = 1";
               s2l "4:0:[I0011 locally-disabled] Locally disabling unused-variable";
               s2l "4:6:[W0612 unused-variable] Unused variable 'my_long_name'";
               []]
              (s2l marker_line) w0) as [w' [Hrun Hrec]].
  - reflexivity.
  - repeat constructor; discriminate.
  - reflexivity.
  - repeat (apply Forall_cons;
            [first [left; discriminate | right; reflexivity]|]).
    apply Forall_nil.
  - exists w'. split; [exact Hrun|].
    unfold records.
    apply (f_equal (map (fun o => match o with
                                  | Some st => st
                                  | None => {| line := []; column := [];
                                               message := [] |}
                                  end))) in Hrec.
    rewrite map_map in Hrec. cbn [snd] in Hrec.
    rewrite (map_ext _ snd) in Hrec by reflexivity.
    rewrite Hrec. reflexivity.
Defined.

(** ** What [lint_parse] changes, on any output *)

Lemma lint_parse_loop_frame (items : list (nat * str)) :
  forall (ah : bool) (w : world),
    Forall (fun i => i < next_id w) (key_ids w) ->
    let w' := snd (lint_parse_loop ah items w) in
    doc_text (doc w') = doc_text (doc w) /\
    doc_location (doc w') = doc_location (doc w) /\
    applied (doc w') = applied (doc w) /\
    stderr w' = stderr w /\
    next_id w <= next_id w' /\
    key_ids w' = key_ids w ++ seq (next_id w) (next_id w' - next_id w) /\
    exists new,
      tag_table (doc w') = tag_table (doc w) ++ new /\
      Forall (fun t => next_id w <= tag_id t < next_id w') new.
Proof.
  induction items as [|[n0 m] items IH]; intros ah w Hk; cbv zeta.
  - cbn [lint_parse_loop ret snd]. rewrite Nat.sub_diag. cbn [seq].
    rewrite !app_nil_r. repeat split; try reflexivity.
    exists []. rewrite app_nil_r. split; [reflexivity|constructor].
  - cbn [lint_parse_loop]. unfold bind.
    destruct (lint_parse_line_cases ah n0 m) as [[r H]|[st [color H]]];
      rewrite H.
    + destruct r as [ah'|e|]; cbn [snd].
      * apply IH. exact Hk.
      * rewrite Nat.sub_diag. cbn [seq]. rewrite !app_nil_r.
        repeat split; try reflexivity.
        exists []. rewrite app_nil_r. split; [reflexivity|constructor].
      * rewrite Nat.sub_diag. cbn [seq]. rewrite !app_nil_r.
        repeat split; try reflexivity.
        exists []. rewrite app_nil_r. split; [reflexivity|constructor].
    + set (t := tag_for n0 (next_id w) color).
      set (w1 := {| lint_messages := dict_set t st (lint_messages w);
                    doc := Gtk.add t (doc w);
                    stderr := stderr w;
                    next_id := S (next_id w) |}).
      assert (Hset : dict_set t st (lint_messages w)
                     = lint_messages w ++ [(t, st)]).
      { apply dict_set_fresh. unfold key_ids in Hk.
        rewrite Forall_map in Hk. exact Hk. }
      assert (Hk1 : Forall (fun i => i < next_id w1) (key_ids w1)).
      { unfold key_ids, w1. cbn [lint_messages next_id].
        rewrite Hset, map_app. apply Forall_app. split.
        - eapply Forall_impl; [|exact Hk]. cbn beta. intros; lia.
        - repeat constructor. }
      destruct (IH true w1 Hk1)
        as (Ht & Hl & Ha & He & Hn & Hkeys & new & Htab & Hnew).
      cbv zeta in *.
      set (w' := snd (lint_parse_loop true items w1)) in *.
      assert (Hadd : exists new0,
                 tag_table (doc w1) = tag_table (doc w) ++ new0 /\
                 Forall (fun u => next_id w <= tag_id u < next_id w') new0 /\
                 doc_text (doc w1) = doc_text (doc w) /\
                 doc_location (doc w1) = doc_location (doc w) /\
                 applied (doc w1) = applied (doc w)).
      { unfold w1. cbn [doc]. unfold Gtk.add.
        destruct (Gtk.name_in_table _ _).
        - exists []. rewrite app_nil_r. repeat split; constructor.
        - exists [t]. cbn [tag_table doc_text doc_location applied].
          repeat split. repeat constructor; cbn [tag_id t tag_for];
            cbn [next_id w1] in Hn; lia. }
      destruct Hadd as (new0 & Htab0 & Hnew0 & Ht0 & Hl0 & Ha0).
      cbn [next_id w1] in Hn.
      split; [congruence|]. split; [congruence|]. split; [congruence|].
      split; [exact He|]. split; [lia|]. split.
      * rewrite Hkeys. unfold key_ids at 1, w1. cbn [lint_messages next_id].
        rewrite Hset, map_app, <- app_assoc. cbn [map fst tag_id t tag_for app].
        unfold key_ids. f_equal.
        replace (next_id w' - next_id w) with (S (next_id w' - S (next_id w)))
          by lia.
        reflexivity.
      * exists (new0 ++ new). rewrite Htab, Htab0, app_assoc.
        split; [reflexivity|]. apply Forall_app. split; [exact Hnew0|].
        eapply Forall_impl; [|exact Hnew]. cbn beta.
        cbn [next_id w1]. intros; lia.
Qed.

(** X4: whatever the output holds, and whether [lint_parse] returns or
    raises, it leaves the text, the location and the highlights of the
    document and the error stream as they are and adds tags to the end of
    the tag table only; no record of an earlier parse is left: the keys of
    [lint_messages] are the tags created during this call, one after the
    other, one for each record. *)
Theorem lint_parse_frame (messages : str) (w : world) :
  let w' := snd (lint_parse messages w) in
  doc_text (doc w') = doc_text (doc w) /\
  doc_location (doc w') = doc_location (doc w) /\
  applied (doc w') = applied (doc w) /\
  stderr w' = stderr w /\
  next_id w <= next_id w' /\
  key_ids w' = seq (next_id w) (next_id w' - next_id w) /\
  List.length (records w') = next_id w' - next_id w /\
  exists new,
    tag_table (doc w') = tag_table (doc w) ++ new /\
    Forall (fun t => In (tag_id t) (key_ids w')) new.
Proof.
  cbv zeta. rewrite lint_parse_unfold.
  destruct (lint_parse_loop_frame (Py.enumerate (Py.split "010" messages))
              false (set_messages [] w))
    as (Ht & Hl & Ha & He & Hn & Hkeys & new & Htab & Hnew);
    [constructor|].
  cbv zeta in *.
  destruct (lint_parse_loop false _ (set_messages [] w)) as [[ah|e|] w'];
    cbn [snd] in *;
    (split; [exact Ht|]; split; [exact Hl|]; split; [exact Ha|];
     split; [exact He|]; split; [exact Hn|]; split; [exact Hkeys|];
     split;
     [unfold records; rewrite length_map;
      rewrite <- (length_map (fun kv => tag_id (fst kv)));
      fold (key_ids w'); rewrite Hkeys; apply length_seq
     |exists new; split; [exact Htab|];
      eapply Forall_impl; [|exact Hnew]; cbn beta; intros t Hb;
      rewrite Hkeys; apply in_seq; cbn [next_id set_messages] in *; lia]).
Qed.

(** ** A parse that raises *)

Lemma lint_parse_loop_result (items : list (nat * str)) :
  forall (ah : bool) (w w' : world),
    fst (lint_parse_loop ah items w) = fst (lint_parse_loop ah items w').
Proof.
  induction items as [|[n0 m] items IH]; intros ah w w'; [reflexivity|].
  cbn [lint_parse_loop]. unfold bind.
  destruct (lint_parse_line_cases ah n0 m) as [[r H]|[st [color H]]];
    rewrite !H.
  - destruct r; try reflexivity. apply IH.
  - apply IH.
Qed.

Lemma lint_parse_result (messages : str) (w w' : world) :
  fst (lint_parse messages w) = fst (lint_parse messages w').
Proof.
  rewrite !lint_parse_unfold.
  pose proof (lint_parse_loop_result (Py.enumerate (Py.split "010" messages))
                false (set_messages [] w) (set_messages [] w')) as H.
  destruct (lint_parse_loop false _ (set_messages [] w)) as [[?|?|] ?];
    destruct (lint_parse_loop false _ (set_messages [] w')) as [[?|?|] ?];
    cbn [fst] in *; congruence.
Qed.

(** X5: when pylint ran and [lint_parse] raises on its output, [run_pylint]
    raises the same exception and highlights nothing: the highlights of
    the tags that were keys of [lint_messages] are gone, and no range has
    been added, not even for the messages read before the line that
    raised. *)
Theorem parse_error_no_highlight
    (fwe : str -> nat -> nat) (rc : Z) (output : str) (w : world) (e : exn) :
  doc_path (doc w) <> None -> (rc < 32)%Z ->
  fst (lint_parse output w) = Raise e ->
  fst (run_pylint fwe (Exited rc output) w) = Raise e /\
  applied (doc (snd (run_pylint fwe (Exited rc output) w))) =
    applied (without (map fst (lint_messages w)) (doc w)) /\
  Forall (fun a => ~ In (tag_id (fst a)) (key_ids w))
         (applied (doc (snd (run_pylint fwe (Exited rc output) w)))).
Proof.
  intros Hp Hrc He.
  rewrite (run_pylint_ran fwe rc output w Hp Hrc).
  rewrite run_pylint_tail_pipeline.
  set (A := set_doc (without (map fst (lint_messages w)) (doc w)) w).
  rewrite (lint_parse_result output w A) in He.
  pose proof (lint_parse_frame output A) as (_ & _ & Ha & _).
  cbv zeta in Ha.
  assert (E : pipeline fwe output A = (Raise e, snd (lint_parse output A))).
  { unfold pipeline, bind.
    destruct (lint_parse output A) as [[[]|x|] w1]; cbn [fst snd] in *;
      try discriminate He. congruence. }
  rewrite E. cbn [fst snd]. split; [reflexivity|].
  split; [exact Ha|]. rewrite Ha. unfold A. cbn [set_doc doc].
  rewrite without_spec. cbn [applied].
  apply Forall_forall. intros a Hin. apply filter_In in Hin as [_ Hf].
  intros Hk. apply existsb_key in Hk.
  rewrite Hk in Hf. discriminate Hf.
Qed.

Lemma parse_error_no_highlight_witness :
  fst (run_pylint Words.forward_word_end (Exited 4 out_one_field) w_linted)
    = Raise ValueError /\
  applied (doc (snd (run_pylint Words.forward_word_end
                       (Exited 4 out_one_field) w_linted))) = [].
Proof.
  destruct (parse_error_no_highlight Words.forward_word_end 4 out_one_field
              w_linted ValueError) as (Hr & Ha & _).
  - discriminate.
  - lia.
  - reflexivity.
  - split; [exact Hr|]. rewrite Ha. reflexivity.
Defined.

(** ** A loop that does not end *)

(** X6: the loop that looks for the end of a word never ends when the
    host leaves the iterator where it is (it finds no further word end)
    at a hyphen or an underscore that is not the end of a line: the range
    of a message at such a position is never computed. *)
Theorem word_end_loop_hangs
    (fwe : str -> nat -> nat) (text : str) (l c : Z) (p : nat) :
  (0 < c)%Z ->
  TextIter.get_iter_at_line_offset text l c = Ok p ->
  fwe text p = p ->
  Py.in_list (TextIter.get_char text p) word_end_exceptions = true ->
  (forall fuel, word_end_loop fwe fuel text p = Hang) /\
  span fwe text l c = Hang.
Proof.
  intros Hc Hit Hfix Hex.
  destruct (exception_not_line_end _ _ Hex) as [El _].
  assert (Hloop : forall fuel, word_end_loop fwe fuel text p = Hang).
  { induction fuel as [|fuel IH]; cbn [word_end_loop]; rewrite El;
      [reflexivity|].
    rewrite Hfix, Hex. cbn [negb]. exact IH. }
  split; [exact Hloop|].
  unfold span. rewrite Hit.
  destruct (Z.eqb_spec c 0) as [E|_]; [lia|].
  rewrite Hloop. reflexivity.
Qed.

Lemma word_end_loop_hangs_witness :
  span Words.forward_word_end text_trailing_hyphen 0 6 = Hang.
Proof.
  apply (word_end_loop_hangs Words.forward_word_end text_trailing_hyphen
           0 6 6); [lia|reflexivity|reflexivity|reflexivity].
Defined.

(** ** Ranges in order *)

Lemma forward_to_line_end_bounds (text : str) (p : nat) :
  p <= List.length text ->
  p <= TextIter.forward_to_line_end text p <= List.length text.
Proof.
  intros Hp. unfold TextIter.forward_to_line_end.
  pose proof (line_end_bounds text p Hp) as H1.
  destruct (Nat.ltb_spec p (TextIter.line_end text p)); [lia|].
  destruct (Nat.ltb_spec p (List.length text)) as [Hlt|Hge]; [|lia].
  pose proof (line_end_bounds text (S p) Hlt) as H2. lia.
Qed.

Lemma word_end_loop_bounds (fwe : str -> nat -> nat) (text : str) :
  moves_forward fwe text ->
  forall fuel p e,
    p <= List.length text ->
    word_end_loop fwe fuel text p = Ok e ->
    p <= e <= List.length text.
Proof.
  intros Hmf. induction fuel as [|fuel IH]; intros p e Hp;
    cbn [word_end_loop]; destruct (TextIter.ends_line text p);
    try (intros H; injection H as <-; lia); try discriminate.
  pose proof (Hmf p Hp) as Hstep.
  destruct (negb _).
  - intros H; injection H as <-. lia.
  - intros H. apply IH in H; lia.
Qed.

(** The range of a message lies in the text, between the position the
    message is reported at and the end of the text, its start not after
    its end. *)
Lemma span_in_order (fwe : str -> nat -> nat) (text : str) (l c : Z)
                    (s e : nat) :
  moves_forward fwe text ->
  span fwe text l c = Ok (s, e) ->
  exists start,
    TextIter.get_iter_at_line_offset text l c = Ok start /\
    start <= s <= e /\ e <= List.length text.
Proof.
  intros Hmf. unfold span.
  destruct (TextIter.get_iter_at_line_offset text l c) as [start|x|] eqn:Hit;
    try discriminate.
  pose proof (get_iter_at_line_offset_le _ _ _ _ Hit) as Hle.
  assert (Hend : forall e0,
             (if (c =? 0)%Z
              then Ok (TextIter.forward_to_line_end text start)
              else word_end_loop fwe (S (List.length text)) text start)
             = Ok e0 ->
             start <= e0 <= List.length text).
  { destruct (c =? 0)%Z; intros e0 H.
    - injection H as <-. apply forward_to_line_end_bounds. exact Hle.
    - eapply word_end_loop_bounds; eauto. }
  destruct (if (c =? 0)%Z then _ else _) as [e0|x|]; try discriminate.
  specialize (Hend e0 eq_refl).
  destruct (forward_to_char_loop_spec text e0 (List.length text) start)
    as (s0 & Hs0 & Hb & _); try lia.
  unfold forward_to_char. rewrite Hs0.
  intros H; injection H as <- <-.
  exists start. split; [reflexivity|lia].
Qed.

Lemma target_span (fwe : str -> nat -> nat) (text : str) (st : status)
                  (s e : nat) :
  target fwe text st = Ok (s, e) ->
  exists l c, span fwe text l c = Ok (s, e).
Proof.
  unfold target.
  destruct (Py.int (line st)) as [l|x|]; try discriminate.
  destruct (Py.int (column st)) as [c|x|]; try discriminate.
  intros H. exists (l - 1)%Z, c. exact H.
Qed.

Lemma for_each_highlight_in_order (fwe : str -> nat -> nat)
                                  (items : list (tag * status)) :
  forall w,
    moves_forward fwe (doc_text (doc w)) ->
    Forall (in_order (doc_text (doc w))) (applied (doc w)) ->
    doc_text (doc (snd (for_each (highlight fwe) items w)))
      = doc_text (doc w) /\
    Forall (in_order (doc_text (doc w)))
           (applied (doc (snd (for_each (highlight fwe) items w)))).
Proof.
  induction items as [|[t st] items IH]; intros w Hmf Hord.
  - split; [reflexivity|exact Hord].
  - cbn [for_each]. unfold bind. rewrite highlight_target.
    destruct (target fwe (doc_text (doc w)) st) as [[s e]|x|] eqn:Et;
      cbn [snd]; try (split; [reflexivity|exact Hord]).
    destruct (target_span _ _ _ _ _ Et) as (l & c & Hsp).
    destruct (span_in_order _ _ _ _ _ _ Hmf Hsp) as (start & _ & Hb & He).
    set (w1 := set_doc (Gtk.apply_tag t s e (doc w)) w).
    assert (Ht1 : doc_text (doc w1) = doc_text (doc w)).
    { unfold w1, set_doc, Gtk.apply_tag. cbn [doc].
      destruct (Gtk.in_table t (doc w)); reflexivity. }
    assert (Ho1 : Forall (in_order (doc_text (doc w))) (applied (doc w1))).
    { unfold w1, set_doc, Gtk.apply_tag. cbn [doc].
      destruct (Gtk.in_table t (doc w)); [|exact Hord].
      cbn [applied]. apply Forall_app. split; [exact Hord|].
      repeat constructor; unfold in_order; cbn [fst snd]; lia. }
    destruct (IH w1) as [Ht Ho].
    + rewrite Ht1. exact Hmf.
    + rewrite Ht1. exact Ho1.
    + rewrite Ht1 in *. split; assumption.
Qed.

(** X7: when the host never moves backwards and stays in the text, every
    range [run_pylint] highlights lies in the text and does not start
    after its end; the text itself is never changed.  This holds on every
    path of [run_pylint], for every output of pylint. *)
Theorem highlights_in_order
    (fwe : str -> nat -> nat) (proc : popen_result) (w : world) :
  moves_forward fwe (doc_text (doc w)) ->
  Forall (in_order (doc_text (doc w))) (applied (doc w)) ->
  doc_text (doc (snd (run_pylint fwe proc w))) = doc_text (doc w) /\
  Forall (in_order (doc_text (doc w)))
         (applied (doc (snd (run_pylint fwe proc w)))).
Proof.
  intros Hmf Hord.
  assert (Hwo : Forall (in_order (doc_text (doc w)))
                       (applied (without (map fst (lint_messages w)) (doc w)))).
  { rewrite without_spec. cbn [applied]. apply Forall_filter. exact Hord. }
  assert (Hwt : doc_text (without (map fst (lint_messages w)) (doc w))
                = doc_text (doc w))
    by (rewrite without_spec; reflexivity).
  destruct (doc_path (doc w)) as [path|] eqn:Ep.
  2:{ rewrite (run_pylint_no_path fwe proc w Ep). cbn [snd].
      split; [reflexivity|exact Hord]. }
  assert (Hp : doc_path (doc w) <> None) by congruence.
  destruct proc as [|rc output].
  - rewrite (run_pylint_not_found fwe w Hp). cbn [snd doc].
    fold (without (map fst (lint_messages w)) (doc w)).
    split; assumption.
  - destruct (Z.lt_ge_cases rc 32) as [Hlt|Hge].
    + rewrite (run_pylint_ran fwe rc output w Hp Hlt).
      rewrite run_pylint_tail_pipeline, pipeline_unfold.
      set (A := set_doc (without (map fst (lint_messages w)) (doc w)) w).
      destruct (lint_parse_loop_frame
                  (Py.enumerate (Py.split "010" output)) false
                  (set_messages [] A))
        as (Ht & _ & Ha & _); [constructor|].
      cbv zeta in Ht, Ha.
      change (doc (set_messages [] A))
        with (without (map fst (lint_messages w)) (doc w)) in Ht, Ha.
      rewrite Hwt in Ht.
      destruct (lint_parse_loop false _ (set_messages [] A)) as [[ah|e|] w1];
        cbn [snd] in *;
        try (split; [exact Ht|rewrite Ha; exact Hwo]).
      destruct (for_each_highlight_in_order fwe (lint_messages w1) w1)
        as [Ht2 Ho2].
      * rewrite Ht. exact Hmf.
      * rewrite Ht, Ha. exact Hwo.
      * rewrite Ht in *.
        destruct (for_each (highlight fwe) (lint_messages w1) w1)
          as [[[]|e|] w2]; cbn [snd] in *; split; assumption.
    + rewrite (run_pylint_failed fwe rc output w Hp Hge). cbn [snd].
      split; [reflexivity|exact Hord].
Qed.

Lemma highlights_in_order_witness :
  Forall (in_order sample_text)
         (applied (doc (snd (run_pylint Words.forward_word_end
                               (Exited 4 out_with_excerpt) w0)))).
Proof.
  apply (highlights_in_order Words.forward_word_end
           (Exited 4 out_with_excerpt) w0).
  - apply words_move_forward.
  - constructor.
Defined.

(** ** Tags and records after a run *)

Lemma format_nat_inj (a b : nat) : Py.format_nat a = Py.format_nat b -> a = b.
Proof.
  unfold Py.format_nat, s2l. intros H.
  apply (f_equal string_of_list_ascii) in H.
  rewrite !string_of_list_ascii_of_string in H.
  assert (Hn : forall n, Nat.to_uint n <> Decimal.Nil).
  { intros n.
    rewrite <- (DecimalNat.Unsigned.of_to n) at 1.
    rewrite DecimalNat.Unsigned.to_of.
    apply DecimalFacts.unorm_nonnil. }
  apply DecimalNat.Unsigned.to_uint_inj.
  pose proof (NilZero.usu _ (Hn a)) as Ha.
  pose proof (NilZero.usu _ (Hn b)) as Hb.
  rewrite H in Ha. congruence.
Qed.

Lemma pylint_in_name (n id : nat) (color : RGBA) :
  Py.contains (s2l "pylint") (tag_name (tag_for n id color)) = true.
Proof. reflexivity. Qed.

(** While [lint_parse] reads the lines from number [n] on, and every
    'pylint' tag of the table has the name of a line before [n], each tag
    it creates gets into the table. *)
Lemma lint_parse_loop_table (lines : list str) :
  forall (n : nat) (ah : bool) (w : world),
    Forall (fun i => i < next_id w) (key_ids w) ->
    (forall t, In t (tag_table (doc w)) ->
               Py.contains (s2l "pylint") (tag_name t) = true ->
               exists j, j < n /\
                         tag_name t = s2l "pylint-" ++ Py.format_nat j) ->
    let w' := snd (lint_parse_loop ah (Py.enumerate_from n lines) w) in
    exists new,
      lint_messages w' = lint_messages w ++ new /\
      tag_table (doc w') = tag_table (doc w) ++ map fst new /\
      Forall (fun kv => Py.contains (s2l "pylint") (tag_name (fst kv)) = true)
             new.
Proof.
  induction lines as [|m lines IH]; intros n ah w Hk Hnames; cbv zeta.
  - exists []. cbn [Py.enumerate_from lint_parse_loop ret snd map].
    rewrite !app_nil_r. repeat split. constructor.
  - cbn [Py.enumerate_from lint_parse_loop]. unfold bind.
    destruct (lint_parse_line_cases ah n m) as [[r H]|[st [color H]]];
      rewrite H.
    + destruct r as [ah'|e|]; cbn [snd].
      * apply IH; [exact Hk|].
        intros t Ht Hc. destruct (Hnames t Ht Hc) as (j & Hj & E).
        exists j. split; [lia|exact E].
      * exists []. cbn [map]. rewrite !app_nil_r. repeat split. constructor.
      * exists []. cbn [map]. rewrite !app_nil_r. repeat split. constructor.
    + set (t := tag_for n (next_id w) color).
      set (w1 := {| lint_messages := dict_set t st (lint_messages w);
                    doc := Gtk.add t (doc w);
                    stderr := stderr w;
                    next_id := S (next_id w) |}).
      assert (Hset : dict_set t st (lint_messages w)
                     = lint_messages w ++ [(t, st)]).
      { apply dict_set_fresh. unfold key_ids in Hk.
        rewrite Forall_map in Hk. exact Hk. }
      assert (Hadd : Gtk.add t (doc w) =
                     {| doc_location := doc_location (doc w);
                        doc_text := doc_text (doc w);
                        tag_table := tag_table (doc w) ++ [t];
                        applied := applied (doc w) |}).
      { unfold Gtk.add.
        destruct (Gtk.name_in_table (tag_name t) (doc w)) eqn:En;
          [|reflexivity].
        exfalso. unfold Gtk.name_in_table in En.
        apply existsb_exists in En as (u & Hu & E).
        unfold Py.str_eqb in E.
        destruct (list_eq_dec ascii_dec (tag_name t) (tag_name u)) as [E'|];
          [|discriminate].
        destruct (Hnames u Hu) as (j & Hj & Ej).
        { rewrite <- E'. apply pylint_in_name. }
        rewrite Ej in E'. unfold t, tag_for in E'. cbn [tag_name] in E'.
        apply app_inv_head in E'. apply format_nat_inj in E'. lia. }
      assert (Hk1 : Forall (fun i => i < next_id w1) (key_ids w1)).
      { unfold key_ids, w1. cbn [lint_messages next_id].
        rewrite Hset, map_app. apply Forall_app. split.
        - eapply Forall_impl; [|exact Hk]. cbn beta. intros; lia.
        - repeat constructor. }
      destruct (IH (S n) true w1 Hk1) as (new & Hm & Ht & Hp).
      { unfold w1. cbn [doc]. rewrite Hadd. cbn [tag_table].
        intros u Hu Hc. apply in_app_or in Hu. destruct Hu as [Hu|[<-|[]]].
        - destruct (Hnames u Hu Hc) as (j & Hj & E).
          exists j. split; [lia|exact E].
        - exists n. split; [lia|reflexivity]. }
      cbv zeta in Hm, Ht. cbn [snd].
      exists ((t, st) :: new).
      rewrite Hm, Ht. unfold w1. cbn [lint_messages doc].
      rewrite Hset, Hadd. cbn [tag_table map fst].
      rewrite <- !app_assoc. repeat split.
      constructor; [apply pylint_in_name|exact Hp].
Qed.

(** The loop over the records changes the highlights only, and adds one
    for each record whose tag is in the table, in the order of the
    records, until a record stops it. *)
Lemma for_each_highlight_spec (fwe : str -> nat -> nat)
                              (items : list (tag * status)) :
  forall w,
    (forall kv, In kv items -> Gtk.in_table (fst kv) (doc w) = true) ->
    let r := for_each (highlight fwe) items w in
    lint_messages (snd r) = lint_messages w /\
    tag_table (doc (snd r)) = tag_table (doc w) /\
    exists new,
      applied (doc (snd r)) = applied (doc w) ++ new /\
      (fst r = Ok tt ->
       map fst new = map fst items /\
       map (fun kv => target fwe (doc_text (doc w)) (snd kv)) items
       = map (fun a => Ok (snd a)) new).
Proof.
  induction items as [|[t st] items IH]; intros w Hin; cbv zeta.
  - cbn [for_each ret snd fst]. repeat split. exists [].
    rewrite app_nil_r. repeat split.
  - cbn [for_each]. unfold bind. rewrite highlight_target.
    destruct (target fwe (doc_text (doc w)) st) as [[s e]|x|] eqn:Et;
      cbn [snd fst];
      try (repeat split; exists []; rewrite app_nil_r;
           split; [reflexivity|discriminate]).
    assert (Hap : Gtk.apply_tag t s e (doc w) =
                  {| doc_location := doc_location (doc w);
                     doc_text := doc_text (doc w);
                     tag_table := tag_table (doc w);
                     applied := applied (doc w) ++ [(t, (s, e))] |}).
    { unfold Gtk.apply_tag.
      pose proof (Hin (t, st) (or_introl eq_refl)) as Hi. cbn [fst] in Hi.
      rewrite Hi. reflexivity. }
    set (w1 := set_doc (Gtk.apply_tag t s e (doc w)) w).
    destruct (IH w1) as (Hm & Ht & new & Ha & Hok).
    { intros kv Hkv. unfold w1, set_doc. cbn [doc]. rewrite Hap.
      unfold Gtk.in_table. cbn [tag_table].
      apply (Hin kv). right. exact Hkv. }
    cbv zeta in Hm, Ht, Ha, Hok.
    destruct (for_each (highlight fwe) items w1) as [r w2] eqn:Er.
    cbn [snd fst] in *.
    assert (Hd1 : doc w1 = Gtk.apply_tag t s e (doc w)) by reflexivity.
    rewrite Hd1, Hap in Ht, Ha, Hok. cbn [tag_table applied doc_text] in *.
    split; [exact Hm|]. split; [exact Ht|].
    exists ((t, (s, e)) :: new). rewrite Ha, <- app_assoc.
    split; [reflexivity|].
    destruct r as [[]|x|]; cbn [fst snd]; intros Hr; try discriminate.
    destruct (Hok eq_refl) as [H1 H2].
    cbn [map fst snd]. rewrite H1, <- H2, Et. split; reflexivity.
Qed.

Lemma for_each_highlight_frame (fwe : str -> nat -> nat)
                               (items : list (tag * status)) :
  forall w,
    lint_messages (snd (for_each (highlight fwe) items w)) = lint_messages w /\
    tag_table (doc (snd (for_each (highlight fwe) items w)))
      = tag_table (doc w).
Proof.
  induction items as [|[t st] items IH]; intros w; [split; reflexivity|].
  cbn [for_each]. unfold bind. rewrite highlight_target.
  destruct (target fwe (doc_text (doc w)) st) as [[s e]|x|];
    cbn [snd]; try (split; reflexivity).
  destruct (IH (set_doc (Gtk.apply_tag t s e (doc w)) w)) as [H1 H2].
  destruct (for_each (highlight fwe) items _) as [r w2]. cbn [snd] in *.
  rewrite H1, H2. unfold set_doc, Gtk.apply_tag. cbn [lint_messages doc].
  destruct (Gtk.in_table t (doc w)); split; reflexivity.
Qed.

Lemma existsb_key_id (t : tag) (msgs : list (tag * status)) :
  In (tag_id t) (map (fun kv => tag_id (fst kv)) msgs) ->
  existsb (fun k => tag_eqb k t) (map fst msgs) = true.
Proof.
  intros H. apply in_map_iff in H as ([k v] & E & Hk). cbn [fst] in E.
  apply existsb_exists. exists k. split.
  - apply in_map_iff. exists (k, v). split; [reflexivity|exact Hk].
  - unfold tag_eqb. apply Nat.eqb_eq. exact E.
Qed.

(** From [lint_parse] on, in a document none of whose tags has 'pylint'
    in its name. *)
Lemma pipeline_owned (fwe : str -> nat -> nat) (output : str) (w : world) :
  (forall t, In t (tag_table (doc w)) ->
             Py.contains (s2l "pylint") (tag_name t) = false) ->
  let r := pipeline fwe output w in
  tag_table (doc (snd r)) = tag_table (doc w) ++ map fst (lint_messages (snd r))
  /\ Forall (fun kv => Py.contains (s2l "pylint") (tag_name (fst kv)) = true)
            (lint_messages (snd r))
  /\ exists new,
       applied (doc (snd r)) = applied (doc w) ++ new /\
       (fst r = Ok false ->
        map fst new = map fst (lint_messages (snd r)) /\
        map (target fwe (doc_text (doc w))) (records (snd r))
        = map (fun a => Ok (snd a)) new).
Proof.
  intros Hno. cbv zeta. rewrite pipeline_unfold.
  destruct (lint_parse_loop_table (Py.split "010" output) 0 false
              (set_messages [] w))
    as (new & Hm & Ht & Hp).
  { constructor. }
  { intros t Hi Hc. change (doc (set_messages [] w)) with (doc w) in Hi.
    rewrite (Hno t Hi) in Hc. discriminate. }
  destruct (lint_parse_loop_frame (Py.enumerate (Py.split "010" output))
              false (set_messages [] w))
    as (Htx & _ & Ha & _); [constructor|].
  cbv zeta in Hm, Ht, Htx, Ha.
  fold (Py.enumerate (Py.split "010" output)) in Hm, Ht.
  change (lint_messages (set_messages [] w)) with (@nil (tag * status)) in Hm.
  change (doc (set_messages [] w)) with (doc w) in Ht, Htx, Ha.
  cbn [app] in Hm.
  destruct (lint_parse_loop false (Py.enumerate (Py.split "010" output))
              (set_messages [] w)) as [[ah|e|] w1];
    cbn [snd fst] in *;
    try (rewrite Hm, Ht; split; [reflexivity|]; split; [exact Hp|];
         exists []; rewrite app_nil_r; split; [exact Ha|discriminate]).
  destruct (for_each_highlight_spec fwe (lint_messages w1) w1)
    as (Hm2 & Ht2 & new2 & Ha2 & Hok).
  { intros kv Hkv. unfold Gtk.in_table. rewrite Ht. apply existsb_exists.
    exists (fst kv). split.
    - apply in_or_app. right. rewrite <- Hm. apply in_map. exact Hkv.
    - unfold tag_eqb. apply Nat.eqb_refl. }
  cbv zeta in Hm2, Ht2, Ha2, Hok.
  destruct (for_each (highlight fwe) (lint_messages w1) w1) as [r w2].
  cbn [snd fst] in *.
  assert (Hgoal :
    tag_table (doc w2) = tag_table (doc w) ++ map fst (lint_messages w2) /\
    Forall (fun kv => Py.contains (s2l "pylint") (tag_name (fst kv)) = true)
           (lint_messages w2) /\
    applied (doc w2) = applied (doc w) ++ new2).
  { rewrite Hm2, Ht2, Ha2, Ha, Ht, Hm. repeat split. exact Hp. }
  destruct Hgoal as (G1 & G2 & G3).
  destruct r as [[]|e|]; cbn [snd fst];
    (split; [exact G1|]; split; [exact G2|]; exists new2;
     split; [exact G3|]); try discriminate.
  intros _. destruct (Hok eq_refl) as [H1 H2].
  rewrite Hm2. split; [exact H1|].
  unfold records. rewrite Hm2, map_map, <- H2, Htx. reflexivity.
Qed.

Lemma without_no_pylint (w : world) :
  owned w ->
  forall t, In t (tag_table (without (map fst (lint_messages w)) (doc w))) ->
            Py.contains (s2l "pylint") (tag_name t) = false.
Proof.
  intros Ho t Ht. rewrite without_spec in Ht. cbn [tag_table] in Ht.
  apply filter_In in Ht as [Hin Hf].
  destruct (Py.contains (s2l "pylint") (tag_name t)) eqn:Ec; [|reflexivity].
  rewrite (existsb_key_id t (lint_messages w) (Ho t Hin Ec)) in Hf.
  discriminate.
Qed.
Lemma pipeline_keys (fwe : str -> nat -> nat) (output : str) (w : world) :
  exists k, key_ids (snd (pipeline fwe output w)) = seq (next_id w) k.
Proof.
  rewrite pipeline_unfold.
  destruct (lint_parse_loop_frame (Py.enumerate (Py.split "010" output))
              false (set_messages [] w))
    as (_ & _ & _ & _ & _ & Hk & _); [constructor|].
  cbv zeta in Hk.
  change (key_ids (set_messages [] w)) with (@nil nat) in Hk.
  change (next_id (set_messages [] w)) with (next_id w) in Hk.
  cbn [app] in Hk.
  destruct (lint_parse_loop false _ (set_messages [] w)) as [[ah|e|] w1];
    cbn [snd] in *; try (eexists; exact Hk).
  destruct (for_each_highlight_frame fwe (lint_messages w1) w1) as [Hm _].
  destruct (for_each (highlight fwe) (lint_messages w1) w1) as [[[]|e|] w2];
    cbn [snd] in *; unfold key_ids in *; rewrite Hm; eexists; exact Hk.
Qed.

Lemma for_each_highlight_applied (fwe : str -> nat -> nat)
                                 (items : list (tag * status)) :
  forall w, exists new,
    applied (doc (snd (for_each (highlight fwe) items w)))
    = applied (doc w) ++ new.
Proof.
  induction items as [|[t st] items IH]; intros w.
  - exists []. rewrite app_nil_r. reflexivity.
  - cbn [for_each]. unfold bind. rewrite highlight_target.
    destruct (target fwe (doc_text (doc w)) st) as [[s e]|x|];
      cbn [snd]; try (exists []; rewrite app_nil_r; reflexivity).
    destruct (IH (set_doc (Gtk.apply_tag t s e (doc w)) w)) as [new Hn].
    destruct (for_each (highlight fwe) items _) as [r w2]. cbn [snd] in *.
    rewrite Hn. unfold set_doc, Gtk.apply_tag. cbn [doc].
    destruct (Gtk.in_table t (doc w)); cbn [applied].
    + rewrite <- app_assoc. eexists. reflexivity.
    + eexists. reflexivity.
Qed.

(** From [lint_parse] on, tags and highlights are added only. *)
Lemma pipeline_adds (fwe : str -> nat -> nat) (output : str) (w : world) :
  (exists new, tag_table (doc (snd (pipeline fwe output w)))
               = tag_table (doc w) ++ new) /\
  (exists new, applied (doc (snd (pipeline fwe output w)))
               = applied (doc w) ++ new).
Proof.
  rewrite pipeline_unfold.
  destruct (lint_parse_loop_frame (Py.enumerate (Py.split "010" output))
              false (set_messages [] w))
    as (_ & _ & Ha & _ & _ & _ & new & Ht & _); [constructor|].
  cbv zeta in Ha, Ht.
  change (doc (set_messages [] w)) with (doc w) in Ha, Ht.
  destruct (lint_parse_loop false _ (set_messages [] w)) as [[ah|e|] w1];
    cbn [snd] in *;
    try (split; [exists new; exact Ht
                |exists []; rewrite app_nil_r; exact Ha]).
  destruct (for_each_highlight_frame fwe (lint_messages w1) w1) as [_ Ht2].
  destruct (for_each_highlight_applied fwe (lint_messages w1) w1)
    as [new2 Ha2].
  destruct (for_each (highlight fwe) (lint_messages w1) w1) as [[[]|e|] w2];
    cbn [snd] in *;
    (split; [exists new; rewrite Ht2; exact Ht
            |exists new2; rewrite Ha2, Ha; reflexivity]).
Qed.

Lemma pipeline_keys_nodup (fwe : str -> nat -> nat) (output : str)
                          (w : world) :
  NoDup (key_ids (snd (pipeline fwe output w))).
Proof.
  destruct (pipeline_keys fwe output w) as [k ->]. apply seq_NoDup.
Qed.

Lemma owned_of_table (w : world) (others : list tag) :
  tag_table (doc w) = others ++ map fst (lint_messages w) ->
  (forall t, In t others ->
             Py.contains (s2l "pylint") (tag_name t) = false) ->
  owned w.
Proof.
  intros Ht Hno t Hin Hc. rewrite Ht in Hin. apply in_app_or in Hin.
  destruct Hin as [Hin|Hin].
  - rewrite (Hno t Hin) in Hc. discriminate.
  - unfold key_ids. apply in_map_iff in Hin as (kv & <- & Hkv).
    apply in_map_iff. exists kv. split; [reflexivity|exact Hkv].
Qed.

(** ** Looking up the tags at the cursor *)

Lemma messages_getitem_key (t : tag) (msgs : list (tag * status)) :
  In (tag_id t) (map (fun kv => tag_id (fst kv)) msgs) ->
  exists st, messages_getitem t msgs = Some st.
Proof.
  induction msgs as [|[k v] msgs IH]; cbn [map In fst messages_getitem].
  - intros [].
  - unfold tag_eqb. destruct (Nat.eqb_spec (tag_id t) (tag_id k)) as [E|E].
    + intros _. exists v. reflexivity.
    + intros [H|H]; [congruence|]. apply IH. exact H.
Qed.

Lemma messages_getitem_no_key (t : tag) (msgs : list (tag * status)) :
  ~ In (tag_id t) (map (fun kv => tag_id (fst kv)) msgs) ->
  messages_getitem t msgs = None.
Proof.
  induction msgs as [|[k v] msgs IH]; cbn [map In fst messages_getitem].
  - reflexivity.
  - intros H. unfold tag_eqb.
    destruct (Nat.eqb_spec (tag_id t) (tag_id k)) as [E|E].
    + exfalso. apply H. left. symmetry. exact E.
    + apply IH. intros Hi. apply H. right. exact Hi.
Qed.

Lemma messages_getitem_item (t : tag) (st : status)
                            (msgs : list (tag * status)) :
  NoDup (map (fun kv => tag_id (fst kv)) msgs) ->
  In (t, st) msgs -> messages_getitem t msgs = Some st.
Proof.
  induction msgs as [|[k v] msgs IH]; cbn [map In fst messages_getitem].
  - intros _ [].
  - intros Hnd Hin. inversion Hnd as [|? ? Hni Hnd']; subst.
    unfold tag_eqb. destruct Hin as [E|Hin].
    + inversion E; subst. rewrite Nat.eqb_refl. reflexivity.
    + destruct (Nat.eqb_spec (tag_id t) (tag_id k)) as [E|E].
      * exfalso. apply Hni. rewrite <- E.
        apply (in_map (fun kv => tag_id (fst kv)) msgs (t, st)). exact Hin.
      * apply IH; assumption.
Qed.

Lemma show_loop_keys (msgs : list (tag * status)) (tags : list tag) :
  (forall t, In t tags ->
             Py.contains (s2l "pylint") (tag_name t) = true ->
             In (tag_id t) (map (fun kv => tag_id (fst kv)) msgs)) ->
  exists sts,
    Forall2 (fun t st => messages_getitem t msgs = Some st)
            (filter (fun t => Py.contains (s2l "pylint") (tag_name t)) tags)
            sts /\
    show_loop msgs tags = (map message sts, Ok tt).
Proof.
  induction tags as [|t tags IH]; intros Hk; cbn [show_loop filter].
  - exists []. split; [constructor|reflexivity].
  - destruct IH as (sts & Hf & Hs).
    { intros u Hu. apply Hk. right. exact Hu. }
    destruct (Py.contains (s2l "pylint") (tag_name t)) eqn:Ec.
    + destruct (messages_getitem_key t msgs (Hk t (or_introl eq_refl) Ec))
        as [st Hst].
      rewrite Hst, Hs. exists (st :: sts). split; [|reflexivity].
      constructor; assumption.
    + exists sts. split; assumption.
Qed.

Lemma show_loop_shows (msgs : list (tag * status)) (tags : list tag)
                      (t : tag) (st : status) :
  snd (show_loop msgs tags) = Ok tt ->
  In t tags ->
  Py.contains (s2l "pylint") (tag_name t) = true ->
  messages_getitem t msgs = Some st ->
  In (message st) (fst (show_loop msgs tags)).
Proof.
  intros Hok Hin Hc Hst.
  induction tags as [|u tags IH]; [destruct Hin|].
  cbn [show_loop] in *.
  destruct (Py.contains (s2l "pylint") (tag_name u)) eqn:Eu.
  - destruct (messages_getitem u msgs) as [su|] eqn:Es;
      cbn [fst snd] in *; [|discriminate].
    destruct Hin as [->|Hin].
    + left. congruence.
    + right. apply IH; assumption.
  - destruct Hin as [->|Hin]; [congruence|]. apply IH; assumption.
Qed.

Lemma show_loop_raises (msgs : list (tag * status)) (tags : list tag)
                       (t : tag) :
  In t tags ->
  Py.contains (s2l "pylint") (tag_name t) = true ->
  messages_getitem t msgs = None ->
  snd (show_loop msgs tags) = Raise KeyError.
Proof.
  intros Hin Hc Hst.
  induction tags as [|u tags IH]; [destruct Hin|].
  cbn [show_loop].
  destruct (Py.contains (s2l "pylint") (tag_name u)) eqn:Eu.
  - destruct (messages_getitem u msgs) as [su|] eqn:Es;
      cbn [snd]; [|reflexivity].
    destruct Hin as [->|Hin]; [congruence|]. apply IH. exact Hin.
  - destruct Hin as [->|Hin]; [congruence|]. apply IH. exact Hin.
Qed.

Lemma get_tags_in_table (d : document) (p : nat) (t : tag) :
  In t (get_tags d p) -> In t (tag_table d).
Proof. unfold get_tags. intros H. apply filter_In in H. apply H. Qed.

Lemma paired_item {A B C} (g : A * B -> result C) (items : list (A * B))
                  (new : list (A * C)) :
  map fst new = map fst items ->
  map g items = map (fun a => Ok (snd a)) new ->
  forall t st c, In (t, st) items -> g (t, st) = Ok c -> In (t, c) new.
Proof.
  revert new. induction items as [|[t0 s0] items IH]; intros new H1 H2 t st c.
  - intros [].
  - destruct new as [|[t1 c1] new]; [discriminate|].
    cbn [map fst snd] in H1, H2. inversion H1; subst. inversion H2.
    intros [E|Hin] Hg.
    + inversion E; subst. left. congruence.
    + right. apply (IH new) with (st := st); assumption.
Qed.
(** X8: a run keeps the document owned: when every tag of the document
    with 'pylint' in its name is a key of [lint_messages] before
    [run_pylint], the same holds after it, on every path and for every
    output of pylint. *)
Theorem run_pylint_keeps_owned
    (fwe : str -> nat -> nat) (proc : popen_result) (w : world) :
  owned w -> owned (snd (run_pylint fwe proc w)).
Proof.
  intros Ho.
  destruct (doc_path (doc w)) as [path|] eqn:Ep.
  2:{ rewrite (run_pylint_no_path fwe proc w Ep). exact Ho. }
  assert (Hp : doc_path (doc w) <> None) by congruence.
  destruct proc as [|rc output].
  - rewrite (run_pylint_not_found fwe w Hp). cbn [snd].
    intros t Ht Hc. cbn [doc] in Ht.
    fold (without (map fst (lint_messages w)) (doc w)) in Ht.
    rewrite (without_no_pylint w Ho t Ht) in Hc. discriminate.
  - destruct (Z.lt_ge_cases rc 32) as [Hlt|Hge].
    + rewrite (run_pylint_ran fwe rc output w Hp Hlt).
      rewrite run_pylint_tail_pipeline.
      set (A := set_doc (without (map fst (lint_messages w)) (doc w)) w).
      destruct (pipeline_owned fwe output A (without_no_pylint w Ho))
        as (Ht & _).
      apply (owned_of_table _ _ Ht). exact (without_no_pylint w Ho).
    + rewrite (run_pylint_failed fwe rc output w Hp Hge). exact Ho.
Qed.

Lemma run_pylint_keeps_owned_witness :
  owned w0 /\
  owned (snd (run_pylint Words.forward_word_end
                (Exited 4 out_with_excerpt) w0)).
Proof.
  assert (H : owned w0) by (intros t Ht; destruct Ht).
  split; [exact H|].
  apply (run_pylint_keeps_owned Words.forward_word_end
           (Exited 4 out_with_excerpt) w0 H).
Defined.

(** X9: one tag and one highlight for each record.  After a run on an
    owned document that ends without an exception, the tag table is what
    was left of it when the tags of the last run were removed, followed by
    the keys of [lint_messages] in their order; and the highlights are
    those that were left, followed by one for each record, in the order of
    the records, on the range computed from the record's line and
    column. *)
Theorem one_highlight_per_record
    (fwe : str -> nat -> nat) (rc : Z) (output : str) (w : world) :
  owned w ->
  doc_path (doc w) <> None ->
  (rc < 32)%Z ->
  fst (run_pylint fwe (Exited rc output) w) = Ok false ->
  let w' := snd (run_pylint fwe (Exited rc output) w) in
  let D := without (map fst (lint_messages w)) (doc w) in
  tag_table (doc w') = tag_table D ++ map fst (lint_messages w') /\
  exists new,
    applied (doc w') = applied D ++ new /\
    map fst new = map fst (lint_messages w') /\
    map (target fwe (doc_text (doc w))) (records w')
    = map (fun a => Ok (snd a)) new.
Proof.
  intros Ho Hp Hlt. cbv zeta.
  rewrite (run_pylint_ran fwe rc output w Hp Hlt), run_pylint_tail_pipeline.
  set (A := set_doc (without (map fst (lint_messages w)) (doc w)) w).
  intros Hok.
  destruct (pipeline_owned fwe output A (without_no_pylint w Ho))
    as (Ht & _ & new & Ha & Hnew).
  cbv zeta in Ht, Ha, Hnew. destruct (Hnew Hok) as [H1 H2].
  split; [exact Ht|]. exists new. split; [exact Ha|]. split; [exact H1|].
  rewrite <- H2. unfold A, set_doc. cbn [doc].
  rewrite without_spec. reflexivity.
Qed.

Lemma one_highlight_per_record_witness :
  let w' := snd (run_pylint Words.forward_word_end
                   (Exited 4 out_with_excerpt) w0) in
  let D := without (map fst (lint_messages w0)) (doc w0) in
  tag_table (doc w') = tag_table D ++ map fst (lint_messages w') /\
  exists new,
    applied (doc w') = applied D ++ new /\
    map fst new = map fst (lint_messages w') /\
    map (target Words.forward_word_end (doc_text (doc w0))) (records w')
    = map (fun a => Ok (snd a)) new.
Proof.
  apply (one_highlight_per_record Words.forward_word_end 4
           out_with_excerpt w0).
  - intros t Ht. destruct Ht.
  - discriminate.
  - lia.
  - vm_compute. reflexivity.
Defined.

Lemma show_lint_message_loop_ok (cursor_pos : nat) (w : world) :
  owned w ->
  exists sts,
    show_loop (lint_messages w) (get_tags (doc w) cursor_pos)
    = (map message sts, Ok tt).
Proof.
  intros Ho.
  destruct (show_loop_keys (lint_messages w) (get_tags (doc w) cursor_pos))
    as (sts & _ & Hs).
  - intros t Ht Hc. apply (Ho t (get_tags_in_table _ _ _ Ht) Hc).
  - exists sts. exact Hs.
Qed.

(** X10: on an owned document [show_lint_message] never fails: wherever
    the cursor is, it ends without an exception, and what it pushes on the
    status bar are the messages of the records stored under the 'pylint'
    tags at the cursor, one for each tag, in the order of the tags. *)
Theorem show_lint_message_on_owned (cursor_pos : nat) (w : world) :
  owned w ->
  exists sts,
    Forall2 (fun t st => messages_getitem t (lint_messages w) = Some st)
            (pylint_tags_at (doc w) cursor_pos) sts /\
    show_lint_message cursor_pos w = (map message sts, Ok tt).
Proof.
  intros Ho. unfold show_lint_message, pylint_tags_at.
  apply show_loop_keys. intros t Ht Hc.
  apply (Ho t (get_tags_in_table _ _ _ Ht) Hc).
Qed.

Lemma show_lint_message_on_owned_witness :
  exists sts,
    Forall2 (fun t st => messages_getitem t (lint_messages w_linted) = Some st)
            (pylint_tags_at (doc w_linted) 30) sts /\
    show_lint_message 30 w_linted = (map message sts, Ok tt).
Proof.
  apply (show_lint_message_on_owned 30 w_linted).
  intros t Ht Hc. vm_compute in Ht.
  destruct Ht as [<-|[<-|[]]]; vm_compute; auto.
Defined.

(** X11: the cursor on a highlight shows its message.  After a run on an
    owned document that ends without an exception, when the cursor is on
    a character of the range computed for a record, [show_lint_message]
    pushes the message of that record and ends without an exception. *)
Theorem cursor_on_highlight_shows_message
    (fwe : str -> nat -> nat) (rc : Z) (output : str) (w : world)
    (t : tag) (st : status) (s e cursor_pos : nat) :
  owned w ->
  doc_path (doc w) <> None ->
  (rc < 32)%Z ->
  fst (run_pylint fwe (Exited rc output) w) = Ok false ->
  In (t, st) (lint_messages (snd (run_pylint fwe (Exited rc output) w))) ->
  target fwe (doc_text (doc w)) st = Ok (s, e) ->
  s <= cursor_pos < e ->
  let shown :=
    show_lint_message cursor_pos (snd (run_pylint fwe (Exited rc output) w)) in
  In (message st) (fst shown) /\ snd shown = Ok tt.
Proof.
  intros Ho Hp Hlt. cbv zeta.
  rewrite (run_pylint_ran fwe rc output w Hp Hlt), run_pylint_tail_pipeline.
  set (A := set_doc (without (map fst (lint_messages w)) (doc w)) w).
  intros Hok Hin Htg Hcur.
  pose proof (pipeline_keys_nodup fwe output A) as Hnd.
  destruct (pipeline_owned fwe output A (without_no_pylint w Ho))
    as (Ht & Hnames & new & Ha & Hnew).
  cbv zeta in Ht, Hnames, Ha, Hnew. destruct (Hnew Hok) as [H1 H2].
  set (w' := snd (pipeline fwe output A)) in *.
  assert (Ho' : owned w')
    by (apply (owned_of_table _ _ Ht); exact (without_no_pylint w Ho)).
  assert (Htx : doc_text (doc A) = doc_text (doc w))
    by (unfold A, set_doc; cbn [doc]; rewrite without_spec; reflexivity).
  assert (Hnew_in : In (t, (s, e)) new).
  { unfold records in H2. rewrite map_map in H2.
    apply (paired_item (fun kv => target fwe (doc_text (doc A)) (snd kv))
             (lint_messages w') new H1 H2 t st (s, e) Hin).
    cbn [snd]. rewrite Htx. exact Htg. }
  assert (Htag : In t (get_tags (doc w') cursor_pos)).
  { unfold get_tags. apply filter_In. split.
    - rewrite Ht. apply in_or_app. right.
      apply (in_map fst (lint_messages w') (t, st)). exact Hin.
    - apply existsb_exists. exists (t, (s, e)). split.
      + rewrite Ha. apply in_or_app. right. exact Hnew_in.
      + cbn [fst snd]. unfold tag_eqb. rewrite Nat.eqb_refl.
        destruct (Nat.leb_spec s cursor_pos); [|lia].
        destruct (Nat.ltb_spec cursor_pos e); [reflexivity|lia]. }
  assert (Hname : Py.contains (s2l "pylint") (tag_name t) = true).
  { rewrite Forall_forall in Hnames. apply (Hnames (t, st) Hin). }
  destruct (show_lint_message_loop_ok cursor_pos w' Ho') as [sts Hs].
  unfold show_lint_message in *. rewrite Hs. cbn [fst snd].
  split; [|reflexivity].
  replace (map message sts)
    with (fst (show_loop (lint_messages w') (get_tags (doc w') cursor_pos)))
    by (rewrite Hs; reflexivity).
  apply (show_loop_shows _ _ t st).
  - rewrite Hs. reflexivity.
  - exact Htag.
  - exact Hname.
  - apply messages_getitem_item; assumption.
Qed.

Lemma cursor_on_highlight_shows_message_witness :
  In (s2l "[W0612 unused-variable] Unused variable 'my_long_name'")
     (fst (show_lint_message 30 w_linted)) /\
  snd (show_lint_message 30 w_linted) = Ok tt.
Proof.
  apply (cursor_on_highlight_shows_message Words.forward_word_end 4
           out_two_messages w0 (tag_for 3 1 color_W)
           {| line := s2l "4"; column := s2l "6";
              message :=
                s2l "[W0612 unused-variable] Unused variable 'my_long_name'" |}
           27 39 30).
  - intros t Ht. destruct Ht.
  - discriminate.
  - lia.
  - vm_compute. reflexivity.
  - vm_compute. right. left. reflexivity.
  - vm_compute. reflexivity.
  - lia.
Defined.

(** X12: a 'pylint' tag at the cursor that is not a key of
    [lint_messages] makes [show_lint_message] end with a KeyError,
    whatever other tags are at the cursor. *)
Theorem show_lint_message_key_error (cursor_pos : nat) (w : world) (t : tag) :
  In t (get_tags (doc w) cursor_pos) ->
  Py.contains (s2l "pylint") (tag_name t) = true ->
  ~ In (tag_id t) (key_ids w) ->
  snd (show_lint_message cursor_pos w) = Raise KeyError.
Proof.
  intros Hin Hc Hk. unfold show_lint_message.
  apply (show_loop_raises _ _ t Hin Hc).
  apply messages_getitem_no_key. exact Hk.
Qed.

Lemma show_lint_message_key_error_witness :
  snd (show_lint_message 30 (set_messages [] w_linted)) = Raise KeyError.
Proof.
  apply (show_lint_message_key_error 30 (set_messages [] w_linted)
           (tag_for 3 1 color_W)).
  - vm_compute. left. reflexivity.
  - reflexivity.
  - intros H. destruct H.
Defined.

(** X13: [lint_messages] is one dictionary for all documents.  When a
    document has a 'pylint' highlight, and [run_pylint] then gets as far
    as [lint_parse] for another document, every move of the cursor onto
    that highlight makes [show_lint_message] end with a KeyError, though
    it ended without an exception before the other run. *)
Theorem other_document_run_breaks_cursor
    (fwe : str -> nat -> nat) (rc : Z) (output : str) (w : world)
    (other : document) (cursor_pos : nat) (t : tag) :
  owned w ->
  well_formed w ->
  In t (get_tags (doc w) cursor_pos) ->
  Py.contains (s2l "pylint") (tag_name t) = true ->
  doc_path other <> None ->
  (rc < 32)%Z ->
  let after := snd (run_pylint fwe (Exited rc output) (set_doc other w)) in
  snd (show_lint_message cursor_pos w) = Ok tt /\
  snd (show_lint_message cursor_pos (set_doc (doc w) after)) = Raise KeyError.
Proof.
  intros Ho Hwf Hin Hc Hp Hlt. cbv zeta. split.
  - destruct (show_lint_message_loop_ok cursor_pos w Ho) as [sts Hs].
    unfold show_lint_message. rewrite Hs. reflexivity.
  - rewrite (run_pylint_ran fwe rc output (set_doc other w) Hp Hlt).
    rewrite run_pylint_tail_pipeline.
    set (A := set_doc _ (set_doc other w)).
    destruct (pipeline_keys fwe output A) as [k Hk].
    unfold show_lint_message.
    change (doc (set_doc (doc w) (snd (pipeline fwe output A)))) with (doc w).
    change (lint_messages (set_doc (doc w) (snd (pipeline fwe output A))))
      with (lint_messages (snd (pipeline fwe output A))).
    apply (show_loop_raises _ _ t Hin Hc).
    apply messages_getitem_no_key.
    fold (key_ids (snd (pipeline fwe output A))). rewrite Hk.
    change (next_id A) with (next_id w).
    intros Hi. apply in_seq in Hi.
    destruct Hwf as [Htab _]. rewrite Forall_forall in Htab.
    assert (tag_id t < next_id w).
    { apply Htab. unfold table_ids. apply in_map.
      apply (get_tags_in_table _ _ _ Hin). }
    lia.
Qed.

Lemma other_document_run_breaks_cursor_witness :
  snd (show_lint_message 30 w_linted) = Ok tt /\
  snd (show_lint_message 30
         (set_doc (doc w_linted)
            (snd (run_pylint Words.forward_word_end (Exited 0 [])
                    (set_doc other_doc w_linted)))))
  = Raise KeyError.
Proof.
  apply (other_document_run_breaks_cursor Words.forward_word_end 0 []
           w_linted other_doc 30 (tag_for 3 1 color_W)).
  - intros t Ht Hc. vm_compute in Ht.
    destruct Ht as [<-|[<-|[]]]; vm_compute; auto.
  - split; vm_compute; repeat constructor.
  - vm_compute. left. reflexivity.
  - reflexivity.
  - discriminate.
  - lia.
Defined.

(** X14: [run_pylint] takes away nothing that is not its own: a tag of
    the table and a highlight whose tag is not a key of [lint_messages]
    are still there after the run, on every path and for every output of
    pylint. *)
Theorem run_pylint_keeps_other_tags
    (fwe : str -> nat -> nat) (proc : popen_result) (w : world) :
  (forall t, In t (tag_table (doc w)) ->
             ~ In (tag_id t) (key_ids w) ->
             In t (tag_table (doc (snd (run_pylint fwe proc w))))) /\
  (forall a, In a (applied (doc w)) ->
             ~ In (tag_id (fst a)) (key_ids w) ->
             In a (applied (doc (snd (run_pylint fwe proc w))))).
Proof.
  assert (Hnk : forall u, ~ In (tag_id u) (key_ids w) ->
                  negb (existsb (fun k => tag_eqb k u)
                                (map fst (lint_messages w))) = true).
  { intros u Hu.
    destruct (existsb (fun k => tag_eqb k u) (map fst (lint_messages w)))
      eqn:Ex; [|reflexivity].
    exfalso. apply Hu. apply existsb_exists in Ex as (k & Hk & E).
    unfold tag_eqb in E. apply Nat.eqb_eq in E. rewrite <- E.
    unfold key_ids. apply in_map_iff in Hk as (kv & <- & Hkv).
    apply in_map_iff. exists kv. split; [reflexivity|exact Hkv]. }
  assert (Hw : (forall t, In t (tag_table (doc w)) ->
                  ~ In (tag_id t) (key_ids w) ->
                  In t (tag_table
                          (without (map fst (lint_messages w)) (doc w)))) /\
               (forall a, In a (applied (doc w)) ->
                  ~ In (tag_id (fst a)) (key_ids w) ->
                  In a (applied
                          (without (map fst (lint_messages w)) (doc w))))).
  { rewrite without_spec. cbn [tag_table applied].
    split; intros x Hx Hk; apply filter_In; (split; [exact Hx|]);
      apply Hnk; exact Hk. }
  destruct Hw as [Hwt Hwa].
  destruct (doc_path (doc w)) as [path|] eqn:Ep.
  2:{ rewrite (run_pylint_no_path fwe proc w Ep). cbn [snd].
      split; intros; assumption. }
  assert (Hp : doc_path (doc w) <> None) by congruence.
  destruct proc as [|rc output].
  - rewrite (run_pylint_not_found fwe w Hp). cbn [snd doc].
    fold (without (map fst (lint_messages w)) (doc w)).
    split; assumption.
  - destruct (Z.lt_ge_cases rc 32) as [Hlt|Hge].
    + rewrite (run_pylint_ran fwe rc output w Hp Hlt).
      rewrite run_pylint_tail_pipeline.
      set (A := set_doc (without (map fst (lint_messages w)) (doc w)) w).
      destruct (pipeline_adds fwe output A) as [[nt Ht] [na Ha]].
      rewrite Ht, Ha.
      split; intros x Hx Hk; apply in_or_app; left;
        [apply Hwt|apply Hwa]; assumption.
    + rewrite (run_pylint_failed fwe rc output w Hp Hge). cbn [snd].
      split; intros; assumption.
Qed.

Lemma run_pylint_keeps_other_tags_witness :
  In (tag_for 3 1 color_W)
     (tag_table (doc (snd (run_pylint Words.forward_word_end FileNotFound
                             (set_messages [] w_linted))))).
Proof.
  apply (proj1 (run_pylint_keeps_other_tags Words.forward_word_end
                  FileNotFound (set_messages [] w_linted))).
  - vm_compute. right. left. reflexivity.
  - intros H. destruct H.
Defined.

(** ** Tabs and signals *)

Section TabsFacts.

Variable fwe : str -> nat -> nat.

Lemma existsb_eqb_in (d : nat) (l : list nat) :
  existsb (Nat.eqb d) l = true <-> In d l.
Proof.
  rewrite existsb_exists. split.
  - intros (x & Hx & E). apply Nat.eqb_eq in E. subst. exact Hx.
  - intros H. exists d. split; [exact H|apply Nat.eqb_refl].
Qed.

Lemma tab_added_cases (tab : option nat) (proc : popen_result) (g : gedit) :
  (forall proc', tab_added fwe tab proc' g = (Ok (Some false), g)) \/
  exists d,
    tab = Some d /\
    ~ In d (known_documents g) /\
    Py.contains (s2l "python") (mime_type g d) = true /\
    snd (tab_added fwe tab proc g) =
    snd (run_pylint_on fwe d proc
           (known_documents_append d
              (attach_signal (Document d) (s2l "cursor-moved")
                 Show_lint_message
                 (attach_signal (Document d) (s2l "saved") Run_pylint g)))).
Proof.
  destruct tab as [d|]; [|left; reflexivity].
  destruct (existsb (Nat.eqb d) (known_documents g)) eqn:Ek.
  { left. intros proc'. cbn [tab_added]. rewrite Ek. reflexivity. }
  destruct (Py.contains (s2l "python") (mime_type g d)) eqn:Em.
  2:{ left. intros proc'. cbn [tab_added]. rewrite Ek, Em. reflexivity. }
  right. exists d.
  split; [reflexivity|]. split; [|split; [exact Em|]].
  - intros Hin. apply existsb_eqb_in in Hin. congruence.
  - cbn [tab_added]. rewrite Ek, Em. cbn [negb].
    unfold run_pylint_on. cbn [snd].
    destruct (fst (run_pylint fwe proc _)) as [b|e|]; reflexivity.
Qed.

Lemma tab_added_known (d : nat) (proc : popen_result) (g : gedit) :
  In d (known_documents g) ->
  tab_added fwe (Some d) proc g = (Ok (Some false), g).
Proof.
  intros H. apply existsb_eqb_in in H. cbn [tab_added]. rewrite H.
  reflexivity.
Qed.

Lemma run_pylint_on_known (d : nat) (proc : popen_result) (g : gedit) :
  known_documents (snd (run_pylint_on fwe d proc g)) = known_documents g.
Proof. reflexivity. Qed.

Lemma tab_added_made_known (d : nat) (proc : popen_result) (g : gedit) :
  In d (known_documents
          (snd (run_pylint_on fwe d proc
                  (known_documents_append d
                     (attach_signal (Document d) (s2l "cursor-moved")
                        Show_lint_message
                        (attach_signal (Document d) (s2l "saved")
                           Run_pylint g)))))).
Proof.
  rewrite run_pylint_on_known.
  unfold known_documents_append. cbn [known_documents].
  apply in_or_app. right. left. reflexivity.
Qed.

Lemma fold_tab_added {A} (tab : option nat) (proc : popen_result)
                     (l : list A) :
  forall g,
    fold_left (fun g _ => snd (tab_added fwe tab proc g)) l g
    = match l with
      | [] => g
      | _ :: _ => snd (tab_added fwe tab proc g)
      end.
Proof.
  induction l as [|x l IH]; intros g; [reflexivity|].
  cbn [fold_left]. rewrite IH. destruct l; [reflexivity|].
  destruct (tab_added_cases tab proc g) as [E|(d & -> & Hn & Hm & E)].
  - rewrite (E proc). cbn [snd]. rewrite (E proc). reflexivity.
  - rewrite E.
    rewrite (tab_added_known d proc _ (tab_added_made_known d proc g)).
    reflexivity.
Qed.

(** X15: the same tab-added signal again changes nothing: after
    [tab_added] was called for a tab, whatever came of it, a second call
    for the same tab returns False and leaves the plugin, the documents
    and the connections as they are. *)
Theorem tab_added_again (tab : option nat) (proc proc' : popen_result)
                        (g : gedit) :
  let g1 := snd (tab_added fwe tab proc g) in
  tab_added fwe tab proc' g1 = (Ok (Some false), g1).
Proof.
  cbv zeta.
  destruct (tab_added_cases tab proc g) as [E|(d & -> & Hn & Hm & E)].
  - rewrite (E proc). cbn [snd]. apply E.
  - rewrite E. apply tab_added_known. apply tab_added_made_known.
Qed.

(** X16: however many handlers the plugin has connected to the tab-added
    signal of its window, one signal has the effect of one call of
    [tab_added]. *)
Theorem tab_added_signal_once (tab : option nat) (proc : popen_result)
                              (g : gedit) :
  step fwe g (Emit_tab_added tab proc)
  = match connected (s2l "tab-added") Tab_added (window_connections g) with
    | [] => g
    | _ :: _ => snd (tab_added fwe tab proc g)
    end.
Proof. cbn [step]. apply fold_tab_added. Qed.

Lemma do_deactivate_spec (g : gedit) :
  do_deactivate g =
  {| handlers := handlers g;
     known_documents := known_documents g;
     plugin := plugin g;
     status_bar := status_bar g;
     window_connections :=
       filter (fun c => negb (existsb (Nat.eqb (hid c)) (handlers g)))
              (window_connections g);
     document_connections := document_connections g;
     mime_type := mime_type g;
     buffers := buffers g;
     next_hid := next_hid g |}.
Proof.
  unfold do_deactivate.
  assert (H : forall hs g0,
             fold_left (fun g h => disconnect h g) hs g0 =
             {| handlers := handlers g0;
                known_documents := known_documents g0;
                plugin := plugin g0;
                status_bar := status_bar g0;
                window_connections :=
                  filter (fun c => negb (existsb (Nat.eqb (hid c)) hs))
                         (window_connections g0);
                document_connections := document_connections g0;
                mime_type := mime_type g0;
                buffers := buffers g0;
                next_hid := next_hid g0 |}).
  { induction hs as [|h hs IH]; intros g0; cbn [fold_left existsb].
    - cbn [negb]. rewrite filter_true. destruct g0; reflexivity.
    - rewrite IH. unfold disconnect.
      cbn [handlers known_documents plugin status_bar window_connections
           document_connections mime_type buffers next_hid].
      rewrite filter_twice. f_equal. apply filter_ext. intros c.
      destruct (Nat.eqb (hid c) h); reflexivity. }
  apply H.
Qed.

Lemma documents_wired_tab_added (tab : option nat) (proc : popen_result)
                                  (g : gedit) :
  documents_wired g -> documents_wired (snd (tab_added fwe tab proc g)).
Proof.
  intros Hw.
  destruct (tab_added_cases tab proc g) as [E|(d & -> & Hn & _ & ->)];
    [rewrite (E proc); exact Hw|].
  destruct Hw as (Hnd & Hk & Hu).
  unfold documents_wired. cbn.
  split.
  { apply NoDup_app; [exact Hnd|repeat constructor; intros []|].
    intros x Hx [<-|[]]. contradiction. }
  split.
  { intros i Hi. apply in_app_or in Hi.
    destruct (Nat.eqb_spec i d) as [->|Hne].
    - rewrite (Hu d Hn). exists (next_hid g). reflexivity.
    - destruct Hi as [Hi|[E|[]]]; [apply Hk; exact Hi|congruence]. }
  intros i Hi.
  destruct (Nat.eqb_spec i d) as [->|Hne].
  - exfalso. apply Hi. apply in_or_app. right. left. reflexivity.
  - apply Hu. intros Hin. apply Hi. apply in_or_app. left. exact Hin.
Qed.

Lemma fold_keeps {A} (P : gedit -> Prop) (f : gedit -> gedit) (l : list A) :
  (forall g, P g -> P (f g)) ->
  forall g, P g -> P (fold_left (fun g _ => f g) l g).
Proof.
  intros Hf. induction l as [|x l IH]; intros g Hg; [exact Hg|].
  cbn [fold_left]. apply IH. apply Hf. exact Hg.
Qed.

Lemma documents_wired_step (g : gedit) (ev : event) :
  documents_wired g -> documents_wired (step fwe g ev).
Proof.
  intros Hw. destruct ev as [| |active proc|tab proc|d proc|d p|d m].
  - exact Hw.
  - cbn [step]. rewrite do_deactivate_spec. exact Hw.
  - cbn [step]. unfold do_update_state.
    destruct active as [[d []]|]; try exact Hw.
    pose proof (documents_wired_tab_added (Some d) proc g Hw) as H.
    destruct (tab_added fwe (Some d) proc g) as [[r|e|] g']; exact H.
  - cbn [step]. apply fold_keeps; [|exact Hw].
    intros g0. apply documents_wired_tab_added.
  - cbn [step]. apply fold_keeps; [|exact Hw]. intros g0 H. exact H.
  - cbn [step]. apply fold_keeps; [|exact Hw]. intros g0 H. exact H.
  - exact Hw.
Qed.

Lemma documents_wired_run_events (evs : list event) :
  forall g, documents_wired g -> documents_wired (run_events fwe evs g).
Proof.
  induction evs as [|ev evs IH]; intros g Hw; [exact Hw|].
  cbn [run_events fold_left]. apply IH. apply documents_wired_step. exact Hw.
Qed.

Lemma documents_wired_init (others : list (nat * str)) (first_hid : nat)
                           (mime : nat -> str) (bufs : nat -> document)
                           (first_id : nat) :
  documents_wired (init others first_hid mime bufs first_id).
Proof.
  unfold documents_wired, init. cbn.
  split; [constructor|]. split; [intros d []|reflexivity].
Qed.

Section Wired.

Variable others : list connection.
Variable first_hid : nat.
Hypothesis others_before : Forall (fun c => hid c < first_hid) others.

Lemma window_wired_tab_added (tab : option nat) (proc : popen_result)
                             (g : gedit) :
  window_wired others first_hid g ->
  window_wired others first_hid (snd (tab_added fwe tab proc g)).
Proof.
  intros Hw.
  destruct (tab_added_cases tab proc g) as [E|(d & -> & Hn & _ & ->)];
    [rewrite (E proc); exact Hw|].
  destruct Hw as (Hf & Hh & mine & Hwc & Hm).
  unfold window_wired. cbn.
  split; [lia|]. split; [exact Hh|].
  exists mine. split; assumption.
Qed.

Lemma deactivated (g : gedit) :
  window_wired others first_hid g ->
  window_connections (do_deactivate g) = others.
Proof.
  intros (Hf & Hh & mine & Hwc & Hm).
  rewrite do_deactivate_spec. cbn [window_connections].
  rewrite Hwc, filter_app.
  assert (E1 : filter (fun c => negb (existsb (Nat.eqb (hid c)) (handlers g)))
                      others = others).
  { apply filter_all. eapply Forall_impl; [|exact others_before].
    cbn beta. intros c Hc.
    destruct (existsb (Nat.eqb (hid c)) (handlers g)) eqn:Ex; [|reflexivity].
    apply existsb_eqb_in in Ex. rewrite Forall_forall in Hh.
    specialize (Hh _ Ex). lia. }
  assert (E2 : filter (fun c => negb (existsb (Nat.eqb (hid c)) (handlers g)))
                      mine = []).
  { clear Hwc. induction mine as [|c mine IH]; [reflexivity|].
    inversion Hm as [|? ? Hc Hm']; subst. cbn [filter].
    apply existsb_eqb_in in Hc. rewrite Hc. cbn [negb]. apply IH.
    exact Hm'. }
  rewrite E1, E2, app_nil_r. reflexivity.
Qed.

Lemma window_wired_step (g : gedit) (ev : event) :
  window_wired others first_hid g ->
  window_wired others first_hid (step fwe g ev).
Proof.
  intros Hw. destruct ev as [| |active proc|tab proc|d proc|d p|d m].
  - destruct Hw as (Hf & Hh & mine & Hwc & Hm).
    unfold window_wired. cbn.
    split; [lia|]. split.
    { apply Forall_app. split; [exact Hh|]. repeat constructor. exact Hf. }
    exists (mine ++ [{| hid := next_hid g; signal := s2l "tab-added";
                        callback := Tab_added |}]).
    rewrite Hwc, app_assoc. split; [reflexivity|].
    apply Forall_app. split.
    + eapply Forall_impl; [|exact Hm]. cbn beta. intros c Hc.
      apply in_or_app. left. exact Hc.
    + repeat constructor. cbn [hid]. apply in_or_app. right. left.
      reflexivity.
  - cbn [step]. pose proof (deactivated g Hw) as Hd.
    destruct Hw as (Hf & Hh & mine & Hwc & Hm).
    unfold window_wired. rewrite Hd.
    rewrite do_deactivate_spec. cbn [next_hid handlers].
    split; [exact Hf|]. split; [exact Hh|].
    exists []. rewrite app_nil_r. split; [reflexivity|constructor].
  - cbn [step]. unfold do_update_state.
    destruct active as [[d []]|]; try exact Hw.
    pose proof (window_wired_tab_added (Some d) proc g Hw) as H.
    destruct (tab_added fwe (Some d) proc g) as [[r|e|] g']; exact H.
  - cbn [step]. apply fold_keeps; [|exact Hw].
    intros g0. apply window_wired_tab_added.
  - cbn [step]. apply fold_keeps; [|exact Hw]. intros g0 H. exact H.
  - cbn [step]. apply fold_keeps; [|exact Hw]. intros g0 H. exact H.
  - exact Hw.
Qed.

Lemma window_wired_run_events (evs : list event) :
  forall g, window_wired others first_hid g ->
            window_wired others first_hid (run_events fwe evs g).
Proof.
  induction evs as [|ev evs IH]; intros g Hw; [exact Hw|].
  cbn [run_events fold_left]. apply IH. apply window_wired_step. exact Hw.
Qed.

End Wired.

End TabsFacts.

Lemma connected_others (sig : str) (h : handler) (others : list (nat * str)) :
  connected sig h
    (map (fun o => {| hid := fst o; signal := snd o; callback := Other |})
         others) = [].
Proof.
  unfold connected. induction others as [|o os IH]; [reflexivity|].
  cbn [map filter callback]. rewrite andb_false_r. exact IH.
Qed.

(** X17: whatever happens in the window after [__init__] (activations,
    deactivations, state updates, signals, changes of mime types), no
    document is twice in [known_documents], every known document has
    exactly the saved and the cursor-moved handler of the plugin, each
    connected once, and no other document has a handler. *)
Theorem documents_connected_once
    (fwe : str -> nat -> nat) (others : list (nat * str)) (first_hid : nat)
    (mime : nat -> str) (bufs : nat -> document) (first_id : nat)
    (evs : list event) (d : nat) :
  let g := run_events fwe evs (init others first_hid mime bufs first_id) in
  NoDup (known_documents g) /\
  (In d (known_documents g) ->
   exists h, document_connections g d = document_handlers h) /\
  (~ In d (known_documents g) -> document_connections g d = []).
Proof.
  cbv zeta.
  destruct (documents_wired_run_events fwe evs _
              (documents_wired_init others first_hid mime bufs first_id))
    as (Hnd & Hk & Hu).
  split; [exact Hnd|]. split; [apply Hk|apply Hu].
Qed.

(** X18: whatever happened in the window before, saving a known document
    runs [run_pylint] on it once, and a move of its cursor calls
    [show_lint_message] once; for a document that is not known neither
    signal does anything. *)
Theorem document_signals_once
    (fwe : str -> nat -> nat) (others : list (nat * str)) (first_hid : nat)
    (mime : nat -> str) (bufs : nat -> document) (first_id : nat)
    (evs : list event) (d : nat) (proc : popen_result) (cursor_pos : nat) :
  let g := run_events fwe evs (init others first_hid mime bufs first_id) in
  step fwe g (Emit_saved d proc)
  = (if existsb (Nat.eqb d) (known_documents g)
     then snd (run_pylint_on fwe d proc g) else g) /\
  step fwe g (Emit_cursor_moved d cursor_pos)
  = (if existsb (Nat.eqb d) (known_documents g)
     then snd (show_lint_message_on d cursor_pos g) else g).
Proof.
  cbv zeta.
  destruct (documents_wired_run_events fwe evs _
              (documents_wired_init others first_hid mime bufs first_id))
    as (Hnd & Hk & Hu).
  set (g := run_events fwe evs _) in *.
  cbn [step].
  destruct (existsb (Nat.eqb d) (known_documents g)) eqn:Ek.
  - apply existsb_eqb_in in Ek. destruct (Hk d Ek) as [h ->].
    split; reflexivity.
  - assert (Hn : ~ In d (known_documents g)).
    { intros Hin. apply existsb_eqb_in in Hin. congruence. }
    rewrite (Hu d Hn). split; reflexivity.
Qed.

(** X19: [do_deactivate] takes the plugin off the window and leaves the
    rest: whatever happened before, and however often the plugin was
    activated, after [do_deactivate] the window has the connections of
    the others and no more, so that a tab-added signal no longer reaches
    the plugin; the handlers of the documents stay connected. *)
Theorem deactivate_disconnects_window
    (fwe : str -> nat -> nat) (others : list (nat * str)) (first_hid : nat)
    (mime : nat -> str) (bufs : nat -> document) (first_id : nat)
    (evs : list event) :
  Forall (fun o => fst o < first_hid) others ->
  let g0 := init others first_hid mime bufs first_id in
  let g := run_events fwe evs g0 in
  window_connections (step fwe g Deactivate) = window_connections g0 /\
  (forall tab proc,
      step fwe (step fwe g Deactivate) (Emit_tab_added tab proc)
      = step fwe g Deactivate) /\
  (forall d, document_connections (step fwe g Deactivate) d
             = document_connections g d).
Proof.
  intros Ho. cbv zeta.
  set (g0 := init others first_hid mime bufs first_id).
  assert (Hb : Forall (fun c => hid c < first_hid) (window_connections g0)).
  { unfold g0, init. cbn [window_connections]. apply Forall_map.
    exact Ho. }
  assert (H0 : window_wired (window_connections g0) first_hid g0).
  { unfold window_wired, g0, init. cbn.
    split; [lia|]. split; [constructor|].
    exists []. rewrite app_nil_r. split; [reflexivity|constructor]. }
  pose proof (window_wired_run_events fwe _ first_hid Hb evs g0 H0) as Hw.
  pose proof (deactivated _ first_hid Hb _ Hw) as Hd.
  cbn [step]. split; [exact Hd|]. split.
  - intros tab proc. rewrite fold_tab_added, Hd.
    assert (E : connected (s2l "tab-added") Tab_added (window_connections g0)
                = []).
    { unfold g0, init. cbn [window_connections]. apply connected_others. }
    rewrite E. reflexivity.
  - intros d. rewrite do_deactivate_spec. reflexivity.
Qed.

Lemma deactivate_disconnects_window_witness :
  let g0 := sample_gedit in
  let g := run_events Words.forward_word_end
             [Activate; Activate;
              Emit_tab_added (Some 0) (Exited 4 out_two_messages)]
             g0 in
  window_connections (step Words.forward_word_end g Deactivate)
  = window_connections g0 /\
  (forall tab proc,
      step Words.forward_word_end
           (step Words.forward_word_end g Deactivate)
           (Emit_tab_added tab proc)
      = step Words.forward_word_end g Deactivate) /\
  (forall d, document_connections
               (step Words.forward_word_end g Deactivate) d
             = document_connections g d).
Proof.
  apply (deactivate_disconnects_window Words.forward_word_end
           [(0, s2l "tab-added")] 1 (fun _ => s2l "text/x-python")
           (fun _ => sample_doc) 0
           [Activate; Activate;
            Emit_tab_added (Some 0) (Exited 4 out_two_messages)]).
  repeat constructor.
Defined.

(** ** Output without a marker line *)

Lemma first_empty_line (lines : list str) :
  Forall (fun m => is_marker m = false) lines ->
  (existsb (fun m => match m with [] => true | _ :: _ => false end) lines
   = false /\
   Forall (fun m => m <> [] /\ is_marker m = false) lines) \/
  (existsb (fun m => match m with [] => true | _ :: _ => false end) lines
   = true /\
   exists pre rest,
     lines = pre ++ [] :: rest /\
     Forall (fun m => m <> [] /\ is_marker m = false) pre).
Proof.
  induction lines as [|m lines IH]; intros H.
  - left. split; [reflexivity|constructor].
  - inversion H as [|? ? Hm Hl]; subst.
    destruct m as [|c m].
    + right. split; [reflexivity|]. exists [], lines.
      split; [reflexivity|constructor].
    + cbn [existsb orb].
      destruct (IH Hl) as [[E F]|[E (pre & rest & -> & F)]].
      * left. split; [exact E|]. constructor; [|exact F].
        split; [discriminate|exact Hm].
      * right. split; [exact E|]. exists ((c :: m) :: pre), rest.
        split; [reflexivity|]. constructor; [|exact F].
        split; [discriminate|exact Hm].
Qed.

(** X21: output without a marker line gives no record and no tag.  When
    no line of the output begins with an asterisk and contains three
    asterisks in a row, [lint_parse] empties [lint_messages] and changes
    nothing else; it returns when no line of the output is empty, and
    raises IndexError when one is, as the last line of an output that ends
    with a newline. *)
Theorem no_marker_no_records (messages : str) (w : world) :
  Forall (fun m => is_marker m = false) (Py.split "010" messages) ->
  lint_parse messages w
  = (if existsb (fun m => match m with [] => true | _ :: _ => false end)
                (Py.split "010" messages)
     then Raise IndexError else Ok tt,
     set_messages [] w).
Proof.
  intros H.
  destruct (first_empty_line _ H) as [[E F]|[E (pre & rest & Hs & F)]];
    rewrite E.
  - apply no_header_no_records. exact F.
  - apply (empty_header_line_raises messages pre rest w Hs F).
Qed.

Lemma no_marker_no_records_witness :
  lint_parse (s2l "pylint: error: no such option") w_linted
  = (Ok tt, set_messages [] w_linted) /\
  lint_parse (s2l ("pylint: error: no such option" ++ nl)) w_linted
  = (Raise IndexError, set_messages [] w_linted).
Proof.
  split.
  - apply (no_marker_no_records (s2l "pylint: error: no such option")
             w_linted).
    repeat constructor.
  - apply (no_marker_no_records
             (s2l ("pylint: error: no such option" ++ nl)) w_linted).
    repeat constructor.
Defined.

Lemma whole_line_span_witness :
  exists s,
    span Words.forward_word_end sample_text 2 0
    = Ok (s, TextIter.line_end sample_text 11) /\
    11 <= s <= TextIter.line_end sample_text 11 /\
    (forall p, 11 <= p < s ->
               Py.contains (TextIter.get_char sample_text p) Py.whitespace
               = true) /\
    (s = TextIter.line_end sample_text 11 \/
     Py.contains (TextIter.get_char sample_text s) Py.whitespace = false).
Proof.
  apply (whole_line_span Words.forward_word_end sample_text 2 11).
  - reflexivity.
  - vm_compute. lia.
Defined.

(** ** A tag name that is taken *)

Section Shadowed.

Variable u : tag.
Variable n0 : nat.

Lemma shadowed_line (ah : bool) (n : nat) (m : str) (w : world) :
  shadowed u n0 w -> n0 <= next_id w ->
  shadowed u n0 (snd (lint_parse_line ah n m w)) /\
  next_id w <= next_id (snd (lint_parse_line ah n m w)).
Proof.
  intros Hs Hn.
  destruct (lint_parse_line_cases ah n m) as [[r H]|[st [color H]]];
    rewrite H; cbn [snd]; [split; [exact Hs|lia]|].
  split; [|cbn [next_id]; lia].
  destruct Hs as (Hu & Hk & Ht & Hname & Hkey & Hap).
  set (t := tag_for n (next_id w) color).
  assert (Hset : dict_set t st (lint_messages w)
                 = lint_messages w ++ [(t, st)]).
  { apply dict_set_fresh. unfold key_ids in Hk. rewrite Forall_map in Hk.
    eapply Forall_impl; [|exact Hk]. cbn beta. intros kv Hkv.
    cbn [tag_id t tag_for]. lia. }
  unfold shadowed, key_ids, table_ids.
  cbn [lint_messages doc next_id]. rewrite Hset.
  assert (Hk' : Forall (fun i => n0 <= i < S (next_id w))
                  (map (fun kv => tag_id (fst kv))
                       (lint_messages w ++ [(t, st)]))).
  { rewrite map_app. apply Forall_app. split.
    - eapply Forall_impl; [|exact Hk]. cbn beta. intros; lia.
    - repeat constructor; cbn [fst tag_id t tag_for]; lia. }
  assert (Hold : forall v, In v (tag_table (doc w)) -> tag_id v < next_id w).
  { intros v Hv. unfold table_ids in Ht. rewrite Forall_map in Ht.
    rewrite Forall_forall in Ht. apply Ht. exact Hv. }
  unfold Gtk.add.
  destruct (Gtk.name_in_table (tag_name t) (doc w)) eqn:En.
  - split; [exact Hu|]. split; [exact Hk'|]. split.
    { eapply Forall_impl; [|exact Ht]. cbn beta. intros; lia. }
    split; [exact Hname|]. split; [|exact Hap].
    intros v kv Hv Hge Hkv E. apply in_app_or in Hkv.
    destruct Hkv as [Hkv|[<-|[]]]; [apply (Hkey v kv); assumption|].
    cbn [fst tag_id t tag_for] in E. specialize (Hold v Hv). lia.
  - cbn [tag_table applied].
    split; [apply in_or_app; left; exact Hu|]. split; [exact Hk'|]. split.
    { rewrite map_app. apply Forall_app. split.
      - eapply Forall_impl; [|exact Ht]. cbn beta. intros; lia.
      - repeat constructor. }
    split.
    { intros v Hv Hge. apply in_app_or in Hv. destruct Hv as [Hv|[<-|[]]].
      - apply Hname; assumption.
      - intros E. unfold Gtk.name_in_table in En.
        assert (Hx : existsb (fun x => Py.str_eqb (tag_name t) (tag_name x))
                             (tag_table (doc w)) = true).
        { apply existsb_exists. exists u. split; [exact Hu|].
          unfold Py.str_eqb.
          destruct (list_eq_dec ascii_dec (tag_name t) (tag_name u));
            [reflexivity|contradiction]. }
        congruence. }
    split.
    { intros v kv Hv Hge Hkv E.
      apply in_app_or in Hv. apply in_app_or in Hkv.
      destruct Hv as [Hv|[<-|[]]]; destruct Hkv as [Hkv|[<-|[]]].
      - apply (Hkey v kv); assumption.
      - cbn [fst tag_id t tag_for] in E. specialize (Hold v Hv). lia.
      - exfalso. unfold key_ids in Hk. rewrite Forall_map in Hk.
        rewrite Forall_forall in Hk. specialize (Hk kv Hkv). cbn beta in Hk.
        cbn [tag_id t tag_for] in E. lia.
      - reflexivity. }
    intros a Ha Hge. unfold Gtk.in_table. cbn [tag_table].
    rewrite existsb_app. pose proof (Hap a Ha Hge) as H1.
    unfold Gtk.in_table in H1. rewrite H1. reflexivity.
Qed.

Lemma shadowed_loop (items : list (nat * str)) :
  forall (ah : bool) (w : world),
    shadowed u n0 w -> n0 <= next_id w ->
    shadowed u n0 (snd (lint_parse_loop ah items w)).
Proof.
  induction items as [|[n m] items IH]; intros ah w Hs Hn.
  - exact Hs.
  - cbn [lint_parse_loop]. unfold bind.
    destruct (shadowed_line ah n m w Hs Hn) as [Hs1 Hn1].
    destruct (lint_parse_line ah n m w) as [[ah'|e|] w1];
      cbn [snd] in *; try exact Hs1.
    apply IH; [exact Hs1|lia].
Qed.

Lemma shadowed_for_each (fwe : str -> nat -> nat)
                        (items : list (tag * status)) :
  forall w,
    shadowed u n0 w ->
    shadowed u n0 (snd (for_each (highlight fwe) items w)).
Proof.
  induction items as [|[t st] items IH]; intros w Hs.
  - exact Hs.
  - cbn [for_each]. unfold bind. rewrite highlight_target.
    destruct (target fwe (doc_text (doc w)) st) as [[s e]|x|];
      cbn [snd]; try exact Hs.
    apply IH.
    destruct Hs as (Hu & Hk & Ht & Hname & Hkey & Hap).
    unfold shadowed, set_doc, Gtk.apply_tag, key_ids, table_ids.
    cbn [lint_messages doc next_id].
    destruct (Gtk.in_table t (doc w)) eqn:Ein;
      [|repeat split; assumption].
    cbn [tag_table applied].
    repeat (split; [assumption|]).
    intros a Ha Hge. unfold Gtk.in_table. cbn [tag_table].
    apply in_app_or in Ha. destruct Ha as [Ha|[<-|[]]].
    + apply (Hap a Ha Hge).
    + exact Ein.
Qed.

Lemma shadowed_start (w : world) :
  In u (tag_table (doc w)) ->
  ~ In (tag_id u) (key_ids w) ->
  well_formed w ->
  n0 = next_id w ->
  shadowed u n0
    (set_messages []
       (set_doc (without (map fst (lint_messages w)) (doc w)) w)).
Proof.
  intros Hu Hk [Ht Ha] ->.
  unfold shadowed, set_messages, set_doc, key_ids, table_ids.
  cbn [lint_messages doc next_id map]. rewrite without_spec.
  cbn [tag_table applied].
  assert (Htl : forall v,
             In v (filter (fun x => negb (existsb (fun k => tag_eqb k x)
                                            (map fst (lint_messages w))))
                          (tag_table (doc w))) ->
             tag_id v < next_id w).
  { intros v Hv. apply filter_In in Hv as [Hv _].
    unfold table_ids in Ht. rewrite Forall_map, Forall_forall in Ht.
    apply Ht. exact Hv. }
  split.
  { apply filter_In. split; [exact Hu|].
    destruct (existsb (fun k => tag_eqb k u) (map fst (lint_messages w)))
      eqn:Ex; [|reflexivity].
    exfalso. apply Hk. apply existsb_exists in Ex as (k & Hin & E).
    unfold tag_eqb in E. apply Nat.eqb_eq in E. rewrite <- E.
    unfold key_ids. apply in_map_iff in Hin as (kv & <- & Hkv).
    apply in_map_iff. exists kv. split; [reflexivity|exact Hkv]. }
  split; [constructor|]. split.
  { rewrite Forall_map. apply Forall_forall. exact Htl. }
  split. { intros v Hv Hge. specialize (Htl v Hv). lia. }
  split. { intros v kv Hv Hge. specialize (Htl v Hv). lia. }
  intros a Hin Hge. apply filter_In in Hin as [Hin _].
  unfold applied_ids in Ha. rewrite Forall_map, Forall_forall in Ha.
  specialize (Ha a Hin). cbn beta in Ha. lia.
Qed.

End Shadowed.

(** X22: a name that is taken costs a message its highlight.  When the
    table of the document holds a tag that is not a key of
    [lint_messages], as after a run for another document, the run keeps
    that tag; a record of the run whose tag gets the same name is kept in
    [lint_messages], but its tag does not get into the table and no range
    of the text is highlighted for it. *)
Theorem taken_name_drops_highlight
    (fwe : str -> nat -> nat) (rc : Z) (output : str) (w : world)
    (u t : tag) (st : status) :
  doc_path (doc w) <> None ->
  (rc < 32)%Z ->
  well_formed w ->
  In u (tag_table (doc w)) ->
  ~ In (tag_id u) (key_ids w) ->
  In (t, st) (lint_messages (snd (run_pylint fwe (Exited rc output) w))) ->
  tag_name t = tag_name u ->
  In u (tag_table (doc (snd (run_pylint fwe (Exited rc output) w)))) /\
  Gtk.in_table t (doc (snd (run_pylint fwe (Exited rc output) w))) = false /\
  Forall (fun a => tag_id (fst a) <> tag_id t)
         (applied (doc (snd (run_pylint fwe (Exited rc output) w)))).
Proof.
  intros Hp Hlt Hwf Hu Hk.
  rewrite (run_pylint_ran fwe rc output w Hp Hlt), run_pylint_tail_pipeline.
  set (A := set_doc (without (map fst (lint_messages w)) (doc w)) w).
  assert (Hs : shadowed u (next_id w) (snd (pipeline fwe output A))).
  { rewrite pipeline_unfold.
    pose proof (shadowed_start u (next_id w) w Hu Hk Hwf eq_refl) as H0.
    fold A in H0.
    pose proof (shadowed_loop u (next_id w)
                  (Py.enumerate (Py.split "010" output)) false
                  (set_messages [] A) H0 (le_n _)) as H1.
    destruct (lint_parse_loop false _ (set_messages [] A)) as [[ah|e|] w1];
      cbn [snd] in *; try exact H1.
    pose proof (shadowed_for_each u (next_id w) fwe (lint_messages w1) w1 H1)
      as H2.
    destruct (for_each (highlight fwe) (lint_messages w1) w1)
      as [[[]|e|] w2]; exact H2. }
  set (w' := snd (pipeline fwe output A)) in *.
  intros Hin Hname.
  destruct Hs as (Hu' & Hk' & Ht' & Hn' & Hkey' & Hap').
  assert (Hge : next_id w <= tag_id t).
  { unfold key_ids in Hk'. rewrite Forall_map, Forall_forall in Hk'.
    specialize (Hk' (t, st) Hin). cbn [fst] in Hk'. lia. }
  assert (Hnot : Gtk.in_table t (doc w') = false).
  { destruct (Gtk.in_table t (doc w')) eqn:Ein; [|reflexivity].
    exfalso. unfold Gtk.in_table in Ein.
    apply existsb_exists in Ein as (v & Hv & E).
    unfold tag_eqb in E. apply Nat.eqb_eq in E.
    assert (Hvge : next_id w <= tag_id v) by lia.
    apply (Hn' v Hv Hvge).
    rewrite <- (Hkey' v (t, st) Hv Hvge Hin E). exact Hname. }
  split; [exact Hu'|]. split; [exact Hnot|].
  apply Forall_forall. intros a Ha E.
  assert (Hage : next_id w <= tag_id (fst a)) by lia.
  pose proof (Hap' a Ha Hage) as Hta.
  unfold Gtk.in_table in Hta, Hnot.
  apply existsb_exists in Hta as (v & Hv & Ev).
  assert (Hx : existsb (tag_eqb t) (tag_table (doc w')) = true).
  { apply existsb_exists. exists v. split; [exact Hv|].
    unfold tag_eqb in *. rewrite <- E. exact Ev. }
  congruence.
Qed.

Lemma taken_name_drops_highlight_witness :
  In (tag_for 3 1 color_W)
     (tag_table (doc (snd (run_pylint Words.forward_word_end
                             (Exited 4 out_two_messages)
                             (set_messages [] w_linted))))) /\
  Gtk.in_table (tag_for 3 3 color_W)
    (doc (snd (run_pylint Words.forward_word_end
                 (Exited 4 out_two_messages)
                 (set_messages [] w_linted)))) = false /\
  Forall (fun a => tag_id (fst a) <> tag_id (tag_for 3 3 color_W))
         (applied (doc (snd (run_pylint Words.forward_word_end
                               (Exited 4 out_two_messages)
                               (set_messages [] w_linted))))).
Proof.
  apply (taken_name_drops_highlight Words.forward_word_end 4
           out_two_messages (set_messages [] w_linted)
           (tag_for 3 1 color_W) (tag_for 3 3 color_W)
           {| line := s2l "4"; column := s2l "6";
              message :=
                s2l "[W0612 unused-variable] Unused variable 'my_long_name'" |}).
  - discriminate.
  - lia.
  - split; vm_compute; repeat constructor.
  - vm_compute. right. left. reflexivity.
  - intros H. destruct H.
  - vm_compute. right. left. reflexivity.
  - reflexivity.
Defined.

(** ** Documents that are not Python *)

Section NotPython.

Variable fwe : str -> nat -> nat.
Variable d : nat.
Variable buffer : document.

Lemma untouched_tab_added (tab : option nat) (proc : popen_result)
                          (g : gedit) :
  untouched d buffer g ->
  untouched d buffer (snd (tab_added fwe tab proc g)).
Proof.
  intros Hu.
  destruct (tab_added_cases fwe tab proc g) as [E|(d' & -> & Hn & Hm & ->)];
    [rewrite (E proc); exact Hu|].
  destruct Hu as (Hk & Hc & Hmime & Hb).
  assert (Hne : d <> d') by (intros <-; congruence).
  unfold untouched, run_pylint_on, known_documents_append, attach_signal,
    connect.
  cbn [snd known_documents document_connections mime_type buffers].
  destruct (Nat.eqb_spec d d') as [E|_]; [contradiction|].
  repeat split; try assumption.
  intros Hin. apply in_app_or in Hin. destruct Hin as [Hin|[E|[]]];
    [contradiction|congruence].
Qed.

Lemma untouched_step (g : gedit) (ev : event) :
  keeps_mime_type d ev -> untouched d buffer g ->
  untouched d buffer (step fwe g ev).
Proof.
  intros Hev Hu. destruct ev as [| |active proc|tab proc|d' proc|d' p|d' m].
  - exact Hu.
  - cbn [step]. rewrite do_deactivate_spec. exact Hu.
  - cbn [step]. unfold do_update_state.
    destruct active as [[d' []]|]; try exact Hu.
    pose proof (untouched_tab_added (Some d') proc g Hu) as H.
    destruct (tab_added fwe (Some d') proc g) as [[r|e|] g']; exact H.
  - cbn [step]. apply fold_keeps; [|exact Hu].
    intros g0. apply untouched_tab_added.
  - cbn [step]. destruct Hu as (Hk & Hc & Hmime & Hb).
    destruct (Nat.eqb_spec d d') as [<-|Hne].
    + rewrite Hc. repeat split; assumption.
    + apply fold_keeps; [|repeat split; assumption].
      intros g0 (Hk0 & Hc0 & Hm0 & Hb0).
      unfold untouched, run_pylint_on.
      cbn [snd known_documents document_connections mime_type buffers].
      destruct (Nat.eqb_spec d d') as [E|_]; [contradiction|].
      repeat split; assumption.
  - cbn [step]. apply fold_keeps; [|exact Hu].
    intros g0 H. exact H.
  - cbn [step keeps_mime_type] in *. destruct Hu as (Hk & Hc & Hmime & Hb).
    unfold untouched, set_mime_type.
    cbn [known_documents document_connections mime_type buffers].
    repeat split; try assumption.
    destruct (Nat.eqb_spec d d') as [E|_]; [|exact Hmime].
    apply Hev. symmetry. exact E.
Qed.

Lemma untouched_run_events (evs : list event) :
  forall g,
    Forall (keeps_mime_type d) evs ->
    untouched d buffer g -> untouched d buffer (run_events fwe evs g).
Proof.
  induction evs as [|ev evs IH]; intros g Hev Hu; [exact Hu|].
  inversion Hev as [|? ? H1 H2]; subst.
  cbn [run_events fold_left]. apply IH; [exact H2|].
  apply untouched_step; assumption.
Qed.

End NotPython.

(** X23: a document that is not Python is left alone.  As long as the
    mime type of a document does not contain 'python', whatever happens
    in the window, the plugin never puts it in [known_documents], connects
    no handler to it and does not touch its buffer, and saving it does
    nothing. *)
Theorem not_python_left_alone
    (fwe : str -> nat -> nat) (others : list (nat * str)) (first_hid : nat)
    (mime : nat -> str) (bufs : nat -> document) (first_id : nat)
    (evs : list event) (d : nat) (proc : popen_result) :
  Py.contains (s2l "python") (mime d) = false ->
  Forall (keeps_mime_type d) evs ->
  ~ In d (known_documents
            (run_events fwe evs (init others first_hid mime bufs first_id))) /\
  document_connections
    (run_events fwe evs (init others first_hid mime bufs first_id)) d = [] /\
  buffers (run_events fwe evs (init others first_hid mime bufs first_id)) d
  = bufs d /\
  step fwe (run_events fwe evs (init others first_hid mime bufs first_id))
       (Emit_saved d proc)
  = run_events fwe evs (init others first_hid mime bufs first_id).
Proof.
  intros Hm Hev.
  destruct (untouched_run_events fwe d (bufs d) evs
              (init others first_hid mime bufs first_id) Hev)
    as (Hk & Hc & _ & Hb).
  { unfold init. cbn. repeat split; [intros []|exact Hm]. }
  split; [exact Hk|]. split; [exact Hc|]. split; [exact Hb|].
  cbn [step]. rewrite Hc. reflexivity.
Qed.

Lemma not_python_left_alone_witness :
  let g := run_events Words.forward_word_end
             [Activate; Emit_tab_added (Some 1) (Exited 4 out_two_messages);
              Emit_tab_added (Some 0) (Exited 4 out_two_messages);
              Set_mime_type 0 (s2l "text/plain")]
             (init [] 0
                (fun i => if Nat.eqb i 1 then s2l "text/x-python"
                          else s2l "text/plain")
                (fun _ => sample_doc) 0) in
  ~ In 0 (known_documents g) /\
  document_connections g 0 = [] /\
  buffers g 0 = sample_doc /\
  step Words.forward_word_end g (Emit_saved 0 FileNotFound) = g.
Proof.
  apply (not_python_left_alone Words.forward_word_end [] 0
           (fun i => if Nat.eqb i 1 then s2l "text/x-python"
                     else s2l "text/plain")
           (fun _ => sample_doc) 0
           [Activate; Emit_tab_added (Some 1) (Exited 4 out_two_messages);
            Emit_tab_added (Some 0) (Exited 4 out_two_messages);
            Set_mime_type 0 (s2l "text/plain")]
           0 FileNotFound).
  - reflexivity.
  - repeat constructor.
Defined.
